(* ===== verification/_CoqProject ===== *)
-Q . S2P
Prelude.v
PyStr.v
PyRegex.v
Iban.v
PyFloat.v
Validators.v
Json.v
World.v
TransferRequest.v
AccountManager.v
SrcManager.v
G8XManager.v
Versions.v
