(* ===== verification/Prelude.v ===== *)
(** * A verification development of the uc3m_money transfer validator

    The repository is a small Python package ([src/src/main/python/uc3m_money])
    that validates bank transfer requests and deposits against Spanish IBANs
    and appends them to JSON files.  Two versions of the entry point are in
    the tree:
    - [transfer_request.py] (class [TransferRequest]): the request entity.  Its
      constructor runs every validator in a fixed order (IBAN of origin, IBAN
      of destination, concept, type, date, amount) and then
      [store_transfer_request] loads the transfer store, rejects a duplicate
      and rewrites the store with the new record appended;
    - [account_manager.py] (class [AccountManager], current version):
      [transfer_request] builds a [TransferRequest]; [deposit_into_account]
      and [calculate_balance] call [self.validate_iban], a method the class
      no longer defines;
    - [G8X.2025.T00.GE4-main/.../account_manager.py] (earlier version): the
      same class with [validate_iban], [validate_concept],
      [validate_transfer_date] and the transfer checks written inline.

    ** Layout of the development (files in dependency order)

    - [Prelude] (this file): the Python exception taxonomy [exn], the result
      type [res] of a call that may raise, its bind notation in
      [py_scope], the tactics [bool_to_prop] and [res_simpl], and the hint
      databases [pyvalid] and [pysimpl] shared by all files.
    - [PyStr]: the Python string operations the code calls ([s[a:b]],
      [str.replace] with a one-character pattern, [int()] of a digit string,
      [c in s], [str.split]); characters are Latin-1 code points (Rocq's
      [ascii]); strings beyond U+00FF are not modelled.
    - [PyRegex]: Python's [re.fullmatch] for the regex syntax the sources
      use (literals, classes, [\s], [\d], [.], groups, [|], bounded and
      unbounded repetition, [^], [$], look-ahead).  The inductive semantics
      [matches] is the specification; the executable matcher [ends]
      computes the set of end positions (fuel: the length of the string
      plus two, enough because every repeated part consumes input) and is
      proved sound and complete against it ([py_fullmatch_iff]).
    - [Iban]: [TransferRequest.validate_iban] (lines 39-88): the format
      regex, the rotation, the chain of 26 [str.replace] calls, [int()],
      mod 97 and the comparison; the ISO 7064 reference and the detection
      theorems.
    - [PyFloat]: Python floats by their shortest decimal, [str()] of a
      float as CPython's [repr], comparisons with integers, [==], and
      [float()] of a short decimal literal.
    - [Validators]: [validate_amount], [validate_concept],
      [validate_transfer_type] and the date check ([strptime] with the
      calendar, the comparison with today, the year range).
    - [Json]: JSON values, [t_i[key]], Python [==] on stored values,
      [json.dumps].
    - [World]: the state of a run (files, clock readings and the number of
      readings taken), the state-and-exception monad [PyM] with its
      notation in [pym_scope], file loading and dumping, and the effect
      predicates [keeps_files], [atomic] and [preserves] with their
      composition lemmas (hint database [pyeffect]).
    - [TransferRequest]: the constructor ([__init__], lines 11-37) as a
      [PyM] function, [store_transfer_request], [is_duplicate_transfer],
      [to_json], [__str__] and [transfer_code] over an abstract MD5 (the
      class [Digest]).  The store invariant [store_ok] (absent, or a list
      of requests appended one by one, none a duplicate of an earlier one)
      is preserved by every constructor call ([request_step]) and so holds
      in every reachable world, by rule induction on
      [clos_refl_trans_1n].
      The getters (lines 199-252) return one field, the setters (lines
      204-247) are functional updates of one field, with no validation.  A second invariant,
      [store_typed], says every stored record is a request that passed the
      validators.
    - [AccountManager]: what the two versions of the manager share.  The
      configuration, [AccountDeposit] and the earlier [TransferRequest]
      are not in the repository and are interfaces ([Config],
      [AccountDepositApi], [G8XRequestApi]); [float()] of a string and
      float addition are the interface [FloatOps], with a law fixing
      [float()] on short decimal literals.  It also holds the helpers of
      the handlers, the instances of the concrete runs, and
      [balance_tail_ok], the common part of both balance handlers.
    - [SrcManager]: the current class (module [Src]).  Line 49 and line 97
      look up [self.validate_iban], which the class lacks; the two
      handlers are written for any outcome of that lookup
      ([deposit_into_account_with], [calculate_balance_with]), so lines
      50-80 and 98-128 are modelled too, and the class's own handlers are
      them applied to the lookup's [AttributeError] ([validate_iban_attr]).
      [moved_validate_iban] is [TransferRequest.validate_iban] used as the
      method, the repair the code suggests.
    - [G8XManager]: the earlier class under [G8X.2025.T00.GE4-main]
      (module [G8X]).
    - [Versions]: the two versions of [transfer_request] compared.

    ** What is proved

    - IBAN: the code accepts exactly the ISO 7064 mod 97-10 IBANs of the
      Spanish shape with check digits 02..98 ([validate_iban_iso]); its
      only outcomes are the result and the two exceptions; every change of
      one BBAN digit, of the check digits, and every adjacent transposition
      is detected; the [str.replace] chain equals a single-pass table.
    - Regexes: the executable [fullmatch] is sound and complete for the
      inductive semantics ([py_fullmatch_iff]); since its fuel is a
      function of the input, the matcher is total.
    - Validators: what [validate_amount], [validate_transfer_type],
      [validate_concept] and [validate_transfer_date] accept, exactly:
      NaN passes the amount check; the concept's separators are any
      whitespace character but the newline, and the regex agrees with a
      reference that splits the concept at whitespace into at least two
      non-empty runs of letters ([validate_concept_split]); a date is accepted when it is
      a calendar date [DD/MM/YYYY], not before today, in 2025..2050.
    - [TransferRequest]: a failing constructor changes no file; the store
      invariant holds in every reachable world; a request accepted once is
      refused the second time (non-NaN amounts); a request with a NaN
      amount accepted once is accepted and stored again whenever its date
      is still valid ([nan_request_stored_twice]); a valid request that
      duplicates nothing is accepted and appended (progress); every stored
      record passed the validators; [str(self)], the digest input of the
      transfer code, differs for two requests exactly when their time
      stamps print differently, all other fields equal
      ([request_str_time_stamp]).
    - [AccountManager]: the round trip of the transfer store; the current
      deposit handler never returns; past the missing lookup it checks the
      amount format ["EUR dddd.dd"] (refusing negative amounts), refuses
      zero and appends the deposit; its handlers are atomic for every
      outcome of the lookup; its balance appends the sum of the matching
      amounts for any method, but even with [TransferRequest.validate_iban]
      restored it never finds an ["ES..."] IBAN (the two balance handlers
      share the tail lemma [balance_tail_ok]); on a fresh
      store the two versions of [transfer_request] return or raise the
      same exception alike; the earlier deposit handler accepts
      any non-zero amount literal, negative ones included; the earlier
      balance never finds an ["ES..."] IBAN, and appends the sum of the
      matching amounts when the log holds the transformed IBAN; the three
      earlier handlers are atomic; the earlier transfer-type check accepts
      exactly ["ORDINARY"], ["IMMEDIATE"] and ["URGENT"]
      ([g8x_transfer_type_iff]), where the current one spells the second
      ["INMEDIATE"].

    ** Bounds and fuel

    Regex matching uses fuel [S (S (length s))], which the completeness
    proof shows is enough.  [N_digits] and [strip_zeros] use the number of
    bits or digits of their argument as fuel.  Integers of the code
    ([int()] of 26 digits, mod 97) are unbounded Python integers and are
    [Z].  Dates compare by (year, month, day).

    ** Not modelled

    The byte-level I/O and [json.load]'s parser (files are values of the
    world, and [json.dump] followed by [json.load] gives back the value
    written); MD5 and the deposit signature (abstract functions); binary64
    rounding of [float()] on long literals and of [+] (the [FloatOps]
    interface), so the value of a balance sum is fixed only through that
    interface; [AccountManager.__init__] (an empty body) and the
    configuration module's values (interfaces); strings beyond Latin-1.
    The amount reaches [validate_amount] as a float (the model's [pyfloat]),
    for which [float(amount)] is the identity: the [ValueError] branch of
    lines 134-135, reachable only with a non-numeric string argument, is
    outside the model.  The earlier version's [TransferRequest] is absent
    from the repository; its constructor is taken to read the clock once
    and store nothing ([G8X.TransferRequest_init]). *)

From Stdlib Require Import String Ascii List ZArith Lia Bool.
Import ListNotations.

(** ** Python exceptions

    The sources raise [AccountManagementException] with a message; the
    remaining constructors are the built-in exceptions a call can let
    escape. *)

Inductive exn : Type :=
| AccountManagementException (msg : string)
| ValueError
| KeyError (key : string)
| TypeError
| AttributeError (name : string)
| FileNotFoundError
| JSONDecodeError.

(** ** Results of calls that may raise *)

Inductive res (A : Type) : Type :=
| Ok (a : A)
| Raise (e : exn).
Arguments Ok {A} a.
Arguments Raise {A} e.

Definition res_bind {A B : Type} (r : res A) (k : A -> res B) : res B :=
  match r with
  | Ok a => k a
  | Raise e => Raise e
  end.

(** [is_ok r] holds when the call returned normally. *)
Definition is_ok {A : Type} (r : res A) : bool :=
  match r with Ok _ => true | Raise _ => false end.

Declare Scope py_scope.
Delimit Scope py_scope with py.

Notation "x <- c ;; k" := (res_bind c (fun x => k))
  (at level 61, c at next level, right associativity) : py_scope.
Notation "c ;;; k" := (res_bind c (fun _ => k))
  (at level 61, right associativity) : py_scope.

(** A guard: [if cond: raise e]. *)
Definition raise_if (cond : bool) (e : exn) : res unit :=
  if cond then Raise e else Ok tt.

(** ** Generic lemmas on results *)

Lemma res_bind_ok {A B} (a : A) (k : A -> res B) : res_bind (Ok a) k = k a.
Proof. reflexivity. Qed.

Lemma res_bind_raise {A B} (e : exn) (k : A -> res B) :
  res_bind (Raise e) k = Raise e.
Proof. reflexivity. Qed.

Lemma res_bind_eq_ok {A B} (r : res A) (k : A -> res B) (b : B) :
  res_bind r k = Ok b <-> exists a, r = Ok a /\ k a = Ok b.
Proof.
  destruct r as [a|e]; simpl; split.
  - intros H. now exists a.
  - now intros (a' & [= ->] & H).
  - discriminate.
  - now intros (a' & H & _).
Qed.

Lemma raise_if_ok (c : bool) (e : exn) : raise_if c e = Ok tt <-> c = false.
Proof. destruct c; simpl; split; congruence. Qed.

Lemma res_bind_raise_if {B} (c : bool) (e : exn) (k : unit -> res B) :
  res_bind (raise_if c e) k = if c then Raise e else k tt.
Proof. now destruct c. Qed.

(** ** Proof automation shared by the components *)

Create HintDb pyvalid discriminated.
Create Rewrite HintDb pysimpl.
Create Rewrite HintDb pyregex.
#[export] Hint Rewrite @res_bind_ok @res_bind_raise @res_bind_raise_if : pysimpl.

(** [bool_to_prop] turns the boolean tests of the models into propositions. *)
Ltac bool_to_prop :=
  repeat match goal with
  | H : (_ && _)%bool = true |- _ => apply andb_true_iff in H as [? ?]
  | H : (_ || _)%bool = false |- _ => apply orb_false_iff in H as [? ?]
  | H : negb _ = true |- _ => apply negb_true_iff in H
  | H : negb _ = false |- _ => apply negb_false_iff in H
  | H : Nat.eqb _ _ = true |- _ => apply Nat.eqb_eq in H
  | H : Nat.eqb _ _ = false |- _ => apply Nat.eqb_neq in H
  | H : Nat.leb _ _ = true |- _ => apply Nat.leb_le in H
  | H : Nat.leb _ _ = false |- _ => apply Nat.leb_gt in H
  | H : Nat.ltb _ _ = true |- _ => apply Nat.ltb_lt in H
  | H : Nat.ltb _ _ = false |- _ => apply Nat.ltb_ge in H
  | H : Z.eqb _ _ = true |- _ => apply Z.eqb_eq in H
  | H : Z.eqb _ _ = false |- _ => apply Z.eqb_neq in H
  | H : Z.leb _ _ = true |- _ => apply Z.leb_le in H
  | H : Z.leb _ _ = false |- _ => apply Z.leb_gt in H
  | H : Z.ltb _ _ = true |- _ => apply Z.ltb_lt in H
  | H : Z.ltb _ _ = false |- _ => apply Z.ltb_ge in H
  end.

(** [res_simpl] unfolds the binds of a model once its guards are known. *)
Ltac res_simpl := autorewrite with pysimpl in *; simpl in *.
