(* ===== verification/PyStr.v ===== *)
(** * Python string operations used by the sources

    A Python [str] is modelled as a Rocq [string] whose characters are
    Latin-1 code points.  This file gives the slicing, [str.replace] with a
    one-character pattern, the [in] test, [str.split] with a one-character
    separator and [int()] of a string of ASCII digits, with the lemmas the
    components share (lengths, concatenation, digit values). *)

From Stdlib Require Import String Ascii List ZArith Lia Bool.
From S2P Require Import Prelude.
Import ListNotations.
Open Scope string_scope.

(** ** Slicing *)

(** [s[a:b]] for [0 <= a]: Python clamps both bounds to [len(s)] and an
    empty range gives [""]; [substring] clamps the same way. *)
Definition py_slice (a b : nat) (s : string) : string := substring a (b - a) s.

(** [s[:b]] and [s[a:]]. *)
Definition py_take (b : nat) (s : string) : string := substring 0 b s.
Definition py_drop (a : nat) (s : string) : string := substring a (String.length s - a) s.

(** ** [str.replace(old, new)] with a one-character [old] *)

Fixpoint replace_char (old : ascii) (new s : string) : string :=
  match s with
  | EmptyString => EmptyString
  | String c s' =>
      if Ascii.eqb c old then new ++ replace_char old new s'
      else String c (replace_char old new s')
  end.

(** A single pass that substitutes each character by a string. *)
Fixpoint sflat_map (f : ascii -> string) (s : string) : string :=
  match s with
  | EmptyString => EmptyString
  | String c s' => f c ++ sflat_map f s'
  end.

(** [c in s] *)
Fixpoint py_in_char (c : ascii) (s : string) : bool :=
  match s with
  | EmptyString => false
  | String c' s' => Ascii.eqb c' c || py_in_char c s'
  end.

(** [s.split(sep)] for a one-character separator: the pieces between the
    occurrences of [sep], always at least one. *)
Fixpoint py_split (sep : ascii) (s : string) : list string :=
  match s with
  | EmptyString => [EmptyString]
  | String c s' =>
      let rest := py_split sep s' in
      if Ascii.eqb c sep then EmptyString :: rest
      else match rest with
           | piece :: more => String c piece :: more
           | [] => [String c EmptyString]
           end
  end.

(** ** Digits and [int()] *)

Definition is_digit (c : ascii) : bool :=
  (Nat.leb 48 (nat_of_ascii c) && Nat.leb (nat_of_ascii c) 57)%bool.

Definition digit_val (c : ascii) : Z := (Z.of_nat (nat_of_ascii c) - 48)%Z.

Fixpoint all_digits (s : string) : bool :=
  match s with
  | EmptyString => true
  | String c s' => is_digit c && all_digits s'
  end.

(** The decimal value of a string of digits, most significant first. *)
Fixpoint digits_value_acc (acc : Z) (s : string) : Z :=
  match s with
  | EmptyString => acc
  | String c s' => digits_value_acc (acc * 10 + digit_val c)%Z s'
  end.

Definition digits_value (s : string) : Z := digits_value_acc 0 s.

(** [int(s)] on a string of ASCII digits; any other string raises
    [ValueError].  (Python also accepts surrounding blanks, a sign,
    underscores and non-ASCII digits; every string the sources convert
    has been checked against a digits-only regex first.) *)
Definition py_int (s : string) : option Z :=
  match s with
  | EmptyString => None
  | _ => if all_digits s then Some (digits_value s) else None
  end.

(** Every character is printable ASCII (codes 32 to 126): [str.encode()]
    is then the identity on the string's bytes. *)
Fixpoint printable (s : string) : bool :=
  match s with
  | EmptyString => true
  | String c rest => (Nat.leb 32 (nat_of_ascii c) && Nat.leb (nat_of_ascii c) 126 && printable rest)%bool
  end.

(** ** Lemmas *)

Lemma string_length_app (a b : string) :
  String.length (a ++ b) = String.length a + String.length b.
Proof. induction a as [|c a IH]; simpl; auto. Qed.

Lemma string_app_assoc (a b c : string) : a ++ (b ++ c) = (a ++ b) ++ c.
Proof. induction a as [|x a IH]; simpl; auto. now rewrite IH. Qed.

Lemma string_app_inj_l (a b c : string) : a ++ b = a ++ c -> b = c.
Proof. induction a as [|x a IH]; simpl; [auto|]. intros H. injection H. exact IH. Qed.

Lemma string_app_inj_r (a b s : string) : a ++ s = b ++ s -> a = b.
Proof.
  revert b. induction a as [|x a IH]; intros [|y b] H; [reflexivity| | |].
  - apply (f_equal String.length) in H. simpl in H. rewrite string_length_app in H. lia.
  - apply (f_equal String.length) in H. simpl in H. rewrite string_length_app in H. lia.
  - simpl in H. injection H as -> H. f_equal. exact (IH b H).
Qed.

Lemma string_app_nil_l (a : string) : EmptyString ++ a = a.
Proof. reflexivity. Qed.

Lemma string_app_nil_r (a : string) : a ++ EmptyString = a.
Proof. induction a as [|x a IH]; simpl; auto. now rewrite IH. Qed.

Lemma replace_char_app (old : ascii) (new a b : string) :
  replace_char old new (a ++ b) = replace_char old new a ++ replace_char old new b.
Proof.
  induction a as [|c a IH]; simpl; auto.
  destruct (Ascii.eqb c old); simpl; rewrite IH; auto using string_app_assoc.
Qed.

Lemma sflat_map_app (f : ascii -> string) (a b : string) :
  sflat_map f (a ++ b) = sflat_map f a ++ sflat_map f b.
Proof.
  induction a as [|c a IH]; simpl; auto. now rewrite IH, string_app_assoc.
Qed.

(** Replacing a character that does not occur changes nothing. *)
Lemma replace_char_absent (old : ascii) (new s : string) :
  py_in_char old s = false -> replace_char old new s = s.
Proof.
  induction s as [|c s IH]; simpl; intros H; auto.
  apply orb_false_iff in H as [Hc Hs]. rewrite Hc, IH; auto.
Qed.

(** [str.replace] with a one-character pattern distributes over a
    character-wise substitution. *)
Lemma replace_char_sflat_map (old : ascii) (new : string) (f : ascii -> string) (s : string) :
  replace_char old new (sflat_map f s) = sflat_map (fun c => replace_char old new (f c)) s.
Proof.
  induction s as [|c s IH]; simpl; auto. now rewrite replace_char_app, IH.
Qed.

Lemma sflat_map_ext (f g : ascii -> string) (s : string) :
  (forall c, f c = g c) -> sflat_map f s = sflat_map g s.
Proof. intros H. induction s as [|c s IH]; simpl; auto. now rewrite H, IH. Qed.

Lemma sflat_map_id (s : string) : sflat_map (fun c => String c EmptyString) s = s.
Proof. induction s as [|c s IH]; simpl; auto. now rewrite IH. Qed.

Lemma all_digits_app (a b : string) :
  all_digits (a ++ b) = (all_digits a && all_digits b)%bool.
Proof. induction a as [|c a IH]; simpl; auto. now rewrite IH, andb_assoc. Qed.

Lemma digits_value_acc_app (acc : Z) (a b : string) :
  digits_value_acc acc (a ++ b) = digits_value_acc (digits_value_acc acc a) b.
Proof. revert acc. induction a as [|c a IH]; simpl; auto. Qed.

Lemma digits_value_acc_shift (acc : Z) (s : string) :
  (digits_value_acc acc s = acc * 10 ^ Z.of_nat (String.length s) + digits_value_acc 0 s)%Z.
Proof.
  revert acc. induction s as [|c s IH]; intros acc; cbn [digits_value_acc String.length].
  - lia.
  - rewrite (IH (acc * 10 + digit_val c)%Z), (IH (0 * 10 + digit_val c)%Z).
    rewrite Nat2Z.inj_succ, Z.pow_succ_r by lia. ring.
Qed.

Lemma digits_value_app (a b : string) :
  (digits_value (a ++ b) =
   digits_value a * 10 ^ Z.of_nat (String.length b) + digits_value b)%Z.
Proof.
  unfold digits_value. now rewrite digits_value_acc_app, digits_value_acc_shift.
Qed.

Lemma digit_val_range (c : ascii) : is_digit c = true -> (0 <= digit_val c <= 9)%Z.
Proof. unfold is_digit, digit_val. intros H. bool_to_prop. lia. Qed.

Lemma digits_value_range (s : string) :
  all_digits s = true ->
  (0 <= digits_value s < 10 ^ Z.of_nat (String.length s))%Z.
Proof.
  induction s as [|c s IH]; intros H.
  - unfold digits_value; simpl; lia.
  - cbn [all_digits] in H. apply andb_true_iff in H as [Hc Hs].
    change (String c s) with (String c EmptyString ++ s).
    rewrite digits_value_app, string_length_app. specialize (IH Hs).
    pose proof (digit_val_range c Hc).
    change (digits_value (String c EmptyString)) with (0 * 10 + digit_val c)%Z.
    rewrite Nat2Z.inj_add, Z.pow_add_r by lia. cbn [String.length]. nia.
Qed.

Lemma py_int_digits (s : string) :
  s <> EmptyString -> all_digits s = true -> py_int s = Some (digits_value s).
Proof. destruct s; [congruence|]. intros _ H. unfold py_int. now rewrite H. Qed.

Lemma substring_all (s : string) : substring 0 (String.length s) s = s.
Proof. induction s as [|c s IH]; simpl; auto. now rewrite IH. Qed.

Lemma py_drop_app (a b : string) : py_drop (String.length a) (a ++ b) = b.
Proof.
  unfold py_drop. rewrite string_length_app, Nat.add_comm, Nat.add_sub.
  induction a as [|c a IH]; simpl; auto using substring_all.
Qed.

Lemma py_take_app (a b : string) : py_take (String.length a) (a ++ b) = a.
Proof.
  unfold py_take. induction a as [|c a IH]; simpl.
  - now destruct b.
  - now rewrite IH.
Qed.

Lemma get_app_r (a b : string) (k : nat) :
  get (String.length a + k) (a ++ b) = get k b.
Proof. induction a as [|c a IH]; simpl; auto. Qed.

(** [all_digits] read position by position. *)
Lemma all_digits_get (d : string) :
  all_digits d = true <->
  forall k, k < String.length d -> exists c, get k d = Some c /\ is_digit c = true.
Proof.
  induction d as [|c d IH]; simpl; split.
  - intros _ k Hk. lia.
  - auto.
  - intros H [|k] Hk; apply andb_true_iff in H as [Hc Hd]; eauto.
    apply IH; auto; lia.
  - intros H. apply andb_true_iff. split.
    + destruct (H 0 ltac:(lia)) as (c' & [= <-] & Hc). exact Hc.
    + apply IH. intros k Hk. apply (H (S k)). lia.
Qed.

Lemma string_app_inv_len (a b a' b' : string) :
  String.length a = String.length a' -> a ++ b = a' ++ b' -> a = a' /\ b = b'.
Proof.
  revert a'. induction a as [|c a IH]; intros [|c' a'] Hl H; simpl in *; try discriminate; auto.
  injection H as -> H. injection Hl as Hl. destruct (IH a' Hl H) as [-> ->]. auto.
Qed.

Lemma digits_value_cons (c : ascii) (s : string) :
  (digits_value (String c s) = digit_val c * 10 ^ Z.of_nat (String.length s) + digits_value s)%Z.
Proof.
  change (String c s) with (String c EmptyString ++ s). rewrite digits_value_app. reflexivity.
Qed.

(** The value of a string with one distinguished digit. *)
Lemma digits_value_mid (pre post : string) (x : ascii) :
  (digits_value (pre ++ String x post) =
   digits_value pre * 10 ^ (Z.of_nat (String.length post) + 1) +
   digit_val x * 10 ^ Z.of_nat (String.length post) + digits_value post)%Z.
Proof.
  rewrite digits_value_app, digits_value_cons. cbn [String.length].
  rewrite Nat2Z.inj_succ, <- Z.add_1_r, Z.pow_add_r by lia. ring.
Qed.

Lemma digit_val_inj (c d : ascii) :
  is_digit c = true -> is_digit d = true -> digit_val c = digit_val d -> c = d.
Proof.
  unfold digit_val. intros _ _ H.
  rewrite <- (ascii_nat_embedding c), <- (ascii_nat_embedding d). f_equal. lia.
Qed.

(** Equal values of digit strings of the same length are equal strings. *)
Lemma digits_value_inj (a b : string) :
  all_digits a = true -> all_digits b = true -> String.length a = String.length b ->
  digits_value a = digits_value b -> a = b.
Proof.
  revert b. induction a as [|c a IH]; intros [|d b] Ha Hb Hl Hv; simpl in *;
    try discriminate; auto.
  bool_to_prop. injection Hl as Hl. rewrite !digits_value_cons, Hl in Hv.
  pose proof (digits_value_range a ltac:(assumption)) as Ra.
  pose proof (digits_value_range b ltac:(assumption)) as Rb.
  rewrite Hl in Ra.
  pose proof (digit_val_range c ltac:(assumption)). pose proof (digit_val_range d ltac:(assumption)).
  assert (digit_val c = digit_val d) as Ecd by nia.
  rewrite (digit_val_inj c d), (IH b); auto; lia.
Qed.

Lemma py_in_char_app (c : ascii) (a b : string) :
  py_in_char c (a ++ b) = (py_in_char c a || py_in_char c b)%bool.
Proof. induction a as [|x a IH]; simpl; auto. now rewrite IH, orb_assoc. Qed.

Lemma all_digits_no_char (c : ascii) (s : string) :
  is_digit c = false -> all_digits s = true -> py_in_char c s = false.
Proof.
  intros Hc. induction s as [|x s IH]; simpl; intros H; auto.
  apply andb_true_iff in H as [Hx Hs]. rewrite IH by auto.
  destruct (Ascii.eqb_spec x c) as [->|]; [congruence|reflexivity].
Qed.

Lemma py_split_no_sep (c : ascii) (s : string) :
  py_in_char c s = false -> py_split c s = [s].
Proof.
  induction s as [|x s IH]; simpl; intros H; auto.
  apply orb_false_iff in H as [Hx Hs]. now rewrite Hx, IH.
Qed.

Lemma py_split_app_sep (c : ascii) (a b : string) :
  py_in_char c a = false -> py_split c (a ++ String c b) = a :: py_split c b.
Proof.
  induction a as [|x a IH]; simpl; intros H.
  - now rewrite Ascii.eqb_refl.
  - apply orb_false_iff in H as [Hx Ha]. now rewrite Hx, IH.
Qed.

Lemma py_take_drop (k : nat) (s : string) : py_take k s ++ py_drop k s = s.
Proof.
  unfold py_take, py_drop. revert k. induction s as [|c s IH]; intros [|k]; simpl; auto.
  - now rewrite substring_all.
  - now rewrite IH.
Qed.

Lemma length_py_take (k : nat) (s : string) :
  k <= String.length s -> String.length (py_take k s) = k.
Proof.
  unfold py_take. revert k. induction s as [|c s IH]; intros [|k] Hk; simpl in *; auto; try lia.
  rewrite IH; lia.
Qed.

Lemma length_py_drop (k : nat) (s : string) :
  k <= String.length s -> String.length (py_drop k s) = String.length s - k.
Proof.
  intros Hk. pose proof (f_equal String.length (py_take_drop k s)) as E.
  rewrite string_length_app, length_py_take in E by auto. lia.
Qed.

Lemma all_digits_take_drop (k : nat) (s : string) :
  all_digits s = true -> all_digits (py_take k s) = true /\ all_digits (py_drop k s) = true.
Proof.
  intros H. rewrite <- (py_take_drop k s), all_digits_app in H. now apply andb_true_iff.
Qed.

Lemma get_none (s : string) (k : nat) : String.length s <= k -> get k s = None.
Proof.
  revert k. induction s as [|c s IH]; intros [|k] Hk; simpl in *; auto; try lia.
  apply IH. lia.
Qed.

Lemma get_some (s : string) (k : nat) : k < String.length s -> exists c, get k s = Some c.
Proof.
  revert k. induction s as [|c s IH]; intros [|k] Hk; simpl in *; try lia; eauto.
  apply IH. lia.
Qed.

(** [s[i:]] starts with the character at [i]. *)
Lemma py_drop_get (s : string) (i : nat) (c : ascii) :
  get i s = Some c -> py_drop i s = String c (py_drop (S i) s).
Proof.
  revert i. induction s as [|d s IH]; intros [|i] H; simpl in H; try discriminate.
  - injection H as ->. unfold py_drop. simpl. rewrite !Nat.sub_0_r, !substring_all. reflexivity.
  - exact (IH i H).
Qed.

Lemma py_drop_end (s : string) (i : nat) : String.length s <= i -> py_drop i s = EmptyString.
Proof.
  intros H. unfold py_drop. replace (String.length s - i) with 0 by lia. clear H.
  revert i. induction s as [|d s IH]; intros [|i]; simpl; auto.
Qed.

Lemma two_digits_value (a b : ascii) :
  digits_value (String a (String b EmptyString)) = (10 * digit_val a + digit_val b)%Z.
Proof. cbn [digits_value digits_value_acc]. lia. Qed.

Lemma ascii_of_code (a : ascii) (n : nat) : nat_of_ascii a = n -> a = ascii_of_nat n.
Proof. intros <-. symmetry. apply ascii_nat_embedding. Qed.

Lemma printable_app (a b : string) : printable (a ++ b) = (printable a && printable b)%bool.
Proof. induction a as [|c a IH]; simpl; [reflexivity|]. rewrite IH. now rewrite !andb_assoc. Qed.

Lemma printable_substring (s : string) (n m : nat) :
  printable s = true -> printable (substring n m s) = true.
Proof.
  revert n m. induction s as [|c s IH]; intros n m H; [destruct n, m; reflexivity|].
  cbn [printable] in H. apply andb_true_iff in H as [Hc H].
  destruct n as [|n]; [destruct m as [|m]; [reflexivity|]|]; cbn [substring printable].
  - rewrite Hc. exact (IH 0 m H).
  - exact (IH n m H).
Qed.

Lemma printable_sflat_map (f : ascii -> string) (s : string) :
  (forall c, printable (f c) = true) -> printable (sflat_map f s) = true.
Proof.
  intros Hf. induction s as [|c s IH]; simpl; [reflexivity|]. now rewrite printable_app, Hf, IH.
Qed.

Lemma printable_digits (s : string) : all_digits s = true -> printable s = true.
Proof.
  induction s as [|c s IH]; cbn [all_digits printable]; [reflexivity|]. unfold is_digit.
  intros H. bool_to_prop. rewrite IH by assumption. rewrite andb_true_r.
  apply andb_true_iff. split; apply Nat.leb_le; lia.
Qed.

(** Two strings of the same length that agree below it are equal. *)
Lemma string_ext (s w : string) :
  String.length s = String.length w ->
  (forall k, k < String.length w -> get k s = get k w) -> s = w.
Proof.
  intros Hl H. apply get_correct. intros k.
  destruct (Nat.lt_ge_cases k (String.length w)); auto.
  rewrite !get_none; auto. lia.
Qed.

#[export] Hint Rewrite string_length_app replace_char_app sflat_map_app
  all_digits_app py_drop_app py_take_app : pysimpl.
