(* ===== verification/PyRegex.v ===== *)
(** * Python's [re.fullmatch] for the patterns of the sources

    [check_regular(pattern, value)] ([transfer_request.py]) and
    [check_regex(pattern, string)] (earlier [account_manager.py]) compile a
    pattern and call [fullmatch].  This file models the part of Python's
    regex language the five patterns of the sources use, as an abstract
    syntax [regex] (a pattern of the sources is transcribed into it in the
    component that uses it), with
    - [matches s r i j]: the specification, an inductive relation saying
      that [r] can match [s] from position [i] to position [j], together
      with [repeats] for [n] consecutive matches of a repeated body;
    - [ends s r i]: an executable matcher, the list of all end positions of
      the matches of [r] starting at [i] (the set of outcomes Python's
      backtracking explores);
    - [py_fullmatch r s]: a match from [0] that ends at [len(s)].
    [ends_sound] and [ends_complete] prove the matcher equal to the
    specification for the patterns whose repeated bodies consume input
    ([wf_regex]), which all patterns of the sources do; [py_fullmatch_iff]
    is the resulting refinement theorem.

    Python character classes are taken on Latin-1 code points: [\d] is
    [0-9] (the only decimal digits below U+0100), [\s] is the set of
    [str.isspace] characters (tab to carriage return, U+001C to U+001F,
    space, U+0085, U+00A0), [.] is any character but a newline, [^] holds
    at position 0 and [$] at the end or before a final newline. *)

From Stdlib Require Import String Ascii List Arith Lia Bool.
From S2P Require Import Prelude PyStr.
Import ListNotations.

(** ** Syntax *)

Inductive class_item : Type :=
| CRange (lo hi : ascii)   (** [a-z] inside brackets *)
| CChar (c : ascii)        (** a single character inside brackets *)
| CDigit                   (** [\d] *)
| CSpace.                  (** [\s] *)

Inductive regex : Type :=
| RChar (c : ascii)                              (** a literal or escaped character *)
| RAny                                           (** [.] *)
| RClass (items : list class_item)               (** [[...]], [\d], [\s] *)
| RCat (r1 r2 : regex)                           (** juxtaposition, groups *)
| RAlt (r1 r2 : regex)                           (** [r1|r2] *)
| RRepeat (lo : nat) (hi : option nat) (r : regex) (** [r{lo,hi}], [r+], [r{n}] *)
| RBol                                           (** [^] *)
| REol                                           (** [$] *)
| RLookahead (r : regex).                        (** [(?=r)] *)

(** Concatenation of a list of regexes and of a literal string. *)
Fixpoint rseq (rs : list regex) : regex :=
  match rs with
  | [] => RRepeat 0 (Some 0) (RChar "000")
  | [r] => r
  | r :: rs' => RCat r (rseq rs')
  end.

Definition rplus (r : regex) : regex := RRepeat 1 None r.

(** A literal word. *)
Fixpoint rstr (w : string) : regex :=
  match w with
  | EmptyString => rseq []
  | String c EmptyString => RChar c
  | String c w' => RCat (RChar c) (rstr w')
  end.

(** ** Character predicates of Python's [re] on Latin-1 *)

Definition py_isspace (c : ascii) : bool :=
  let n := nat_of_ascii c in
  ((Nat.leb 9 n && Nat.leb n 13) || (Nat.leb 28 n && Nat.leb n 32)
   || Nat.eqb n 133 || Nat.eqb n 160)%bool.

Definition item_test (c : ascii) (it : class_item) : bool :=
  match it with
  | CRange lo hi => (Nat.leb (nat_of_ascii lo) (nat_of_ascii c) &&
                     Nat.leb (nat_of_ascii c) (nat_of_ascii hi))%bool
  | CChar d => Ascii.eqb c d
  | CDigit => is_digit c
  | CSpace => py_isspace c
  end.

Definition class_test (items : list class_item) (c : ascii) : bool :=
  existsb (item_test c) items.

Definition newline : ascii := "010".

(** [$] without MULTILINE. *)
Definition at_eol (s : string) (i : nat) : bool :=
  (Nat.eqb i (String.length s) ||
   (Nat.eqb (S i) (String.length s) &&
    match get i s with Some c => Ascii.eqb c newline | None => false end))%bool.

(** The test of a one-character regex on the character at hand. *)
Definition char_test (r : regex) (c : ascii) : bool :=
  match r with
  | RChar d => Ascii.eqb c d
  | RAny => negb (Ascii.eqb c newline)
  | RClass items => class_test items c
  | _ => false
  end.

(** ** Executable matcher: the set of end positions *)

Definition dedup (l : list nat) : list nat := nodup Nat.eq_dec l.
Arguments dedup : simpl never.

Fixpoint rep_ends (f : nat -> list nat) (lo : nat) (hi : option nat)
         (fuel : nat) (P : list nat) : list nat :=
  match fuel with
  | O => []
  | S fuel' =>
      let here := if Nat.eqb lo 0 then P else [] in
      let more := match hi with
                  | Some 0 => []
                  | _ => rep_ends f (pred lo) (option_map pred hi) fuel'
                                  (dedup (flat_map f P))
                  end in
      dedup (here ++ more)
  end.

Fixpoint ends (s : string) (r : regex) (i : nat) : list nat :=
  match r with
  | RChar _ | RAny | RClass _ =>
      match get i s with
      | Some c => if char_test r c then [S i] else []
      | None => []
      end
  | RCat r1 r2 => dedup (flat_map (ends s r2) (ends s r1 i))
  | RAlt r1 r2 => dedup (ends s r1 i ++ ends s r2 i)
  | RRepeat lo hi r1 => rep_ends (ends s r1) lo hi (S (S (String.length s))) [i]
  | RBol => if Nat.eqb i 0 then [i] else []
  | REol => if at_eol s i then [i] else []
  | RLookahead r1 => match ends s r1 i with [] => [] | _ => [i] end
  end.

(** [pattern.fullmatch(value)] is truthy. *)
Definition py_fullmatch (r : regex) (s : string) : bool :=
  existsb (Nat.eqb (String.length s)) (ends s r 0).

(** ** Specification: the matching relation *)

Definition below (hi : option nat) (n : nat) : Prop :=
  match hi with None => True | Some m => n <= m end.

Inductive matches (s : string) : regex -> nat -> nat -> Prop :=
| MChar d c i : get i s = Some c -> char_test (RChar d) c = true -> matches s (RChar d) i (S i)
| MAny c i : get i s = Some c -> char_test RAny c = true -> matches s RAny i (S i)
| MClass items c i : get i s = Some c -> char_test (RClass items) c = true ->
                     matches s (RClass items) i (S i)
| MCat r1 r2 i j k : matches s r1 i j -> matches s r2 j k -> matches s (RCat r1 r2) i k
| MAltL r1 r2 i j : matches s r1 i j -> matches s (RAlt r1 r2) i j
| MAltR r1 r2 i j : matches s r2 i j -> matches s (RAlt r1 r2) i j
| MRepeat lo hi r n i j : repeats s r n i j -> lo <= n -> below hi n ->
                          matches s (RRepeat lo hi r) i j
| MBol : matches s RBol 0 0
| MEol i : at_eol s i = true -> matches s REol i i
| MLookahead r i j : matches s r i j -> matches s (RLookahead r) i i
with repeats (s : string) : regex -> nat -> nat -> nat -> Prop :=
| RepZero r i : repeats s r 0 i i
| RepMore r n i j k : matches s r i j -> repeats s r n j k -> repeats s r (S n) i k.

Scheme matches_mut := Induction for matches Sort Prop
  with repeats_mut := Induction for repeats Sort Prop.

(** The least number of characters a match consumes, and the side condition
    of completeness: every repeated body consumes at least one. *)
Fixpoint min_width (r : regex) : nat :=
  match r with
  | RChar _ | RAny | RClass _ => 1
  | RCat r1 r2 => min_width r1 + min_width r2
  | RAlt r1 r2 => Nat.min (min_width r1) (min_width r2)
  | RRepeat lo _ r1 => lo * min_width r1
  | RBol | REol | RLookahead _ => 0
  end.

Fixpoint wf_regex (r : regex) : bool :=
  match r with
  | RChar _ | RAny | RClass _ | RBol | REol => true
  | RCat r1 r2 | RAlt r1 r2 => wf_regex r1 && wf_regex r2
  | RRepeat _ _ r1 => Nat.leb 1 (min_width r1) && wf_regex r1
  | RLookahead r1 => wf_regex r1
  end.

(** ** [TransferRequest.check_regular] *)

(** [check_regular(pattern, value)]: compile the pattern and return the
    [fullmatch] object, used only for its truth value.  The earlier
    [AccountManager.check_regex] is the same function. *)
Definition check_regular (pattern : regex) (value : string) : bool :=
  py_fullmatch pattern value.

(** The one-character regexes. *)
Definition is_char_regex (r : regex) : bool :=
  match r with RChar _ | RAny | RClass _ => true | _ => false end.

(** ** Lemmas on the specification *)

Lemma get_lt (s : string) (i : nat) (c : ascii) : get i s = Some c -> i < String.length s.
Proof.
  revert i. induction s as [|d s IH]; intros [|i]; simpl; try discriminate.
  - lia.
  - intros H. specialize (IH i H). lia.
Qed.

(** Matches move forward and stay inside the string. *)
Lemma matches_forward (s : string) :
  (forall r i j, matches s r i j -> i <= j /\ (i < j -> j <= String.length s)) /\
  (forall r n i j, repeats s r n i j -> i <= j /\ (i < j -> j <= String.length s)).
Proof.
  split; [intros r i j H | intros r n i j H];
  [ induction H using matches_mut with
      (P0 := fun r n i j _ => i <= j /\ (i < j -> j <= String.length s))
  | induction H using repeats_mut with
      (P := fun r i j _ => i <= j /\ (i < j -> j <= String.length s)) ];
  repeat match goal with H : get _ _ = Some _ |- _ => apply get_lt in H end;
  try (split; lia); intuition lia.
Qed.

(** A match consumes at least [min_width r] characters. *)
Lemma matches_width (s : string) :
  (forall r i j, matches s r i j -> i + min_width r <= j) /\
  (forall r n i j, repeats s r n i j -> i + n * min_width r <= j).
Proof.
  split; [intros r i j H | intros r n i j H];
  [ induction H using matches_mut with (P0 := fun r n i j _ => i + n * min_width r <= j)
  | induction H using repeats_mut with (P := fun r i j _ => i + min_width r <= j) ];
  simpl; nia.
Qed.

Lemma in_dedup (x : nat) (l : list nat) : In x (dedup l) <-> In x l.
Proof. apply nodup_In. Qed.

#[export] Hint Rewrite in_dedup : pysimpl.

(** ** The matcher is sound and complete *)

Lemma rep_ends_sound (s : string) (r : regex) :
  (forall i j, In j (ends s r i) -> matches s r i j) ->
  forall fuel lo hi P j, In j (rep_ends (ends s r) lo hi fuel P) ->
  exists p n, In p P /\ repeats s r n p j /\ lo <= n /\ below hi n.
Proof.
  intros Hr fuel. induction fuel as [|fuel IH]; intros lo hi P j H; simpl in H;
    [contradiction|].
  rewrite in_dedup, in_app_iff in H. destruct H as [H|H].
  - destruct (Nat.eqb_spec lo 0) as [->|]; [|contradiction].
    exists j, 0. repeat split; auto using RepZero. destruct hi; simpl; lia.
  - assert (Hstep : forall lo' hi', In j (rep_ends (ends s r) lo' hi' fuel (dedup (flat_map (ends s r) P))) ->
              exists p n, In p P /\ repeats s r (S n) p j /\ lo' <= n /\ below hi' n).
    { intros lo' hi' H'. destruct (IH _ _ _ _ H') as (q & n & Hq & Hrep & Hlo & Hhi).
      rewrite in_dedup, in_flat_map in Hq. destruct Hq as (p & Hp & Hpq).
      exists p, n. repeat split; eauto using RepMore. }
    destruct hi as [[|m]|]; [contradiction| |];
      destruct (Hstep _ _ H) as (p & n & Hp & Hrep & Hlo & Hhi);
      exists p, (S n); repeat split; simpl in *; auto; lia.
Qed.

Lemma rep_ends_complete (s : string) (r : regex) :
  (forall i j, matches s r i j -> In j (ends s r i)) ->
  forall n p j, repeats s r n p j ->
  forall fuel lo hi P, In p P -> lo <= n -> below hi n -> n < fuel ->
  In j (rep_ends (ends s r) lo hi fuel P).
Proof.
  intros Hr n p j H. revert Hr.
  induction H as [r' i|r' n i j k Hm Hrep IH]; intros Hr fuel lo hi P HP Hlo Hhi Hfuel;
    (destruct fuel as [|fuel]; [lia|]); simpl; rewrite in_dedup, in_app_iff.
  - left. replace lo with 0 by lia. exact HP.
  - right. destruct hi as [[|m]|]; simpl in Hhi; [lia| |];
      apply IH; simpl; auto; try lia;
      rewrite in_dedup, in_flat_map; exists i; auto.
Qed.

(** With a consuming body, a repetition inside [s] has at most [len(s)]
    iterations, so the fuel of [ends] is enough. *)
Lemma repeats_count_bound (s : string) (r : regex) (n i j : nat) :
  1 <= min_width r -> repeats s r n i j -> n < S (S (String.length s)).
Proof.
  intros Hw H.
  pose proof (proj2 (matches_width s) _ _ _ _ H) as Hwd.
  pose proof (proj2 (matches_forward s) _ _ _ _ H) as [Hle Hin].
  destruct n as [|n]; [lia|].
  assert (i + S n <= j) by nia. specialize (Hin ltac:(lia)). lia.
Qed.

Theorem ends_sound (s : string) (r : regex) (i j : nat) :
  In j (ends s r i) -> matches s r i j.
Proof.
  revert i j. induction r as [d| |items|r1 IH1 r2 IH2|r1 IH1 r2 IH2|lo hi r IH| | |r IH];
    intros i j H; cbn [ends] in H;
  try (destruct (get i s) as [c|] eqn:E; [|contradiction];
       destruct (char_test _ c) eqn:T; [|contradiction];
       destruct H as [<-|[]]; econstructor; eauto).
  - rewrite in_dedup, in_flat_map in H. destruct H as (m & H1 & H2). eauto using MCat.
  - rewrite in_dedup, in_app_iff in H. destruct H; eauto using MAltL, MAltR.
  - destruct (rep_ends_sound s r IH _ _ _ _ _ H) as (p & n & [<-|[]] & Hrep & Hlo & Hhi).
    eauto using MRepeat.
  - destruct (Nat.eqb_spec i 0) as [->|]; [destruct H as [<-|[]]; constructor | contradiction].
  - destruct (at_eol s i) eqn:E; [destruct H as [<-|[]]; now constructor | contradiction].
  - destruct (ends s r i) as [|m l] eqn:E; [contradiction|]. destruct H as [<-|[]].
    apply (MLookahead s r i m). apply IH. rewrite E. now left.
Qed.

Theorem ends_complete (s : string) (r : regex) (i j : nat) :
  wf_regex r = true -> matches s r i j -> In j (ends s r i).
Proof.
  revert i j. induction r as [d| |items|r1 IH1 r2 IH2|r1 IH1 r2 IH2|lo hi r IH| | |r IH];
    intros i j Hwf H; inversion H; subst; cbn [ends wf_regex] in *; bool_to_prop;
    try (match goal with E : get _ _ = Some _ |- _ => rewrite E end;
         match goal with T : char_test _ _ = true |- _ => rewrite T end;
         left; reflexivity).
  - rewrite in_dedup, in_flat_map. eauto.
  - rewrite in_dedup, in_app_iff. auto.
  - rewrite in_dedup, in_app_iff. auto.
  - eapply rep_ends_complete; eauto; simpl; auto.
    eapply repeats_count_bound; eauto.
  - rewrite Nat.eqb_refl. now left.
  - match goal with E : at_eol s j = true |- _ => rewrite E end. now left.
  - match goal with Hm : matches s r j ?k |- _ => pose proof (IH j k Hwf Hm) as Hin end.
    destruct (ends s r j); [contradiction|]. now left.
Qed.

(** [fullmatch] agrees with the specification: the refinement theorem of
    the matcher. *)
Lemma py_fullmatch_iff (r : regex) (s : string) :
  wf_regex r = true ->
  py_fullmatch r s = true <-> matches s r 0 (String.length s).
Proof.
  intros Hwf. unfold py_fullmatch. rewrite existsb_exists. split.
  - intros (j & Hj & E). apply Nat.eqb_eq in E. subst j. now apply ends_sound.
  - intros H. exists (String.length s). split; [now apply ends_complete|apply Nat.eqb_refl].
Qed.

(** ** Inversion lemmas for the shapes the patterns use *)

Lemma matches_char_iff (s : string) (r : regex) (i j : nat) :
  is_char_regex r = true ->
  matches s r i j <-> j = S i /\ exists c, get i s = Some c /\ char_test r c = true.
Proof.
  intros Hr. split.
  - intros H. destruct r; try discriminate; inversion H; subst; eauto.
  - intros (-> & c & E & T). destruct r; try discriminate; econstructor; eauto.
Qed.

(** [n] repetitions of a one-character regex: the next [n] characters pass
    its test. *)
Lemma repeats_char_iff (s : string) (r : regex) (n i j : nat) :
  is_char_regex r = true ->
  repeats s r n i j <->
  j = i + n /\ forall k, i <= k < i + n -> exists c, get k s = Some c /\ char_test r c = true.
Proof.
  intros Hr. revert i. induction n as [|n IH]; intros i; split.
  - intros H. inversion H; subst. split; [lia|intros; lia].
  - intros [-> _]. rewrite Nat.add_0_r. constructor.
  - intros H. inversion H as [|? ? ? m ? Hm Hrep]; subst.
    apply (matches_char_iff s r i m Hr) in Hm as [-> Hc].
    apply IH in Hrep as [-> Hall]. split; [lia|].
    intros k Hk. destruct (Nat.eq_dec k i) as [->|]; [exact Hc|apply Hall; lia].
  - intros [-> Hall]. apply RepMore with (j := S i).
    + apply matches_char_iff; auto. split; auto. apply Hall. lia.
    + apply IH. split; [lia|]. intros k Hk. apply Hall. lia.
Qed.

Lemma matches_cat_iff (s : string) (r1 r2 : regex) (i k : nat) :
  matches s (RCat r1 r2) i k <-> exists j, matches s r1 i j /\ matches s r2 j k.
Proof.
  split; [intros H; inversion H; subst; eauto | intros (j & H1 & H2); eauto using MCat].
Qed.

Lemma matches_alt_iff (s : string) (r1 r2 : regex) (i j : nat) :
  matches s (RAlt r1 r2) i j <-> matches s r1 i j \/ matches s r2 i j.
Proof.
  split; [intros H; inversion H; subst; auto | intros [H|H]; eauto using MAltL, MAltR].
Qed.

Lemma matches_repeat_iff (s : string) (lo : nat) (hi : option nat) (r : regex) (i j : nat) :
  matches s (RRepeat lo hi r) i j <-> exists n, repeats s r n i j /\ lo <= n /\ below hi n.
Proof.
  split; [intros H; inversion H; subst; eauto | intros (n & H1 & H2 & H3); eauto using MRepeat].
Qed.

Lemma matches_bol_iff (s : string) (i j : nat) : matches s RBol i j <-> i = 0 /\ j = 0.
Proof. split; [intros H; inversion H; auto | intros [-> ->]; constructor]. Qed.

Lemma matches_eol_iff (s : string) (i j : nat) :
  matches s REol i j <-> j = i /\ at_eol s i = true.
Proof. split; [intros H; inversion H; auto | intros [-> E]; now constructor]. Qed.

Lemma matches_lookahead_iff (s : string) (r : regex) (i j : nat) :
  matches s (RLookahead r) i j <-> j = i /\ exists k, matches s r i k.
Proof.
  split; [intros H; inversion H; subst; eauto | intros [-> (k & Hk)]; eauto using MLookahead].
Qed.

#[export] Hint Rewrite matches_cat_iff matches_alt_iff matches_repeat_iff matches_bol_iff
  matches_eol_iff matches_lookahead_iff : pyregex.

(** [[0-9]] is Python's digit test on Latin-1. *)
Lemma digit_class_test (c : ascii) : char_test (RClass [CRange "0" "9"]) c = is_digit c.
Proof. unfold char_test, class_test, is_digit. simpl. now rewrite orb_false_r. Qed.

Lemma char_test_lit (d c : ascii) : char_test (RChar d) c = true <-> c = d.
Proof. simpl. apply Ascii.eqb_eq. Qed.

Lemma matches_lit_iff (s : string) (d : ascii) (i j : nat) :
  matches s (RChar d) i j <-> j = S i /\ get i s = Some d.
Proof.
  rewrite matches_char_iff by reflexivity. split.
  - intros [-> (c & E & T)]. apply char_test_lit in T. subst. auto.
  - intros [-> E]. split; auto. exists d. split; auto. apply char_test_lit. auto.
Qed.

Lemma matches_class_iff (s : string) (items : list class_item) (i j : nat) :
  matches s (RClass items) i j <->
  j = S i /\ exists c, get i s = Some c /\ class_test items c = true.
Proof. now rewrite matches_char_iff by reflexivity. Qed.

Lemma matches_any_iff (s : string) (i j : nat) :
  matches s RAny i j <-> j = S i /\ exists c, get i s = Some c /\ c <> newline.
Proof.
  rewrite matches_char_iff by reflexivity. simpl.
  setoid_rewrite negb_true_iff. setoid_rewrite Ascii.eqb_neq. reflexivity.
Qed.

(** [regex_simpl] unfolds the matching relation of a concrete pattern into
    positions and character tests, under the binders it creates. *)
Ltac regex_simpl :=
  repeat first [ setoid_rewrite matches_cat_iff | setoid_rewrite matches_alt_iff
               | setoid_rewrite matches_repeat_iff | setoid_rewrite matches_bol_iff
               | setoid_rewrite matches_eol_iff | setoid_rewrite matches_lookahead_iff
               | setoid_rewrite matches_lit_iff | setoid_rewrite matches_class_iff
               | setoid_rewrite matches_any_iff ].

(** A literal word matches itself and nothing else. *)
Lemma matches_rstr (s w : string) (i j : nat) :
  w <> EmptyString ->
  matches s (rstr w) i j <->
  j = i + String.length w /\ forall k, k < String.length w -> get (i + k) s = get k w.
Proof.
  revert i j. induction w as [|c w IH]; intros i j Hw; [congruence|].
  destruct w as [|c' w'].
  - simpl rstr. rewrite matches_lit_iff. simpl. split.
    + intros [-> E]. split; [lia|]. intros [|k] Hk; [now rewrite Nat.add_0_r|lia].
    + intros [-> H]. split; [lia|]. specialize (H 0 ltac:(lia)). now rewrite Nat.add_0_r in H.
  - change (rstr (String c (String c' w'))) with (RCat (RChar c) (rstr (String c' w'))).
    rewrite matches_cat_iff. setoid_rewrite matches_lit_iff.
    setoid_rewrite IH; [|discriminate]. cbn [String.length]. split.
    + intros (m & [-> E] & -> & H). split; [lia|].
      intros [|k] Hk; [now rewrite Nat.add_0_r|].
      change (get (S k) (String c (String c' w'))) with (get k (String c' w')).
      rewrite <- (H k) by lia. f_equal. lia.
    + intros [-> H]. exists (S i). split; [split; auto; specialize (H 0 ltac:(lia));
        now rewrite Nat.add_0_r in H|].
      split; [lia|]. intros k Hk. specialize (H (S k) ltac:(lia)).
      change (get (S k) (String c (String c' w'))) with (get k (String c' w')) in H.
      rewrite <- H. f_equal. lia.
Qed.

(** [fullmatch] of a literal word. *)
Lemma matches_rstr_full (s w : string) :
  w <> EmptyString -> matches s (rstr w) 0 (String.length s) <-> s = w.
Proof.
  intros Hw. rewrite matches_rstr by auto. split.
  - intros [Hl H]. apply string_ext; auto.
  - intros ->. split; auto.
Qed.
