(* ===== verification/Iban.v ===== *)
(** * IBAN validation: [TransferRequest.validate_iban]

    [validate_iban] ([transfer_request.py], lines 39-88; the same body is
    [AccountManager.validate_iban] in the earlier [account_manager.py])
    checks the format [^ES[0-9]{22}] with [fullmatch], zeroes the check
    digits, moves the first four characters to the end, replaces the
    letters by two-digit codes with a chain of [str.replace] calls, and
    compares the declared check digits with [98 - n mod 97].  It returns
    the transformed digit string, not the IBAN.

    The theorems show: the format is exactly ["ES"] and 22 digits; the
    function's result on every branch; its equivalence with the ISO 7064
    rule ("the rearranged number is 1 modulo 97") restricted to check
    digits 02 to 98; the detection of every single-digit substitution and
    every adjacent transposition in the BBAN and of every change of the
    check digits; and that the sequential [str.replace] chain equals a
    single pass over a lookup table, on every string. *)

From Stdlib Require Import String Ascii List ZArith Lia Bool.
From S2P Require Import Prelude PyStr PyRegex.
Import ListNotations.
Open Scope string_scope.

(** [r"^ES[0-9]{22}"] *)
Definition iban_pattern : regex :=
  rseq [RBol; RChar "E"; RChar "S"; RRepeat 22 (Some 22) (RClass [CRange "0" "9"])].

(** Lines 60-71: the letters A..Z become 10..35, one [str.replace] per
    letter, in the order of the source. *)
Definition iban_letters_to_digits (iban : string) : string :=
  let iban := replace_char "F" "15" (replace_char "E" "14" (replace_char "D" "13"
              (replace_char "C" "12" (replace_char "B" "11" (replace_char "A" "10" iban))))) in
  let iban := replace_char "L" "21" (replace_char "K" "20" (replace_char "J" "19"
              (replace_char "I" "18" (replace_char "H" "17" (replace_char "G" "16" iban))))) in
  let iban := replace_char "R" "27" (replace_char "Q" "26" (replace_char "P" "25"
              (replace_char "O" "24" (replace_char "N" "23" (replace_char "M" "22" iban))))) in
  let iban := replace_char "X" "33" (replace_char "W" "32" (replace_char "V" "31"
              (replace_char "U" "30" (replace_char "T" "29" (replace_char "S" "28" iban))))) in
  replace_char "Z" "35" (replace_char "Y" "34" iban).

(** [int(s)] inside a function: a [ValueError] escapes. *)
Definition py_int_call (s : string) : res Z :=
  match py_int s with Some z => Ok z | None => Raise ValueError end.

Definition invalid_format : exn := AccountManagementException "Invalid IBAN format".
Definition invalid_control : exn := AccountManagementException "Invalid IBAN control digit".

Definition validate_iban (iban : string) : res string :=
  (raise_if (negb (check_regular iban_pattern iban)) invalid_format ;;;
   let original_code := py_slice 2 4 iban in
   let iban1 := py_take 2 iban ++ "00" ++ py_drop 4 iban in
   let iban2 := py_drop 4 iban1 ++ py_take 4 iban1 in
   let iban3 := iban_letters_to_digits iban2 in
   int_iban <- py_int_call iban3 ;;
   let md := (int_iban mod 97)%Z in
   let control_digit := (98 - md)%Z in
   oc <- py_int_call original_code ;;
   if Z.eqb oc control_digit then Ok iban3 else Raise invalid_control)%py.

(** ** The reference: ISO 7064 mod 97-10 *)

(** A single pass over the table of ISO 13616: a letter becomes its
    two-digit code, any other character stays. *)
Definition two_digits (n : nat) : string :=
  String (ascii_of_nat (48 + n / 10)) (String (ascii_of_nat (48 + n mod 10)) EmptyString).

Definition letter_code (c : ascii) : string :=
  let n := nat_of_ascii c in
  if (Nat.leb 65 n && Nat.leb n 90)%bool then two_digits (n - 55) else String c EmptyString.

(** A Spanish IBAN with check digits [chk] and account number [bban] is
    valid for ISO 7064 when [bban ++ "1428" ++ chk] is 1 modulo 97
    ([E] = 14, [S] = 28). *)
Definition iso_check (chk bban : string) : Prop :=
  (digits_value (bban ++ "1428" ++ chk) mod 97 = 1)%Z.

Definition iban_shape (chk bban : string) : Prop :=
  String.length chk = 2 /\ String.length bban = 20 /\ all_digits (chk ++ bban) = true.

(** ** The format check *)

Lemma iban_pattern_wf : wf_regex iban_pattern = true.
Proof. reflexivity. Qed.

Lemma iban_format_iff (s : string) :
  check_regular iban_pattern s = true <->
  exists d, s = "ES" ++ d /\ String.length d = 22 /\ all_digits d = true.
Proof.
  unfold check_regular. rewrite py_fullmatch_iff by reflexivity.
  unfold iban_pattern; simpl rseq. regex_simpl.
  setoid_rewrite repeats_char_iff; [|reflexivity].
  setoid_rewrite digit_class_test. split.
  - intros (j & [_ ->] & j1 & [-> Hc] & j2 & [-> Hc'] & n & [Hlen Hall] & Hn1 & Hn2).
    simpl in Hn2. assert (n = 22) as -> by lia.
    destruct s as [|e [|e' d]]; simpl in Hc, Hc', Hlen; try discriminate.
    injection Hc as ->. injection Hc' as ->. injection Hlen as Hlen.
    exists d. repeat split; auto. apply all_digits_get. intros k Hk.
    apply (Hall (S (S k))). lia.
  - intros (d & -> & Hlen & Hd). rewrite all_digits_get in Hd.
    exists 0. split; [auto|]. exists 1. split; [split; eauto|].
    exists 2. split; [split; eauto|]. exists 22. simpl. repeat split; try lia.
    intros k Hk. destruct k as [|[|k]]; try lia. apply Hd. lia.
Qed.

(** ** Arithmetic of the check digits *)

Open Scope Z_scope.

(** The comparison of the code is ISO's "mod 97 = 1", restricted to check
    values 2..98. *)
Lemma control_digit_iff (N c : Z) :
  0 <= N -> 0 <= c <= 99 ->
  (c = 98 - N mod 97 <-> (N + c) mod 97 = 1 /\ 2 <= c <= 98).
Proof.
  intros HN Hc. split.
  - intros ->. Z.div_mod_to_equations. lia.
  - intros [Hm Hr]. Z.div_mod_to_equations. lia.
Qed.

Lemma coprime_97_pow10 (p : nat) : Z.coprime 97 (10 ^ Z.of_nat p).
Proof.
  induction p as [|p IH].
  - apply Z.coprime_1_r.
  - rewrite Nat2Z.inj_succ, Z.pow_succ_r by lia.
    apply Z.coprime_mul_r; [reflexivity | exact IH].
Qed.

(** Adding a multiple [delta * 10^p] with [0 < |delta| < 97] always changes
    the residue: 97 is prime to 10. *)
Lemma shift_mod_neq (N delta : Z) (p : nat) :
  0 < Z.abs delta < 97 -> (N + delta * 10 ^ Z.of_nat p) mod 97 <> N mod 97.
Proof.
  intros Hd Heq.
  assert (Hdiv : (97 | 10 ^ Z.of_nat p * delta)).
  { exists ((N + delta * 10 ^ Z.of_nat p) / 97 - N / 97).
    pose proof (Z.mod_eq (N + delta * 10 ^ Z.of_nat p) 97 ltac:(lia)).
    pose proof (Z.mod_eq N 97 ltac:(lia)). lia. }
  apply Z.gauss in Hdiv; [|apply coprime_97_pow10].
  destruct Hdiv as [k ->]. nia.
Qed.

Close Scope Z_scope.

(** ** The [str.replace] chain is a single pass over the table *)

Lemma iban_letters_to_digits_sflat_map (f : ascii -> string) (s : string) :
  iban_letters_to_digits (sflat_map f s) =
  sflat_map (fun c => iban_letters_to_digits (f c)) s.
Proof. unfold iban_letters_to_digits. cbv zeta. now rewrite !replace_char_sflat_map. Qed.

(** On one character the chain agrees with the table: checked on all 256
    characters. *)
Lemma iban_letters_to_digits_char (c : ascii) :
  iban_letters_to_digits (String c EmptyString) = letter_code c.
Proof. destruct c as [[] [] [] [] [] [] [] []]; vm_compute; reflexivity. Qed.

Lemma letter_code_digit (c : ascii) : is_digit c = true -> letter_code c = String c EmptyString.
Proof.
  unfold letter_code, is_digit. intros H. bool_to_prop.
  destruct (Nat.leb_spec 65 (nat_of_ascii c)); [lia|reflexivity].
Qed.

Lemma sflat_map_letter_code_digits (s : string) :
  all_digits s = true -> sflat_map letter_code s = s.
Proof.
  induction s as [|c s IH]; simpl; intros H; auto.
  bool_to_prop. rewrite letter_code_digit, IH; auto.
Qed.

(** C14: The sequential replacements of lines 60-71 compute the single-pass
    table on every string: no replacement sees the digits an earlier one
    produced. *)
Theorem iban_letters_single_pass (s : string) :
  iban_letters_to_digits s = sflat_map letter_code s.
Proof.
  rewrite <- (sflat_map_id s) at 1. rewrite iban_letters_to_digits_sflat_map.
  apply sflat_map_ext, iban_letters_to_digits_char.
Qed.

Lemma iban_rotated_digits (bban : string) :
  all_digits bban = true -> iban_letters_to_digits (bban ++ "ES00") = bban ++ "142800".
Proof.
  intros H. rewrite <- (sflat_map_id (bban ++ "ES00")), iban_letters_to_digits_sflat_map.
  rewrite (sflat_map_ext _ letter_code) by apply iban_letters_to_digits_char.
  rewrite sflat_map_app, sflat_map_letter_code_digits by auto.
  reflexivity.
Qed.

(** ** The result of [validate_iban] *)

Lemma iban_split (d : string) :
  String.length d = 22 -> all_digits d = true ->
  exists chk bban, d = chk ++ bban /\ iban_shape chk bban.
Proof.
  intros Hl Hd. destruct d as [|c1 [|c2 bban]]; simpl in Hl; try discriminate.
  exists (String c1 (String c2 EmptyString)), bban. repeat split; simpl; auto; lia.
Qed.

Lemma iban_format_parts (s : string) :
  check_regular iban_pattern s = true <->
  exists chk bban, s = "ES" ++ chk ++ bban /\ iban_shape chk bban.
Proof.
  rewrite iban_format_iff. split.
  - intros (d & -> & Hl & Hd). destruct (iban_split d Hl Hd) as (chk & bban & -> & Hs). eauto.
  - intros (chk & bban & -> & Hc & Hb & Hd). exists (chk ++ bban).
    rewrite string_length_app. repeat split; auto. lia.
Qed.

Lemma iban_slices (chk bban : string) :
  String.length chk = 2 ->
  py_slice 2 4 ("ES" ++ chk ++ bban) = chk /\ py_take 2 ("ES" ++ chk ++ bban) = "ES" /\
  py_drop 4 ("ES" ++ chk ++ bban) = bban.
Proof.
  intros Hc. split; [|split].
  - unfold py_slice. simpl. rewrite <- Hc. exact (py_take_app chk bban).
  - exact (py_take_app "ES" (chk ++ bban)).
  - rewrite string_app_assoc.
    replace 4 with (String.length ("ES" ++ chk)) by (rewrite string_length_app; simpl; lia).
    apply py_drop_app.
Qed.

(** On a well-formed IBAN the function compares the declared check digits
    with [98 - n mod 97] and returns the rotated digit string. *)
Lemma validate_iban_digits (chk bban : string) :
  iban_shape chk bban ->
  validate_iban ("ES" ++ chk ++ bban) =
  if Z.eqb (digits_value chk) (98 - digits_value (bban ++ "142800") mod 97)%Z
  then Ok (bban ++ "142800") else Raise invalid_control.
Proof.
  intros (Hc & Hb & Hd). rewrite all_digits_app in Hd. apply andb_true_iff in Hd as [Hdc Hdb].
  assert (Hf : check_regular iban_pattern ("ES" ++ chk ++ bban) = true).
  { apply iban_format_parts. exists chk, bban. repeat split; auto.
    now rewrite all_digits_app, Hdc, Hdb. }
  destruct (iban_slices chk bban Hc) as (E1 & E2 & E3).
  unfold validate_iban. cbv zeta. rewrite Hf, E1, E2, E3, res_bind_raise_if. cbn [negb].
  change ("ES" ++ "00" ++ bban) with ("ES00" ++ bban).
  assert (E4 : py_drop 4 ("ES00" ++ bban) = bban) by exact (py_drop_app "ES00" bban).
  assert (E5 : py_take 4 ("ES00" ++ bban) = "ES00") by exact (py_take_app "ES00" bban).
  rewrite E4, E5, iban_rotated_digits by auto.
  assert (N1 : py_int (bban ++ "142800") = Some (digits_value (bban ++ "142800"))).
  { apply py_int_digits; [destruct bban; discriminate|]. now rewrite all_digits_app, Hdb. }
  assert (N2 : py_int chk = Some (digits_value chk)).
  { apply py_int_digits; [destruct chk; simpl in Hc; congruence | exact Hdc]. }
  unfold py_int_call. rewrite N1, N2. reflexivity.
Qed.

Lemma validate_iban_not_format (s : string) :
  check_regular iban_pattern s = false -> validate_iban s = Raise invalid_format.
Proof. intros H. unfold validate_iban. now rewrite H. Qed.

Lemma iban_value_bounds (chk bban : string) :
  iban_shape chk bban ->
  (0 <= digits_value (bban ++ "142800") /\ 0 <= digits_value chk <= 99)%Z.
Proof.
  intros (Hc & Hb & Hd). rewrite all_digits_app in Hd. apply andb_true_iff in Hd as [Hdc Hdb].
  pose proof (digits_value_range chk Hdc) as Rc. rewrite Hc in Rc.
  pose proof (digits_value_range (bban ++ "142800")) as Rb.
  rewrite all_digits_app, Hdb in Rb. specialize (Rb eq_refl). simpl in Rc. lia.
Qed.

(** [bban ++ "1428" ++ chk] is [bban ++ "142800"] plus the check value. *)
Lemma iso_value (chk bban : string) :
  String.length chk = 2 ->
  digits_value (bban ++ "1428" ++ chk) = (digits_value (bban ++ "142800") + digits_value chk)%Z.
Proof.
  intros Hc. rewrite !digits_value_app, !string_length_app, Hc.
  change (digits_value "1428") with 1428%Z. change (digits_value "142800") with 142800%Z.
  change (String.length "1428" + 2) with 6. change (String.length "142800") with 6.
  simpl Z.of_nat. lia.
Qed.

(** A successful call determines the shape and the check equation. *)
Lemma validate_iban_ok_inv (chk bban r : string) :
  String.length chk = 2 -> validate_iban ("ES" ++ chk ++ bban) = Ok r ->
  iban_shape chk bban /\
  digits_value chk = (98 - digits_value (bban ++ "142800") mod 97)%Z /\ r = bban ++ "142800".
Proof.
  intros Hc H.
  destruct (check_regular iban_pattern ("ES" ++ chk ++ bban)) eqn:F;
    [|rewrite validate_iban_not_format in H by auto; discriminate].
  apply iban_format_parts in F as (chk0 & bban0 & E & Hs).
  injection E as E. destruct (string_app_inv_len chk bban chk0 bban0) as [<- <-]; auto.
  { destruct Hs as [-> _]. exact Hc. }
  rewrite validate_iban_digits in H by auto.
  destruct (Z.eqb_spec (digits_value chk) (98 - digits_value (bban ++ "142800") mod 97)%Z);
    [|discriminate].
  injection H as <-. auto.
Qed.

(** ** Theorems on [validate_iban] *)

(** A result of [validate_iban] is a digit string. *)
Lemma validate_iban_ok_digits (s r : string) : validate_iban s = Ok r -> all_digits r = true.
Proof.
  intros H. destruct (check_regular iban_pattern s) eqn:F;
    [|rewrite validate_iban_not_format in H by auto; discriminate].
  apply iban_format_parts in F as (chk & bban & -> & Hs).
  destruct (validate_iban_ok_inv chk bban r) as ((_ & _ & Hd) & _ & ->); [apply Hs|exact H|].
  rewrite all_digits_app in Hd |- *. apply andb_true_iff in Hd as [_ Hd]. now rewrite Hd.
Qed.

(** C5: The only outcomes are the transformed string and the two
    [AccountManagementException]s: the [ValueError] of [int()] is
    unreachable. *)
Theorem validate_iban_cases (s : string) :
  (exists r, validate_iban s = Ok r) \/ validate_iban s = Raise invalid_format \/
  validate_iban s = Raise invalid_control.
Proof.
  destruct (check_regular iban_pattern s) eqn:F.
  - apply iban_format_parts in F as (chk & bban & -> & Hs).
    rewrite validate_iban_digits by auto.
    destruct (Z.eqb _ _); eauto.
  - right; left. now apply validate_iban_not_format.
Qed.

(** C1: Refinement: the code accepts exactly the IBANs that satisfy ISO 7064
    mod 97-10 with check digits between 02 and 98, and returns the rotated
    digit string. *)
Theorem validate_iban_iso (s r : string) :
  validate_iban s = Ok r <->
  exists chk bban, s = "ES" ++ chk ++ bban /\ iban_shape chk bban /\ iso_check chk bban /\
    (2 <= digits_value chk <= 98)%Z /\ r = bban ++ "142800".
Proof.
  split.
  - intros H.
    destruct (check_regular iban_pattern s) eqn:F;
      [|rewrite validate_iban_not_format in H by auto; discriminate].
    apply iban_format_parts in F as (chk & bban & -> & Hs).
    pose proof (iban_value_bounds chk bban Hs) as B.
    destruct (validate_iban_ok_inv chk bban r (proj1 Hs) H) as (_ & E & ->).
    apply control_digit_iff in E as [E1 E2]; try lia.
    exists chk, bban. unfold iso_check. rewrite iso_value by apply Hs. auto 6.
  - intros (chk & bban & -> & Hs & Hiso & Hr & ->).
    pose proof (iban_value_bounds chk bban Hs) as B.
    unfold iso_check in Hiso. rewrite iso_value in Hiso by apply Hs.
    rewrite validate_iban_digits by auto.
    rewrite (proj2 (Z.eqb_eq _ _)); auto. apply control_digit_iff; auto; lia.
Qed.

(** Any change of the account number that moves the rotated number by
    [delta * 10^p], [0 < |delta| < 97], turns a valid IBAN into one that
    fails the control-digit comparison. *)
Lemma bban_change_detected (chk bban bban' r : string) (delta : Z) (p : nat) :
  String.length chk = 2 -> validate_iban ("ES" ++ chk ++ bban) = Ok r ->
  iban_shape chk bban' ->
  digits_value (bban' ++ "142800") = (digits_value (bban ++ "142800") + delta * 10 ^ Z.of_nat p)%Z ->
  (0 < Z.abs delta < 97)%Z ->
  validate_iban ("ES" ++ chk ++ bban') = Raise invalid_control.
Proof.
  intros Hc H Hs' EV Hd. destruct (validate_iban_ok_inv _ _ _ Hc H) as (_ & E & _).
  rewrite validate_iban_digits, EV by auto.
  destruct (Z.eqb_spec (digits_value chk)
              (98 - (digits_value (bban ++ "142800") + delta * 10 ^ Z.of_nat p) mod 97)%Z);
    [|reflexivity].
  exfalso. apply (shift_mod_neq (digits_value (bban ++ "142800")) delta p Hd). lia.
Qed.

(** Replacing one character of a digit string by another digit keeps the
    shape of an IBAN. *)
Lemma iban_shape_subst (chk pre post1 post2 : string) :
  iban_shape chk (pre ++ post1) -> String.length post2 = String.length post1 ->
  all_digits post2 = true -> iban_shape chk (pre ++ post2).
Proof.
  intros (Hc & Hb & Hd) Hl Hp. repeat split; auto.
  - rewrite string_length_app in *. lia.
  - rewrite !all_digits_app in *. rewrite Hp. bool_to_prop. now rewrite H, H0.
Qed.

Lemma digits_of_app_cons (pre post : string) (d : ascii) :
  all_digits (pre ++ String d post) = true -> is_digit d = true /\ all_digits post = true.
Proof. rewrite all_digits_app. cbn [all_digits]. intros H. bool_to_prop. auto. Qed.

(** C2: Every single-digit substitution in the account number is detected. *)
Theorem bban_single_digit_detected (chk pre post : string) (d e : ascii) (r : string) :
  String.length chk = 2 ->
  validate_iban ("ES" ++ chk ++ pre ++ String d post) = Ok r ->
  is_digit e = true -> e <> d ->
  validate_iban ("ES" ++ chk ++ pre ++ String e post) = Raise invalid_control.
Proof.
  intros Hc H He Hne.
  destruct (validate_iban_ok_inv _ _ _ Hc H) as (Hs & _ & _).
  pose proof Hs as (_ & _ & Hd). rewrite all_digits_app in Hd. bool_to_prop.
  destruct (digits_of_app_cons pre post d ltac:(assumption)) as [Hdd Hpost].
  apply (bban_change_detected chk (pre ++ String d post) _ r
           (digit_val e - digit_val d) (String.length (post ++ "142800"))); auto.
  - apply (iban_shape_subst chk pre (String d post)); simpl; auto. now rewrite He, Hpost.
  - rewrite <- !string_app_assoc. cbn [append].
    rewrite !digits_value_mid. ring.
  - pose proof (digit_val_range e He). pose proof (digit_val_range d Hdd).
    assert (digit_val e <> digit_val d) by (intros E; apply Hne, digit_val_inj; auto).
    lia.
Qed.

(** C17: Every transposition of two adjacent, different digits of the account
    number is detected. *)
Theorem bban_transposition_detected (chk pre post : string) (a b : ascii) (r : string) :
  String.length chk = 2 ->
  validate_iban ("ES" ++ chk ++ pre ++ String a (String b post)) = Ok r ->
  a <> b ->
  validate_iban ("ES" ++ chk ++ pre ++ String b (String a post)) = Raise invalid_control.
Proof.
  intros Hc H Hne.
  destruct (validate_iban_ok_inv _ _ _ Hc H) as (Hs & _ & _).
  pose proof Hs as (_ & _ & Hd). rewrite all_digits_app in Hd. bool_to_prop.
  destruct (digits_of_app_cons pre (String b post) a ltac:(assumption)) as [Ha Hbp].
  cbn [all_digits] in Hbp. apply andb_true_iff in Hbp as [Hb Hpost].
  apply (bban_change_detected chk (pre ++ String a (String b post)) _ r
           (9 * (digit_val b - digit_val a)) (String.length (post ++ "142800"))); auto.
  - apply (iban_shape_subst chk pre (String a (String b post))); simpl; auto.
    now rewrite Ha, Hb, Hpost.
  - rewrite <- !string_app_assoc. cbn [append].
    rewrite !digits_value_mid, !digits_value_cons. cbn [String.length].
    rewrite !Nat2Z.inj_succ, <- !Z.add_1_r, !Z.pow_add_r by lia. ring.
  - pose proof (digit_val_range a Ha). pose proof (digit_val_range b Hb).
    assert (digit_val a <> digit_val b) by (intros E; apply Hne, digit_val_inj; auto).
    lia.
Qed.

(** C16: Every change of the check digits of a valid IBAN is detected. *)
Theorem check_digits_change_detected (chk chk' bban r : string) :
  String.length chk = 2 ->
  validate_iban ("ES" ++ chk ++ bban) = Ok r ->
  iban_shape chk' bban -> chk' <> chk ->
  validate_iban ("ES" ++ chk' ++ bban) = Raise invalid_control.
Proof.
  intros Hc H Hs' Hne.
  destruct (validate_iban_ok_inv _ _ _ Hc H) as ((_ & _ & Hd) & E & _).
  pose proof Hs' as (Hc' & _ & Hd'). rewrite all_digits_app in Hd, Hd'. bool_to_prop.
  rewrite validate_iban_digits by auto. rewrite <- E.
  destruct (Z.eqb_spec (digits_value chk') (digits_value chk)) as [E'|]; [|reflexivity].
  exfalso. apply Hne, digits_value_inj; auto. congruence.
Qed.

(** ** Concrete runs (the examples of the specification) *)

Example validate_iban_spec_examples :
  validate_iban "ES9121000418450200051332" = Ok "21000418450200051332142800" /\
  validate_iban "ES0021000418450200051332" = Raise invalid_control /\
  validate_iban "ES912100041845020005133" = Raise invalid_format.
Proof. vm_compute. auto. Qed.

Lemma bban_single_digit_detected_witness :
  validate_iban ("ES" ++ "91" ++ "" ++ String "3" "1000418450200051332") = Raise invalid_control.
Proof.
  apply (bban_single_digit_detected "91" "" "1000418450200051332" "2" "3"
           "21000418450200051332142800").
  - reflexivity.
  - vm_compute. reflexivity.
  - reflexivity.
  - discriminate.
Defined.

Lemma bban_transposition_detected_witness :
  validate_iban ("ES" ++ "91" ++ "" ++ String "1" (String "2" "000418450200051332")) =
  Raise invalid_control.
Proof.
  apply (bban_transposition_detected "91" "" "000418450200051332" "2" "1"
           "21000418450200051332142800").
  - reflexivity.
  - vm_compute. reflexivity.
  - discriminate.
Defined.

Lemma check_digits_change_detected_witness :
  validate_iban ("ES" ++ "90" ++ "21000418450200051332") = Raise invalid_control.
Proof.
  apply (check_digits_change_detected "91" "90" "21000418450200051332"
           "21000418450200051332142800").
  - reflexivity.
  - vm_compute. reflexivity.
  - split; [reflexivity|split; reflexivity].
  - discriminate.
Defined.

