(* ===== verification/PyFloat.v ===== *)
(** * Python floats, their [str] and their comparisons with integers

    [validate_amount] converts the amount with [float()], prints it with
    [str()] and counts the characters after the first ['.'].  A finite
    float is modelled by the shortest decimal that [repr] prints for it:
    [PFin neg m e] is [(-1)^neg * m * 10^e] with [m] not a multiple of 10
    (or [m = 0], [e = 0]); [PInf] and [PNaN] are the special values.
    Every binary64 value has such a shortest decimal; which decimals are
    binary64 values is not modelled, so the theorems quantify over a
    superset of the floats.  A comparison of a float with the integers 10
    and 10000 gives the same answer on the float and on its shortest
    decimal, since both integers are floats.

    [float_repr] follows CPython's [format_float_short] in mode ['r']
    with [Py_DTSF_ADD_DOT_0] ([str] and [repr] agree since Python 3.2):
    positional notation when [-4 < decpt <= 16], else [d.ddde+XX]. *)

From Stdlib Require Import String Ascii List ZArith Lia Bool.
From S2P Require Import Prelude PyStr.
Import ListNotations.
Open Scope string_scope.

Inductive pyfloat : Type :=
| PFin (neg : bool) (m : N) (e : Z)
| PInf (neg : bool)
| PNaN.

(** The shortest-decimal form: no trailing zero in [m]. *)
Definition canonical (x : pyfloat) : Prop :=
  match x with
  | PFin _ m e => (m = 0%N -> e = 0%Z) /\ (m <> 0%N -> N.modulo m 10 <> 0%N)
  | _ => True
  end.

(** ** Decimal digits of a natural number *)

Definition digit_char (d : N) : ascii := ascii_of_N (48 + d).

Fixpoint N_digits_acc (fuel : nat) (m : N) (acc : string) : string :=
  match fuel with
  | O => acc
  | S f =>
      let acc' := String (digit_char (N.modulo m 10)) acc in
      if N.ltb m 10 then acc' else N_digits_acc f (N.div m 10) acc'
  end.

(** The decimal digits of [m] ("0" for zero); the fuel, the bit size of
    [m] plus one, exceeds the number of decimal digits. *)
Definition N_digits (m : N) : string := N_digits_acc (S (N.to_nat (N.size m))) m EmptyString.

Fixpoint zeros (k : nat) : string :=
  match k with O => EmptyString | S k' => String "0" (zeros k') end.

(** [%+.02d]: a sign and at least two digits. *)
Definition exp_str (k : Z) : string :=
  (if Z.ltb k 0 then "-" else "+") ++
  (if Z.ltb (Z.abs k) 10 then "0" else "") ++ N_digits (Z.to_N (Z.abs k)).

(** [format_float_short] for the digit string [D] and the position [decpt]
    of the decimal point. *)
Definition short_repr (D : string) (decpt : Z) : string :=
  let n := Z.of_nat (String.length D) in
  if (Z.leb decpt (-4) || Z.ltb 16 decpt)%bool then
    match D with
    | EmptyString => EmptyString
    | String d rest =>
        String d (match rest with EmptyString => EmptyString | _ => "." ++ rest end)
    end ++ "e" ++ exp_str (decpt - 1)
  else if Z.leb decpt 0 then "0." ++ zeros (Z.to_nat (- decpt)) ++ D
  else if Z.ltb decpt n then
    py_take (Z.to_nat decpt) D ++ "." ++ py_drop (Z.to_nat decpt) D
  else D ++ zeros (Z.to_nat (decpt - n)) ++ ".0".

(** [str(x)] for a float. *)
Definition float_repr (x : pyfloat) : string :=
  match x with
  | PNaN => "nan"
  | PInf neg => (if neg then "-" else "") ++ "inf"
  | PFin neg m e =>
      let D := N_digits m in
      (if neg then "-" else "") ++ short_repr D (Z.of_nat (String.length D) + e)
  end.

(** ** Comparison with an integer, as Python compares [float] and [int] *)

Definition pf_cmp_int (x : pyfloat) (k : Z) : option comparison :=
  match x with
  | PNaN => None
  | PInf neg => Some (if neg then Lt else Gt)
  | PFin neg m e =>
      let v := if neg then (- Z.of_N m)%Z else Z.of_N m in
      if Z.leb 0 e then Some (Z.compare (v * 10 ^ e) k)
      else Some (Z.compare v (k * 10 ^ (- e)))
  end.

(** [x < k] and [x > k]: false on NaN. *)
Definition py_lt (x : pyfloat) (k : Z) : bool :=
  match pf_cmp_int x k with Some Lt => true | _ => false end.

Definition py_gt (x : pyfloat) (k : Z) : bool :=
  match pf_cmp_int x k with Some Gt => true | _ => false end.

(** Python [==] between floats: IEEE equality (NaN is unequal to
    itself, [-0.0 == 0.0]). *)
Definition pf_eqb (x y : pyfloat) : bool :=
  match x, y with
  | PFin n1 m1 e1, PFin n2 m2 e2 =>
      (N.eqb m1 0 && N.eqb m2 0) || (Bool.eqb n1 n2 && N.eqb m1 m2 && Z.eqb e1 e2)
  | PInf n1, PInf n2 => Bool.eqb n1 n2
  | _, _ => false
  end%bool.

(** ** Decimal literals

    [float(s)] for a literal [[+|-]digits[.digits]] of at most fifteen
    digits: every decimal of at most fifteen significant digits in the
    normal range is the shortest decimal of the binary64 value nearest to
    it (15 is [DBL_DIG]), so its value is the literal with the trailing
    zeros removed.  Longer literals, exponents, spaces, underscores and
    the special names are left to the [FloatOps] interface of
    [AccountManager]. *)

Fixpoint strip_zeros (fuel : nat) (m : N) (e : Z) : N * Z :=
  match fuel with
  | O => (m, e)
  | S f => if N.eqb m 0 then (0%N, 0%Z)
           else if N.eqb (N.modulo m 10) 0 then strip_zeros f (N.div m 10) (e + 1)
           else (m, e)
  end.

Definition unsigned_literal (neg : bool) (ip fp : string) : option pyfloat :=
  let n := (String.length ip + String.length fp)%nat in
  if (all_digits ip && all_digits fp && Nat.leb 1 n && Nat.leb n 15)%bool then
    let (m, e) := strip_zeros n (Z.to_N (digits_value (ip ++ fp))) (- Z.of_nat (String.length fp)) in
    Some (PFin neg m e)
  else None.

Definition decimal_literal (s : string) : option pyfloat :=
  let (neg, body) := match s with
                     | String "-" r => (true, r)
                     | String "+" r => (false, r)
                     | _ => (false, s)
                     end in
  match py_split "." body with
  | [ip] => unsigned_literal neg ip EmptyString
  | [ip; fp] => unsigned_literal neg ip fp
  | _ => None
  end.

(** [lo <= x <= hi] for the positive float [m * 10^e], in integers. *)
Definition in_range_pos (m : N) (e : Z) (lo hi : Z) : Prop :=
  if Z.leb 0 e then (lo <= Z.of_N m * 10 ^ e <= hi)%Z
  else (lo * 10 ^ (- e) <= Z.of_N m <= hi * 10 ^ (- e))%Z.

(** ** Lemmas on the digits *)

Lemma digit_char_spec (d : N) :
  (d < 10)%N -> is_digit (digit_char d) = true /\ digit_val (digit_char d) = Z.of_N d.
Proof.
  intros H. assert (d = 0 \/ d = 1 \/ d = 2 \/ d = 3 \/ d = 4 \/ d = 5 \/ d = 6 \/ d = 7 \/
                     d = 8 \/ d = 9)%N as Hd by lia.
  repeat destruct Hd as [-> | Hd]; try (subst; split; reflexivity).
Qed.

(** The digits [D] put in front of the accumulator: a nonempty digit
    string of value [m], with a nonzero leading digit when [m > 0]. *)
Lemma N_digits_acc_spec (f : nat) (m : N) (acc : string) :
  1 <= f -> (Z.of_N m < 10 ^ Z.of_nat f)%Z ->
  exists D, N_digits_acc f m acc = D ++ acc /\ all_digits D = true /\ D <> EmptyString /\
            digits_value D = Z.of_N m /\
            (m <> 0%N -> 10 ^ Z.of_nat (String.length D) <= 10 * Z.of_N m)%Z.
Proof.
  revert m acc. induction f as [|f IH]; intros m acc Hf Hm; [lia|].
  cbn [N_digits_acc].
  destruct (digit_char_spec (N.modulo m 10) ltac:(apply N.mod_lt; lia)) as [Hd Hv].
  destruct (N.ltb_spec m 10) as [Hlt|Hge].
  - exists (String (digit_char (m mod 10)) EmptyString).
    split; [reflexivity|]. split; [simpl; now rewrite Hd|]. split; [discriminate|]. split.
    + change (digits_value (String (digit_char (m mod 10)) EmptyString))
        with (0 * 10 + digit_val (digit_char (m mod 10)))%Z.
      rewrite Hv, N.mod_small by lia. lia.
    + intros. change (Z.of_nat (String.length (String (digit_char (m mod 10)) EmptyString)))
        with 1%Z. rewrite Z.pow_1_r. lia.
  - assert (Hf' : 1 <= f).
    { destruct f; [|lia]. simpl in Hm. lia. }
    assert (Hm' : (Z.of_N (m / 10) < 10 ^ Z.of_nat f)%Z).
    { rewrite Nat2Z.inj_succ, Z.pow_succ_r in Hm by lia. rewrite N2Z.inj_div. simpl.
      apply Z.div_lt_upper_bound; lia. }
    destruct (IH (m / 10)%N (String (digit_char (m mod 10)) acc) Hf' Hm')
      as (D & E & Hall & Hne & Hval & Hlead).
    exists (D ++ String (digit_char (m mod 10)) EmptyString). rewrite E, <- string_app_assoc.
    split; [reflexivity|]. rewrite all_digits_app, Hall. cbn [all_digits]. rewrite Hd.
    repeat split; auto.
    + destruct D; [contradiction|discriminate].
    + rewrite digits_value_app, Hval. change (digits_value (String (digit_char (m mod 10)) EmptyString))
        with (0 * 10 + digit_val (digit_char (m mod 10)))%Z. rewrite Hv.
      rewrite N2Z.inj_div, N2Z.inj_mod by lia. simpl Z.of_N.
      pose proof (Z.div_mod (Z.of_N m) 10 ltac:(lia)). simpl. lia.
    + intros _. rewrite string_length_app, Nat2Z.inj_add, Z.pow_add_r by lia.
      change (Z.of_nat (String.length (String (digit_char (m mod 10)) EmptyString))) with 1%Z.
      rewrite Z.pow_1_r.
      assert (m / 10 <> 0)%N by (intros E0; apply N.div_small_iff in E0; lia).
      specialize (Hlead H). rewrite N2Z.inj_div in Hlead. change (Z.of_N 10) with 10%Z in Hlead.
      pose proof (Z.mul_div_le (Z.of_N m) 10 ltac:(lia)). lia.
Qed.

Lemma N_digits_spec (m : N) :
  all_digits (N_digits m) = true /\ N_digits m <> EmptyString /\
  digits_value (N_digits m) = Z.of_N m /\
  (m <> 0%N -> 10 ^ Z.of_nat (String.length (N_digits m)) <= 10 * Z.of_N m)%Z.
Proof.
  unfold N_digits.
  destruct (N_digits_acc_spec (S (N.to_nat (N.size m))) m EmptyString) as (D & E & H); [lia| |].
  - pose proof (N.size_gt m) as Hs. apply N2Z.inj_lt in Hs. rewrite N2Z.inj_pow in Hs.
    rewrite Nat2Z.inj_succ, N_nat_Z. simpl Z.of_N in Hs.
    pose proof (N2Z.is_nonneg (N.size m)).
    assert (2 ^ Z.of_N (N.size m) <= 10 ^ Z.of_N (N.size m))%Z by (apply Z.pow_le_mono_l; lia).
    rewrite Z.pow_succ_r by lia. nia.
  - rewrite E, string_app_nil_r. exact H.
Qed.

(** The number of digits bounds the value from both sides. *)
Lemma N_digits_length (m : N) :
  (Z.of_N m < 10 ^ Z.of_nat (String.length (N_digits m)))%Z /\
  (m <> 0%N -> 10 ^ Z.of_nat (String.length (N_digits m)) <= 10 * Z.of_N m)%Z.
Proof.
  destruct (N_digits_spec m) as (Hall & _ & Hval & Hlead). split; auto.
  rewrite <- Hval. apply digits_value_range, Hall.
Qed.

Lemma zeros_digits (k : nat) : all_digits (zeros k) = true /\ String.length (zeros k) = k.
Proof. induction k as [|k [IH1 IH2]]; simpl; auto. Qed.

(** In positional notation with a fractional part ([0 < decpt < n]),
    [str] is the digits with a point inserted at [decpt]. *)
Lemma short_repr_frac (D : string) (decpt : Z) :
  (0 < decpt < Z.of_nat (String.length D))%Z -> (decpt <= 16)%Z ->
  short_repr D decpt = py_take (Z.to_nat decpt) D ++ "." ++ py_drop (Z.to_nat decpt) D.
Proof.
  intros H1 H2. unfold short_repr.
  destruct (Z.leb_spec decpt (-4)); [lia|]. destruct (Z.ltb_spec 16 decpt); [lia|].
  destruct (Z.leb_spec decpt 0); [lia|]. destruct (Z.ltb_spec decpt (Z.of_nat (String.length D))); [|lia].
  reflexivity.
Qed.

(** In positional notation without a fractional part ([n <= decpt]),
    [str] is the digits, the zeros up to the point, and [".0"]. *)
Lemma short_repr_int (D : string) (decpt : Z) :
  (Z.of_nat (String.length D) <= decpt <= 16)%Z -> (0 < decpt)%Z ->
  short_repr D decpt = D ++ zeros (Z.to_nat (decpt - Z.of_nat (String.length D))) ++ ".0".
Proof.
  intros H1 H2. unfold short_repr.
  destruct (Z.leb_spec decpt (-4)); [lia|]. destruct (Z.ltb_spec 16 decpt); [lia|].
  destruct (Z.leb_spec decpt 0); [lia|]. destruct (Z.ltb_spec decpt (Z.of_nat (String.length D))); [lia|].
  reflexivity.
Qed.

(** The characters after the first point of [str(x)] for a positive
    finite float printed in positional notation: [-e] of them when [e < 0],
    the single ["0"] of [".0"] otherwise. *)
Lemma repr_decimals (m : N) (e : Z) :
  let n := Z.of_nat (String.length (N_digits m)) in
  (0 < n + e <= 16)%Z ->
  py_in_char "." (float_repr (PFin false m e)) = true /\
  String.length (nth 1 (py_split "." (float_repr (PFin false m e))) EmptyString) =
  (if Z.ltb e 0 then Z.to_nat (- e) else 1).
Proof.
  intros n H. destruct (N_digits_spec m) as (Hall & _ & _ & _).
  assert (Hnodot : forall s, all_digits s = true -> py_in_char "." s = false)
    by (intros s Hs; now apply all_digits_no_char).
  unfold float_repr. cbn zeta. rewrite (string_app_nil_l (short_repr _ _)).
  destruct (Z.ltb_spec e 0) as [He|He].
  - rewrite short_repr_frac by lia.
    destruct (all_digits_take_drop (Z.to_nat (n + e)) _ Hall) as [Ht Hd].
    rewrite py_in_char_app, Hnodot by auto. simpl.
    rewrite py_split_app_sep, py_split_no_sep by auto. split; [reflexivity|]. simpl.
    rewrite length_py_drop by lia. lia.
  - rewrite short_repr_int by lia. rewrite string_app_assoc.
    assert (Hz : forall k, all_digits (N_digits m ++ zeros k) = true)
      by (intros k; rewrite all_digits_app, Hall; apply zeros_digits).
    rewrite py_in_char_app, Hnodot by apply Hz.
    split; [reflexivity|].
    change ".0" with (String "." "0"). rewrite py_split_app_sep by (apply Hnodot, Hz).
    reflexivity.
Qed.

(** ** Comparisons with integers *)

(** [not (x < lo or x > hi)] for a positive finite float. *)
Lemma range_check_pos (m : N) (e lo hi : Z) :
  (py_lt (PFin false m e) lo || py_gt (PFin false m e) hi)%bool = false <->
  in_range_pos m e lo hi.
Proof.
  unfold py_lt, py_gt, pf_cmp_int, in_range_pos.
  destruct (Z.leb 0 e);
  [destruct (Z.compare_spec (Z.of_N m * 10 ^ e) lo), (Z.compare_spec (Z.of_N m * 10 ^ e) hi)
  |destruct (Z.compare_spec (Z.of_N m) (lo * 10 ^ (- e))),
            (Z.compare_spec (Z.of_N m) (hi * 10 ^ (- e)))];
  simpl; split; intros; try discriminate; try reflexivity; lia.
Qed.

(** A negative float is below any positive bound. *)
Lemma lt_check_neg (m : N) (e lo : Z) : (0 < lo)%Z -> py_lt (PFin true m e) lo = true.
Proof.
  intros H. unfold py_lt, pf_cmp_int. pose proof (Z.pow_pos_nonneg 10 (- e)).
  destruct (Z.leb_spec 0 e); [pose proof (Z.pow_nonneg 10 e)|];
  [destruct (Z.compare_spec (- Z.of_N m * 10 ^ e) lo)
  |destruct (Z.compare_spec (- Z.of_N m) (lo * 10 ^ (- e)))]; auto; nia.
Qed.

(** Within [10 .. 10000] the point of [str(x)] falls after the second to
    fifth digit: positional notation with an integer part. *)
Lemma decpt_in_range (m : N) (e : Z) :
  in_range_pos m e 10 10000 ->
  (2 <= Z.of_nat (String.length (N_digits m)) + e <= 5)%Z.
Proof.
  unfold in_range_pos. destruct (N_digits_length m) as [Hup Hlow].
  set (n := Z.of_nat (String.length (N_digits m))) in *.
  assert (Hn : (0 <= n)%Z) by lia.
  destruct (Z.leb_spec 0 e) as [He|He]; intros [H1 H2];
    [pose proof (Z.pow_pos_nonneg 10 e ltac:(lia)) | pose proof (Z.pow_pos_nonneg 10 (- e) ltac:(lia))];
    (assert (Hm : m <> 0%N) by (intros E0; subst m; change (Z.of_N 0) with 0%Z in *; lia)); specialize (Hlow Hm).
  - idtac.
    assert (Hup' : (10 ^ 1 < 10 ^ (n + e))%Z).
    { rewrite Z.pow_add_r by lia. nia. }
    assert (Hlow' : (10 ^ (n + e) <= 10 ^ 5)%Z).
    { rewrite Z.pow_add_r by lia. nia. }
    apply Z.pow_lt_mono_r_iff in Hup'; [|lia|lia].
    apply Z.pow_le_mono_r_iff in Hlow'; lia.
  - set (f := (- e)%Z) in *. pose proof (Z.pow_pos_nonneg 10 f ltac:(lia)).
    assert (Hup' : (10 ^ (1 + f) < 10 ^ n)%Z) by (rewrite Z.pow_add_r by lia; lia).
    assert (Hlow' : (10 ^ n <= 10 ^ (5 + f))%Z)
      by (rewrite Z.pow_add_r by lia; change (10 ^ 5)%Z with 100000%Z; lia).
    apply Z.pow_lt_mono_r_iff in Hup'; [|lia|lia].
    apply Z.pow_le_mono_r_iff in Hlow'; lia.
Qed.

(** ** [str()] of a float is printable ASCII *)

(** Splits [printable] over concatenations and closes the literal pieces. *)
Ltac printable_split :=
  repeat (rewrite printable_app || (apply andb_true_iff; split));
  try reflexivity.

Lemma printable_N_digits (m : N) : printable (N_digits m) = true.
Proof. apply printable_digits, N_digits_spec. Qed.

Lemma printable_zeros (k : nat) : printable (zeros k) = true.
Proof. apply printable_digits, zeros_digits. Qed.

Lemma printable_exp_str (k : Z) : printable (exp_str k) = true.
Proof.
  unfold exp_str. printable_split; [destruct (Z.ltb k 0) | destruct (Z.ltb (Z.abs k) 10) | apply printable_N_digits];
    reflexivity.
Qed.

Lemma printable_short_repr (D : string) (decpt : Z) :
  all_digits D = true -> printable (short_repr D decpt) = true.
Proof.
  intros HD. pose proof (printable_digits D HD) as HP. unfold short_repr.
  destruct (_ || _)%bool; [|destruct (Z.leb decpt 0); [|destruct (Z.ltb decpt _)]];
    printable_split; try (apply printable_substring; exact HP);
    auto using printable_zeros, printable_exp_str.
  destruct D as [|d rest]; [reflexivity|]. cbn [printable] in HP |- *.
  apply andb_true_iff in HP as [Hd HP]. rewrite Hd. simpl.
  destruct rest; [reflexivity|]. cbn [printable] in HP |- *. rewrite HP. reflexivity.
Qed.

Lemma printable_float_repr (x : pyfloat) : printable (float_repr x) = true.
Proof.
  destruct x as [neg m e|neg|]; simpl; [|destruct neg; reflexivity|reflexivity].
  printable_split; [destruct neg; reflexivity|]. apply printable_short_repr, N_digits_spec.
Qed.
