(* ===== verification/Validators.v ===== *)
(** * The field validators of [TransferRequest]

    [validate_concept], [validate_transfer_type], [validate_transfer_date]
    and [validate_amount] ([transfer_request.py], lines 90-148).  Each
    returns normally or raises an [AccountManagementException]; the
    earlier [account_manager.py] inlines the same checks (with the type
    spelled [IMMEDIATE] instead of [INMEDIATE]).

    The theorems characterise what each validator accepts:
    - the amount: a finite float [x] with [10 <= x <= 10000] and at most two
      decimals, and also NaN, whose comparisons are all false;
    - the concept, the type and the date (below). *)

From Stdlib Require Import String Ascii List ZArith Lia Bool.
From S2P Require Import Prelude PyStr PyRegex PyFloat.
Import ListNotations.
Open Scope string_scope.

(** ** [validate_amount] (lines 130-142) *)

Definition invalid_amount : exn := AccountManagementException "Invalid transfer amount".

(** The argument is a float, so [float(amount)] returns it unchanged and
    its [ValueError] branch is not reachable. *)
Definition validate_amount (amount : pyfloat) : res unit :=
  let amount_float := amount in
  let n_str := float_repr amount_float in
  ((if py_in_char "." n_str then
      let decimals := String.length (nth 1 (py_split "." n_str) EmptyString) in
      raise_if (Nat.ltb 2 decimals) invalid_amount
    else Ok tt) ;;;
   raise_if (py_lt amount_float 10 || py_gt amount_float 10000) invalid_amount)%py.

(** What the validator accepts, stated on the value: a positive finite
    amount with at most two decimals, between 10.00 and 10000.00 (that is
    [1000 <= 100 * x <= 1000000] with [100 * x] an integer), or NaN. *)
Definition amount_accepted (x : pyfloat) : Prop :=
  match x with
  | PFin false m e => (-2 <= e)%Z /\ (1000 <= Z.of_N m * 10 ^ (e + 2) <= 1000000)%Z
  | PFin true _ _ | PInf _ => False
  | PNaN => True
  end.

(** ** [validate_concept] (lines 90-96) *)

Definition letters : regex := RClass [CRange "a" "z"; CRange "A" "Z"].

(** [r"^(?=^.{10,30}$)([a-zA-Z]+(\s[a-zA-Z]+)+)$"] *)
Definition concept_pattern : regex :=
  rseq [RBol; RLookahead (rseq [RBol; RRepeat 10 (Some 30) RAny; REol]);
        rplus letters; rplus (RCat (RClass [CSpace]) (rplus letters)); REol].

Definition invalid_concept : exn := AccountManagementException "Invalid concept format".

Definition validate_concept (concept : string) : res unit :=
  raise_if (negb (check_regular concept_pattern concept)) invalid_concept.

(** ** [validate_transfer_type] (lines 144-148) *)

(** [r"(ORDINARY|INMEDIATE|URGENT)"]; the earlier version checks
    [r"(ORDINARY|IMMEDIATE|URGENT)"] inline. *)
Definition type_pattern : regex :=
  RAlt (rstr "ORDINARY") (RAlt (rstr "INMEDIATE") (rstr "URGENT")).

Definition type_pattern_v0 : regex :=
  RAlt (rstr "ORDINARY") (RAlt (rstr "IMMEDIATE") (rstr "URGENT")).

Definition invalid_type : exn := AccountManagementException "Invalid transfer type".

Definition validate_transfer_type (transfer_type : string) : res unit :=
  raise_if (negb (check_regular type_pattern transfer_type)) invalid_type.

(** ** [validate_transfer_date] (lines 105-122) *)

(** A [datetime.date]; Python orders dates by (year, month, day). *)
Record date : Type := mkdate { year : Z; month : Z; day : Z }.

Definition date_ltb (a b : date) : bool :=
  (Z.ltb (year a) (year b) ||
   (Z.eqb (year a) (year b) &&
    (Z.ltb (month a) (month b) || (Z.eqb (month a) (month b) && Z.ltb (day a) (day b)))))%bool.

Definition is_leap (y : Z) : bool :=
  (Z.eqb (Z.modulo y 4) 0 && (negb (Z.eqb (Z.modulo y 100) 0) || Z.eqb (Z.modulo y 400) 0))%bool.

Definition days_in_month (y m : Z) : Z :=
  if Z.eqb m 2 then (if is_leap y then 29 else 28)
  else if (Z.eqb m 4 || Z.eqb m 6 || Z.eqb m 9 || Z.eqb m 11)%bool then 30 else 31.

(** [datetime.strptime(s, "%d/%m/%Y").date()] on a string that passed the
    date regex: the three fields are read as decimal numbers, and
    [ValueError] is raised unless they form a date of the proleptic
    Gregorian calendar with [1 <= year] ([%d] and [%m] also reject 00). *)
Definition py_strptime_dmy (s : string) : option date :=
  match py_int (py_slice 0 2 s), py_int (py_slice 3 5 s), py_int (py_slice 6 10 s) with
  | Some d, Some m, Some y =>
      if (Z.leb 1 y && Z.leb 1 m && Z.leb m 12 && Z.leb 1 d && Z.leb d (days_in_month y m))%bool
      then Some (mkdate y m d) else None
  | _, _, _ => None
  end.

Definition digit : regex := RClass [CDigit].

(** [r"^(([0-2]\d|3[0-1])\/(0\d|1[0-2])\/\d\d\d\d)$"] *)
Definition date_pattern : regex :=
  rseq [RBol;
        RAlt (RCat (RClass [CRange "0" "2"]) digit) (RCat (RChar "3") (RClass [CRange "0" "1"]));
        RChar "/";
        RAlt (RCat (RChar "0") digit) (RCat (RChar "1") (RClass [CRange "0" "2"]));
        RChar "/"; digit; digit; digit; digit; REol].

Definition invalid_date : exn := AccountManagementException "Invalid date format".

(** A date of the calendar: a month 1..12 and a day of that month. *)
Definition valid_date (dt : date) : Prop :=
  (1 <= month dt <= 12 /\ 1 <= day dt <= days_in_month (year dt) (month dt))%Z.
Definition past_date : exn := AccountManagementException "Transfer date must be today or later.".

(** Lines 107-115: the format check and [strptime]. *)
Definition parse_transfer_date (transfer_date : string) : res date :=
  (raise_if (negb (check_regular date_pattern transfer_date)) invalid_date ;;;
   match py_strptime_dmy transfer_date with
   | Some d => Ok d
   | None => Raise invalid_date
   end)%py.

(** Lines 117-121, with [today] the date of the clock reading of line 117. *)
Definition check_transfer_date (today my_date : date) : res unit :=
  (raise_if (date_ltb my_date today) past_date ;;;
   raise_if (Z.ltb (year my_date) 2025 || Z.ltb 2050 (year my_date))%bool invalid_date)%py.

(** The whole function, for a given reading of the clock; the constructor
    reads the clock between the two parts. *)
Definition validate_transfer_date (today : date) (transfer_date : string) : res string :=
  (my_date <- parse_transfer_date transfer_date ;;
   check_transfer_date today my_date ;;;
   Ok transfer_date)%py.

(** ** The shape of a concept, read left to right

    A concept is a first word of ASCII letters followed by one or more
    groups made of one whitespace character ([str.isspace] on Latin-1,
    the class [\s]) and a word of letters.  [word_start t]: [t] is a word
    followed by groups; [in_word t]: [t] is the rest of a word followed by
    groups; [first_word t]: the rest of the first word, then at least one
    group. *)
Definition is_letter (c : ascii) : bool := class_test [CRange "a" "z"; CRange "A" "Z"] c.

Fixpoint in_word (t : string) : bool :=
  match t with
  | EmptyString => true
  | String c r => if is_letter c then in_word r else (py_isspace c && word_start r)%bool
  end
with word_start (t : string) : bool :=
  match t with
  | EmptyString => false
  | String c r => (is_letter c && in_word r)%bool
  end.

Fixpoint first_word (t : string) : bool :=
  match t with
  | EmptyString => false
  | String c r => if is_letter c then first_word r else (py_isspace c && word_start r)%bool
  end.

Definition concept_words (t : string) : bool :=
  match t with
  | EmptyString => false
  | String c r => (is_letter c && first_word r)%bool
  end.

(** A group: a whitespace character and a word, then more groups. *)
Definition need_group (t : string) : bool :=
  match t with
  | EmptyString => false
  | String c r => (py_isspace c && word_start r)%bool
  end.

(** [(\s[a-zA-Z]+)]: one group of the concept pattern. *)
Definition space_group : regex := RCat (RClass [CSpace]) (rplus letters).

(** The characters at positions [i .. j-1] of [s] are letters. *)
Definition letters_between (s : string) (i j : nat) : Prop :=
  forall k, i <= k < j -> exists c, get k s = Some c /\ is_letter c = true.

(** The last character of [t] is a letter. *)
Definition ends_in_letter (t : string) : Prop :=
  exists c, get (String.length t - 1) t = Some c /\ is_letter c = true.

(** ** A reference reading of the concept: split at whitespace

    [split_ws t] cuts [t] at every whitespace character, as repeated
    [str.split(sep)] with single separators does: two separators in a row
    give an empty piece.  The reference accepts a concept when it splits
    into at least two pieces, each a non-empty run of ASCII letters. *)
Fixpoint all_letters (w : string) : bool :=
  match w with
  | EmptyString => true
  | String c r => (is_letter c && all_letters r)%bool
  end.

Definition good_word (w : string) : bool :=
  match w with
  | EmptyString => false
  | _ => all_letters w
  end.

Fixpoint split_ws (t : string) : list string :=
  match t with
  | EmptyString => [EmptyString]
  | String c r =>
      if py_isspace c then EmptyString :: split_ws r
      else match split_ws r with
           | w :: ws => String c w :: ws
           | [] => [String c EmptyString]
           end
  end.

Definition concept_words_ref (t : string) : bool :=
  match split_ws t with
  | w1 :: w2 :: ws => forallb good_word (w1 :: w2 :: ws)
  | _ => false
  end.

(** ** Lemmas for [validate_amount] *)

(** Both checks raise the same exception: the call succeeds when the
    decimals check and the range check both pass. *)
Lemma validate_amount_ok_iff (x : pyfloat) :
  validate_amount x = Ok tt <->
  (py_in_char "." (float_repr x) = true ->
   String.length (nth 1 (py_split "." (float_repr x)) EmptyString) <= 2) /\
  (py_lt x 10 || py_gt x 10000)%bool = false.
Proof.
  unfold validate_amount. cbv zeta.
  destruct (py_in_char "." (float_repr x));
    [destruct (Nat.ltb_spec 2 (String.length (nth 1 (py_split "." (float_repr x)) EmptyString)))|];
    destruct (py_lt x 10 || py_gt x 10000)%bool; simpl; split;
    try (intros [H1 H2]; try discriminate; specialize (H1 eq_refl); lia);
    try discriminate; intuition lia.
Qed.

Lemma range_scaled (m : N) (e : Z) :
  (-2 <= e)%Z ->
  in_range_pos m e 10 10000 <-> (1000 <= Z.of_N m * 10 ^ (e + 2) <= 1000000)%Z.
Proof.
  intros He. unfold in_range_pos. destruct (Z.leb_spec 0 e).
  - rewrite Z.pow_add_r by lia. change (10 ^ 2)%Z with 100%Z. nia.
  - assert (e = -1 \/ e = -2)%Z as [-> | ->] by lia; simpl; lia.
Qed.

(** C7: [validate_amount] accepts exactly the positive finite amounts between
    10 and 10000 with at most two decimals, and NaN: every comparison
    with NaN is false and [str(nan)] has no point. *)
Theorem validate_amount_iff (x : pyfloat) :
  validate_amount x = Ok tt <-> amount_accepted x.
Proof.
  rewrite validate_amount_ok_iff. destruct x as [[|] m e|[|]|]; simpl amount_accepted.
  - rewrite lt_check_neg by lia. split; [intros [_ H]; discriminate | contradiction].
  - rewrite range_check_pos. split.
    + intros [Hdec Hr]. pose proof (decpt_in_range m e Hr) as Hd.
      destruct (repr_decimals m e ltac:(lia)) as [Hin Hlen].
      specialize (Hdec Hin). rewrite Hlen in Hdec.
      assert (He : (-2 <= e)%Z) by (destruct (Z.ltb_spec e 0); lia).
      split; [exact He|]. now apply range_scaled.
    + intros [He Hr]. apply range_scaled in Hr; [|exact He]. split; [|exact Hr].
      intros _. pose proof (decpt_in_range m e Hr) as Hd.
      destruct (repr_decimals m e ltac:(lia)) as [_ Hlen]. rewrite Hlen.
      destruct (Z.ltb_spec e 0); lia.
  - split; [intros [_ H]; discriminate | contradiction].
  - split; [intros [_ H]; discriminate | contradiction].
  - split; [auto|]. intros _. split; [intros H; discriminate H | reflexivity].
Qed.

(** ** The transfer type *)

Lemma check_three_words (a b c t : string) :
  a <> EmptyString -> b <> EmptyString -> c <> EmptyString ->
  check_regular (RAlt (rstr a) (RAlt (rstr b) (rstr c))) t = true <-> t = a \/ t = b \/ t = c.
Proof.
  intros Ha Hb Hc. unfold check_regular.
  rewrite py_fullmatch_iff.
  - rewrite !matches_alt_iff, !matches_rstr_full by auto. reflexivity.
  - (* literal words are well formed *)
    assert (Hw : forall w, wf_regex (rstr w) = true).
    { induction w as [|x w IH]; [reflexivity|]. destruct w; [reflexivity|]. exact IH. }
    simpl. now rewrite !Hw.
Qed.

(** C15: [fullmatch] anchors the alternation: the type must be exactly one of
    the three words, with the spelling [INMEDIATE]. *)
Theorem validate_transfer_type_iff (t : string) :
  validate_transfer_type t = Ok tt <-> t = "ORDINARY" \/ t = "INMEDIATE" \/ t = "URGENT".
Proof.
  unfold validate_transfer_type. rewrite raise_if_ok, negb_false_iff.
  apply check_three_words; discriminate.
Qed.

(** ** The concept *)

Lemma letter_not_space (c : ascii) : is_letter c = true -> py_isspace c = false.
Proof. destruct c as [[] [] [] [] [] [] [] []]; vm_compute; congruence. Qed.

Lemma need_group_in_word (t : string) : need_group t = true -> in_word t = true.
Proof.
  destruct t as [|c r]; simpl; [discriminate|]. intros H.
  destruct (is_letter c) eqn:L; [|exact H].
  rewrite letter_not_space in H by exact L. discriminate.
Qed.

Lemma need_group_first_word (t : string) : need_group t = true -> first_word t = true.
Proof.
  destruct t as [|c r]; simpl; [discriminate|]. intros H.
  destruct (is_letter c) eqn:L; [|exact H].
  rewrite letter_not_space in H by exact L. discriminate.
Qed.

Lemma py_in_char_get (c : ascii) (s : string) :
  py_in_char c s = true <-> exists q, get q s = Some c.
Proof.
  induction s as [|d s IH]; simpl; [split; [discriminate | intros [[] ?]; discriminate]|].
  rewrite orb_true_iff, IH, Ascii.eqb_eq. split.
  - intros [->|[q Hq]]; [exists 0 | exists (S q)]; auto.
  - intros [[|q] Hq]; [injection Hq as ->; auto | eauto].
Qed.

Lemma ends_in_letter_cons (c : ascii) (r : string) :
  ends_in_letter r -> ends_in_letter (String c r).
Proof.
  unfold ends_in_letter. intros (d & Hd & L). exists d. split; [|exact L].
  destruct r as [|x r']; [discriminate|]. simpl in *. now rewrite Nat.sub_0_r in Hd.
Qed.

(** The shape ends with a letter. *)
Lemma shape_last_letter (t : string) :
  (in_word t = true -> t = EmptyString \/ ends_in_letter t) /\
  (word_start t = true -> ends_in_letter t) /\
  (first_word t = true -> ends_in_letter t).
Proof.
  induction t as [|c r (IH1 & IH2 & IH3)]; simpl; [repeat split; discriminate + auto|].
  assert (Hw : is_letter c = true -> in_word r = true -> ends_in_letter (String c r)).
  { intros L H. destruct (IH1 H) as [->|E]; [exists c; auto | now apply ends_in_letter_cons]. }
  repeat split; intros H.
  - right. destruct (is_letter c) eqn:L; [now apply Hw|].
    apply andb_true_iff in H as [_ H]. now apply ends_in_letter_cons, IH2.
  - apply andb_true_iff in H as [L H]. now apply Hw.
  - apply ends_in_letter_cons. destruct (is_letter c); [now apply IH3|].
    apply andb_true_iff in H as [_ H]. now apply IH2.
Qed.

Section ConceptShape.
Variable s : string.

Lemma letters_plus_iff (i j : nat) :
  matches s (rplus letters) i j <-> i < j /\ letters_between s i j.
Proof.
  unfold rplus. rewrite matches_repeat_iff. setoid_rewrite repeats_char_iff; [|reflexivity].
  unfold letters_between. split.
  - intros (m & [-> H] & Hm & _). split; [lia | exact H].
  - intros [Hlt H]. exists (j - i). replace (i + (j - i)) with j by lia.
    split; [split; [reflexivity | exact H] | split; [lia | exact I]].
Qed.
End ConceptShape.

Section ConceptRuns.
Variable s : string.

Lemma letters_between_cons (i j : nat) (c : ascii) :
  get i s = Some c -> is_letter c = true -> letters_between s (S i) j -> letters_between s i j.
Proof.
  intros Hc L H k Hk. destruct (Nat.eq_dec k i) as [->|]; [eauto | apply H; lia].
Qed.

(** A reader that skips letters gives the same answer after a run of
    letters. *)
Lemma run_letters (f : string -> bool) (Hf : forall c r, is_letter c = true -> f (String c r) = f r)
    (p k : nat) : p <= k -> letters_between s p k -> f (py_drop p s) = f (py_drop k s).
Proof.
  intros Hpk. remember (k - p) as d eqn:Hd. revert p Hpk Hd.
  induction d as [|d IH]; intros p Hpk Hd Hl; [now replace p with k by lia|].
  destruct (Hl p ltac:(lia)) as (c & Hc & L).
  rewrite (py_drop_get _ _ _ Hc), Hf by exact L.
  apply IH; [lia | lia | intros q Hq; apply Hl; lia].
Qed.

Lemma need_group_lt (k : nat) : need_group (py_drop k s) = true -> k < String.length s.
Proof.
  intros H. destruct (Nat.lt_ge_cases k (String.length s)) as [|Hge]; [assumption|].
  rewrite py_drop_end in H by exact Hge. discriminate.
Qed.

(** Reading a group from position [i] to the end is matching [(\s[a-zA-Z]+)+]. *)
Lemma groups_sound (m i : nat) :
  repeats s space_group m i (String.length s) ->
  (m = 0 /\ i = String.length s) \/ need_group (py_drop i s) = true.
Proof.
  revert i. induction m as [|m IH]; intros i H; inversion H as [|? ? ? j ? Hg Hrep]; subst; [now left|].
  right. unfold space_group in Hg. rewrite matches_cat_iff in Hg.
  destruct Hg as (k1 & Hsp & Hl). apply matches_class_iff in Hsp as (-> & c & Hc & Sp).
  apply letters_plus_iff in Hl as [Hlt Hl].
  destruct (Hl (S i) ltac:(lia)) as (d & Hd & Ld).
  rewrite (py_drop_get _ _ _ Hc). simpl. simpl in Sp. rewrite orb_false_r in Sp. rewrite Sp.
  rewrite (py_drop_get _ _ _ Hd). simpl. rewrite Ld. simpl.
  rewrite (run_letters in_word) with (k := j);
    [| intros x r Lx; simpl; now rewrite Lx | lia | intros q Hq; apply Hl; lia].
  destruct (IH j Hrep) as [[_ ->] | Hn]; [now rewrite py_drop_end | now apply need_group_in_word].
Qed.

Lemma in_word_complete (p : nat) :
  p <= String.length s -> in_word (py_drop p s) = true ->
  exists k, p <= k /\ letters_between s p k /\
            (k = String.length s \/ need_group (py_drop k s) = true).
Proof.
  intros Hp. remember (String.length s - p) as d eqn:Hd. revert p Hp Hd.
  induction d as [|d IH]; intros p Hp Hd H.
  - exists p. repeat split; [lia | intros q Hq; lia | left; lia].
  - destruct (get_some s p ltac:(lia)) as [c Hc]. rewrite (py_drop_get _ _ _ Hc) in H. simpl in H.
    destruct (is_letter c) eqn:L.
    + destruct (IH (S p) ltac:(lia) ltac:(lia) H) as (k & Hk & Hl & Hend).
      exists k. split; [lia|]. split; [exact (letters_between_cons _ _ _ Hc L Hl) | exact Hend].
    + exists p. split; [lia|]. split; [intros q Hq; lia|].
      right. rewrite (py_drop_get _ _ _ Hc). exact H.
Qed.

Lemma first_word_complete (p : nat) :
  first_word (py_drop p s) = true ->
  exists k, p <= k /\ letters_between s p k /\ need_group (py_drop k s) = true.
Proof.
  remember (String.length s - p) as d eqn:Hd. revert p Hd.
  induction d as [|d IH]; intros p Hd H.
  - rewrite py_drop_end in H by lia. discriminate.
  - destruct (get_some s p ltac:(lia)) as [c Hc]. rewrite (py_drop_get _ _ _ Hc) in H. simpl in H.
    destruct (is_letter c) eqn:L.
    + destruct (IH (S p) ltac:(lia) H) as (k & Hk & Hl & Hn).
      exists k. split; [lia|]. split; [exact (letters_between_cons _ _ _ Hc L Hl) | exact Hn].
    + exists p. split; [lia|]. split; [intros q Hq; lia|].
      rewrite (py_drop_get _ _ _ Hc). exact H.
Qed.
Lemma groups_complete (i : nat) :
  need_group (py_drop i s) = true ->
  exists m, 1 <= m /\ repeats s space_group m i (String.length s).
Proof.
  remember (String.length s - i) as d eqn:Hd. revert i Hd.
  induction d as [d IH] using lt_wf_ind. intros i Hd H.
  pose proof (need_group_lt i H) as Hi.
  destruct (get_some s i Hi) as [c Hc]. rewrite (py_drop_get _ _ _ Hc) in H. simpl in H.
  apply andb_true_iff in H as [Sp H].
  destruct (Nat.lt_ge_cases (S i) (String.length s)) as [Hi'|Hge];
    [|rewrite py_drop_end in H by exact Hge; discriminate].
  destruct (get_some s (S i) Hi') as [c' Hc']. rewrite (py_drop_get _ _ _ Hc') in H. simpl in H.
  apply andb_true_iff in H as [L H].
  destruct (in_word_complete (S (S i)) ltac:(lia) H) as (k & Hk & Hl & Hend).
  assert (Hg : matches s space_group i k).
  { unfold space_group. apply matches_cat_iff. exists (S i). split.
    - apply matches_class_iff. split; [reflexivity|]. exists c. split; [exact Hc|]. simpl. now rewrite Sp.
    - apply letters_plus_iff. split; [lia | exact (letters_between_cons _ _ _ Hc' L Hl)]. }
  destruct Hend as [-> | Hn].
  - exists 1. split; [lia|]. econstructor; [exact Hg | constructor].
  - pose proof (need_group_lt k Hn).
    destruct (IH (String.length s - k) ltac:(lia) k eq_refl Hn) as (m & Hm & Hrep).
    exists (S m). split; [lia|]. econstructor; eauto.
Qed.

(** The body of the pattern, [[a-zA-Z]+(\s[a-zA-Z]+)+$], matches the
    whole string exactly when the reader accepts it. *)
Lemma concept_body_iff :
  matches s (RCat (rplus letters) (RCat (rplus space_group) REol)) 0 (String.length s) <->
  concept_words s = true.
Proof.
  rewrite matches_cat_iff. setoid_rewrite matches_cat_iff. setoid_rewrite matches_eol_iff.
  setoid_rewrite letters_plus_iff. unfold rplus. setoid_rewrite matches_repeat_iff.
  split.
  - intros (k & [Hk Hl] & j & (m & Hrep & Hm & _) & <- & _).
    destruct (groups_sound m k Hrep) as [[-> _]|Hn]; [lia|].
    destruct (Hl 0 ltac:(lia)) as (c & Hc & L).
    replace (concept_words s) with (concept_words (py_drop 0 s))
      by (unfold py_drop; now rewrite Nat.sub_0_r, substring_all).
    rewrite (py_drop_get _ _ _ Hc). simpl. rewrite L. simpl.
    rewrite (run_letters first_word) with (k := k);
      [| intros x r Lx; simpl; now rewrite Lx | lia | intros q Hq; apply Hl; lia].
    now apply need_group_first_word.
  - intros H. replace (concept_words s) with (concept_words (py_drop 0 s)) in H
      by (unfold py_drop; now rewrite Nat.sub_0_r, substring_all).
    destruct (Nat.lt_ge_cases 0 (String.length s)) as [Hpos|Hz];
      [|rewrite py_drop_end in H by lia; discriminate].
    destruct (get_some s 0 Hpos) as [c Hc]. rewrite (py_drop_get _ _ _ Hc) in H. simpl in H.
    apply andb_true_iff in H as [L H].
    destruct (first_word_complete 1 H) as (k & Hk & Hl & Hn).
    destruct (groups_complete k Hn) as (m & Hm & Hrep).
    exists k. split; [split; [lia | exact (letters_between_cons _ _ _ Hc L Hl)]|].
    exists (String.length s). split; [exists m; split; [exact Hrep | split; [exact Hm | exact I]]|].
    split; [reflexivity|].
    unfold at_eol. now rewrite Nat.eqb_refl.
Qed.
End ConceptRuns.

Lemma concept_words_last (t : string) : concept_words t = true -> ends_in_letter t.
Proof.
  destruct t as [|c r]; simpl; [discriminate|]. intros H. apply andb_true_iff in H as [_ H].
  apply ends_in_letter_cons. now apply (shape_last_letter r).
Qed.

(** The pattern is [^], the look-ahead, and the body. *)
Lemma concept_pattern_split (s : string) :
  matches s concept_pattern 0 (String.length s) <->
  (exists k, matches s (rseq [RBol; RRepeat 10 (Some 30) RAny; REol]) 0 k) /\
  matches s (RCat (rplus letters) (RCat (rplus space_group) REol)) 0 (String.length s).
Proof.
  unfold concept_pattern. cbn [rseq]. split.
  - intros H. apply matches_cat_iff in H as (j & H0 & H). apply matches_bol_iff in H0 as [_ ->].
    apply matches_cat_iff in H as (j' & Hl & Hb). apply matches_lookahead_iff in Hl as [-> (k & Hk)].
    split; [eauto | exact Hb].
  - intros [(k & Hk) Hb]. apply matches_cat_iff. exists 0. split; [now apply matches_bol_iff|].
    apply matches_cat_iff. exists 0. split; [apply matches_lookahead_iff; eauto | exact Hb].
Qed.

(** [(?=^.{10,30}$)] at the start: between 10 and 30 characters other than
    a newline, then the end (or a final newline). *)
Lemma concept_lookahead_iff (s : string) :
  (exists k, matches s (rseq [RBol; RRepeat 10 (Some 30) RAny; REol]) 0 k) <->
  exists n, 10 <= n <= 30 /\ (forall q, q < n -> exists c, get q s = Some c /\ c <> newline) /\
            at_eol s n = true.
Proof.
  cbn [rseq]. split.
  - intros (k & H). apply matches_cat_iff in H as (j & H0 & H). apply matches_bol_iff in H0 as [_ ->].
    apply matches_cat_iff in H as (j' & Hr & He). apply matches_eol_iff in He as [-> Heol].
    apply matches_repeat_iff in Hr as (n & Hrep & Hlo & Hhi).
    apply repeats_char_iff in Hrep as [-> Hall]; [|reflexivity].
    exists n. split; [simpl in Hhi; lia|]. split; [|exact Heol].
    intros q Hq. destruct (Hall q ltac:(lia)) as (c & Hc & T).
    exists c. split; [exact Hc|]. apply negb_true_iff, Ascii.eqb_neq in T. exact T.
  - intros (n & Hn & Hall & Heol). exists n. apply matches_cat_iff. exists 0.
    split; [now apply matches_bol_iff|]. apply matches_cat_iff. exists n.
    split; [|now apply matches_eol_iff]. apply matches_repeat_iff. exists n.
    split; [|simpl; lia]. apply repeats_char_iff; [reflexivity|]. split; [reflexivity|].
    intros q Hq. destruct (Hall q ltac:(lia)) as (c & Hc & T). exists c. split; [exact Hc|].
    apply negb_true_iff, Ascii.eqb_neq. exact T.
Qed.

(** ** The automaton [concept_words] against the split reading *)

Lemma split_ws_cons (t : string) : exists h rest, split_ws t = h :: rest.
Proof.
  induction t as [|c r (h & rest & IH)]; cbn [split_ws]; [eauto|].
  destruct (py_isspace c); [eauto|]. rewrite IH. eauto.
Qed.

(** What each state of the automaton recognises, read on the pieces. *)
Lemma concept_states_split (t : string) :
  match split_ws t with
  | h :: rest =>
      in_word t = (all_letters h && forallb good_word rest)%bool /\
      word_start t = forallb good_word (h :: rest) /\
      first_word t = (all_letters h && negb (match rest with [] => true | _ => false end) &&
                      forallb good_word rest)%bool
  | [] => False
  end.
Proof.
  induction t as [|c r IH]; [repeat split|].
  destruct (split_ws_cons r) as (h & rest & E). rewrite E in IH. destruct IH as (I1 & I2 & I3).
  cbn [split_ws in_word word_start first_word]. rewrite E.
  destruct (is_letter c) eqn:L.
  - rewrite (letter_not_space c L). cbn [all_letters good_word forallb]. rewrite L, I1, I3.
    repeat split; destruct h; reflexivity.
  - cbn [andb]. destruct (py_isspace c) eqn:S; cbn [all_letters good_word forallb andb].
    + rewrite I2. repeat split; reflexivity.
    + rewrite L. repeat split; reflexivity.
Qed.

Lemma concept_words_split (t : string) : concept_words t = concept_words_ref t.
Proof.
  unfold concept_words_ref. destruct t as [|c r]; [reflexivity|].
  cbn [concept_words split_ws]. pose proof (concept_states_split r) as H.
  destruct (split_ws r) as [|h rest]; [contradiction|]. destruct H as (_ & _ & I3).
  destruct (is_letter c) eqn:L.
  - rewrite (letter_not_space c L). rewrite I3. cbn [forallb good_word all_letters].
    rewrite L. destruct rest; [now rewrite !andb_false_r|]. cbn [negb forallb].
    now rewrite andb_true_r.
  - cbn [andb]. destruct (py_isspace c), rest; cbn [forallb good_word all_letters];
      rewrite ?L; reflexivity.
Qed.

(** The regex of [validate_concept] read as the automaton [concept_words]. *)
Lemma validate_concept_words (c : string) :
  validate_concept c = Ok tt <->
  10 <= String.length c <= 30 /\ py_in_char newline c = false /\ concept_words c = true.
Proof.
  unfold validate_concept. rewrite raise_if_ok, negb_false_iff. unfold check_regular.
  rewrite py_fullmatch_iff by reflexivity.
  rewrite concept_pattern_split, concept_lookahead_iff, concept_body_iff. split.
  - intros [(n & Hn & Hall & Heol) Hw]. split; [|split; [|exact Hw]].
    + unfold at_eol in Heol. apply orb_true_iff in Heol as [E|E]; [apply Nat.eqb_eq in E; lia|].
      apply andb_true_iff in E as [E1 E2]. apply Nat.eqb_eq in E1.
      destruct (concept_words_last c Hw) as (d & Hd & L).
      replace (String.length c - 1) with n in Hd by lia. rewrite Hd in E2.
      apply Ascii.eqb_eq in E2. subst d. discriminate.
    + destruct (py_in_char newline c) eqn:E; [|reflexivity]. exfalso.
      apply py_in_char_get in E as [q Hq].
      assert (Hn' : n = String.length c \/ S n = String.length c).
      { unfold at_eol in Heol. apply orb_true_iff in Heol as [E|E];
          [left | right; apply andb_true_iff in E as [E _]]; now apply Nat.eqb_eq in E. }
      pose proof (get_lt _ _ _ Hq) as Hlt.
      destruct (Nat.eq_dec q n) as [->|Hne].
      * destruct (concept_words_last c Hw) as (d & Hd & L).
        destruct Hn' as [->|Hn']; [lia|]. replace (String.length c - 1) with n in Hd by lia.
        rewrite Hd in Hq. injection Hq as ->. discriminate.
      * destruct (Hall q ltac:(lia)) as (d & Hd & Hnl). congruence.
  - intros (Hl & Hnl & Hw). split; [|exact Hw]. exists (String.length c).
    split; [exact Hl|]. split; [|unfold at_eol; now rewrite Nat.eqb_refl].
    intros q Hq. destruct (get_some c q Hq) as [d Hd]. exists d. split; [exact Hd|].
    intros ->. assert (py_in_char newline c = true) by (apply py_in_char_get; eauto). congruence.
Qed.

(** C10: the concept check against the split reading: [validate_concept]
    accepts exactly the strings of 10 to 30 characters without a newline
    that split at whitespace into at least two pieces, each a non-empty
    run of ASCII letters; two separators in a row, a leading or a trailing
    separator, and any other character are refused. *)
Theorem validate_concept_split (c : string) :
  validate_concept c = Ok tt <->
  10 <= String.length c <= 30 /\ py_in_char newline c = false /\ concept_words_ref c = true.
Proof. rewrite <- concept_words_split. apply validate_concept_words. Qed.

(** ** The date *)

(** Character tests as arithmetic on the code point. *)
Ltac char_facts :=
  unfold class_test, item_test, is_digit, digit_val in *; cbn [existsb] in *;
  change (nat_of_ascii "0") with 48%nat in *; change (nat_of_ascii "1") with 49%nat in *;
  change (nat_of_ascii "2") with 50%nat in *; change (nat_of_ascii "3") with 51%nat in *;
  change (nat_of_ascii "9") with 57%nat in *;
  rewrite ?orb_false_r in *; bool_to_prop.

Ltac char_goal :=
  first [ lia | (apply andb_true_iff; split; apply Nat.leb_le; lia) ].

Lemma day_regex_iff (s : string) (i j : nat) :
  matches s (RAlt (RCat (RClass [CRange "0" "2"]) digit) (RCat (RChar "3") (RClass [CRange "0" "1"]))) i j <->
  j = S (S i) /\ exists a b, get i s = Some a /\ get (S i) s = Some b /\
    is_digit a = true /\ is_digit b = true /\ (digits_value (String a (String b EmptyString)) <= 31)%Z.
Proof.
  unfold digit. regex_simpl. setoid_rewrite two_digits_value. split.
  - intros [(j1 & [-> (a & Ha & Ta)] & -> & (b & Hb & Tb)) | (j1 & [-> Ha] & -> & (b & Hb & Tb))];
      split; auto; eexists _, b; repeat split; eauto; char_facts; char_goal.
  - intros (-> & a & b & Ha & Hb & Da & Db & V). char_facts.
    destruct (Nat.leb_spec (nat_of_ascii a) 50).
    + left. exists (S i). split; [split; [reflexivity|] |split; [reflexivity|]]; eexists; split; eauto; char_facts; char_goal.
    + right. exists (S i). assert (Ea : a = "3"%char) by (change "3"%char with (ascii_of_nat 51); apply ascii_of_code; lia). subst a.
      split; [split; [reflexivity|exact Ha] | split; [reflexivity|]]. exists b. split; [exact Hb|]. char_facts; char_goal.
Qed.

Lemma month_regex_iff (s : string) (i j : nat) :
  matches s (RAlt (RCat (RChar "0") digit) (RCat (RChar "1") (RClass [CRange "0" "2"]))) i j <->
  j = S (S i) /\ exists a b, get i s = Some a /\ get (S i) s = Some b /\
    is_digit a = true /\ is_digit b = true /\ (digits_value (String a (String b EmptyString)) <= 12)%Z.
Proof.
  unfold digit. regex_simpl. setoid_rewrite two_digits_value. split.
  - intros [(j1 & [-> Ha] & -> & (b & Hb & Tb)) | (j1 & [-> Ha] & -> & (b & Hb & Tb))];
      split; auto; eexists _, b; repeat split; eauto; char_facts; char_goal.
  - intros (-> & a & b & Ha & Hb & Da & Db & V). char_facts.
    destruct (Nat.leb_spec (nat_of_ascii a) 48).
    + left. exists (S i). assert (Ea : a = "0"%char) by (change "0"%char with (ascii_of_nat 48); apply ascii_of_code; lia).
      subst a. split; [split; [reflexivity|exact Ha] | split; [reflexivity|]].
      exists b. split; [exact Hb|]. char_facts; char_goal.
    + right. exists (S i). assert (Ea : a = "1"%char) by (change "1"%char with (ascii_of_nat 49); apply ascii_of_code; lia).
      subst a. split; [split; [reflexivity|exact Ha] | split; [reflexivity|]].
      exists b. split; [exact Hb|]. char_facts; char_goal.
Qed.

Lemma date_format_iff (s : string) :
  check_regular date_pattern s = true <->
  exists dd mm yyyy, s = dd ++ "/" ++ mm ++ "/" ++ yyyy /\ String.length dd = 2 /\
    String.length mm = 2 /\ String.length yyyy = 4 /\ all_digits (dd ++ mm ++ yyyy) = true /\
    (digits_value dd <= 31)%Z /\ (digits_value mm <= 12)%Z.
Proof.
  unfold check_regular. rewrite py_fullmatch_iff by reflexivity. unfold date_pattern. cbn [rseq].
  repeat first [setoid_rewrite day_regex_iff | setoid_rewrite month_regex_iff
               | setoid_rewrite matches_cat_iff | setoid_rewrite matches_bol_iff
               | setoid_rewrite matches_eol_iff | setoid_rewrite matches_lit_iff
               | setoid_rewrite matches_class_iff].
  split.
  - intros (j & [_ ->] & j0 & (-> & a & b & Ha & Hb & Da & Db & Vd) & j1 & [-> Hs1] &
            j2 & (-> & c & d & Hc & Hd & Dc & Dd & Vm) & j3 & [-> Hs2] &
            j4 & [-> (e1 & He1 & T1)] & j5 & [-> (e2 & He2 & T2)] & j6 & [-> (e3 & He3 & T3)] &
            j7 & [-> (e4 & He4 & T4)] & Hlen & _).
    do 10 (destruct s as [|? s]; [discriminate Hlen|]). destruct s; [|discriminate Hlen].
    simpl in *. rewrite ?orb_false_r in *.
    repeat match goal with H : Some _ = Some _ |- _ => injection H as H end. subst.
    exists (String a (String b EmptyString)), (String c (String d EmptyString)),
      (String e1 (String e2 (String e3 (String e4 EmptyString)))).
    repeat split; auto. simpl. now rewrite Da, Db, Dc, Dd, T1, T2, T3, T4.
  - intros (dd & mm & yyyy & -> & Ld & Lm & Ly & Hd & Vd & Vm).
    destruct dd as [|a [|b [|]]]; try discriminate. destruct mm as [|c [|d [|]]]; try discriminate.
    destruct yyyy as [|e1 [|e2 [|e3 [|e4 [|]]]]]; try discriminate.
    simpl in Hd. bool_to_prop.
    exists 0. split; [auto|]. exists 2. split; [split; [reflexivity|]; exists a, b; auto|].
    exists 3. split; [auto|]. exists 5. split; [split; [reflexivity|]; exists c, d; auto|].
    exists 6. split; [auto|].
    exists 7. split; [split; [reflexivity|]; exists e1; simpl; rewrite ?orb_false_r; auto|].
    exists 8. split; [split; [reflexivity|]; exists e2; simpl; rewrite ?orb_false_r; auto|].
    exists 9. split; [split; [reflexivity|]; exists e3; simpl; rewrite ?orb_false_r; auto|].
    exists 10. split; [split; [reflexivity|]; exists e4; simpl; rewrite ?orb_false_r; auto|].
    split; reflexivity.
Qed.

Lemma strptime_fields (dd mm yyyy : string) :
  String.length dd = 2 -> String.length mm = 2 -> String.length yyyy = 4 ->
  all_digits (dd ++ mm ++ yyyy) = true ->
  py_strptime_dmy (dd ++ "/" ++ mm ++ "/" ++ yyyy) =
  let y := digits_value yyyy in let m := digits_value mm in let d := digits_value dd in
  if (Z.leb 1 y && Z.leb 1 m && Z.leb m 12 && Z.leb 1 d && Z.leb d (days_in_month y m))%bool
  then Some (mkdate y m d) else None.
Proof.
  intros Ld Lm Ly Hd. rewrite !all_digits_app in Hd.
  apply andb_true_iff in Hd as [Hdd Hd]. apply andb_true_iff in Hd as [Hmm Hyy].
  destruct dd as [|a [|b [|]]]; try discriminate. destruct mm as [|c [|d [|]]]; try discriminate.
  destruct yyyy as [|e1 [|e2 [|e3 [|e4 [|]]]]]; try discriminate.
  unfold py_strptime_dmy, py_slice. cbn [String.append substring Nat.sub].
  rewrite !py_int_digits by (discriminate || assumption). reflexivity.
Qed.

Lemma days_in_month_le (y m : Z) : (days_in_month y m <= 31)%Z.
Proof. unfold days_in_month. destruct (Z.eqb m 2); [destruct (is_leap y)|destruct (_ || _)%bool]; lia. Qed.

Lemma validate_transfer_date_parts (today : date) (dd mm yyyy : string) :
  String.length dd = 2 -> String.length mm = 2 -> String.length yyyy = 4 ->
  all_digits (dd ++ mm ++ yyyy) = true -> (digits_value dd <= 31)%Z -> (digits_value mm <= 12)%Z ->
  validate_transfer_date today (dd ++ "/" ++ mm ++ "/" ++ yyyy) =
  let dt := mkdate (digits_value yyyy) (digits_value mm) (digits_value dd) in
  if (Z.leb 1 (year dt) && Z.leb 1 (month dt) && Z.leb (month dt) 12 && Z.leb 1 (day dt) &&
      Z.leb (day dt) (days_in_month (year dt) (month dt)))%bool
  then (if date_ltb dt today then Raise past_date
        else if (Z.ltb (year dt) 2025 || Z.ltb 2050 (year dt))%bool then Raise invalid_date
        else Ok (dd ++ "/" ++ mm ++ "/" ++ yyyy))
  else Raise invalid_date.
Proof.
  intros Ld Lm Ly Hd Vd Vm.
  assert (F : check_regular date_pattern (dd ++ "/" ++ mm ++ "/" ++ yyyy) = true)
    by (apply date_format_iff; exists dd, mm, yyyy; auto 10).
  unfold validate_transfer_date, parse_transfer_date, check_transfer_date.
  rewrite F, strptime_fields by assumption. cbv zeta. simpl year; simpl month; simpl day.
  destruct (_ && _)%bool; [|reflexivity]. simpl.
  destruct (date_ltb _ today); [reflexivity|]. simpl. now destruct (_ || _)%bool.
Qed.

(** C11: [validate_transfer_date] (for the date [today] of the clock
    reading) accepts exactly the strings [DD/MM/YYYY] of ASCII digits that
    denote a date of the calendar, not before [today], with a year from
    2025 to 2050; it returns the string unchanged.  The regex's own limits
    (day at most 31, month at most 12) are implied by the calendar. *)
Theorem validate_transfer_date_iff (today : date) (s : string) :
  validate_transfer_date today s = Ok s <->
  exists dd mm yyyy, s = dd ++ "/" ++ mm ++ "/" ++ yyyy /\ String.length dd = 2 /\
    String.length mm = 2 /\ String.length yyyy = 4 /\ all_digits (dd ++ mm ++ yyyy) = true /\
    valid_date (mkdate (digits_value yyyy) (digits_value mm) (digits_value dd)) /\
    date_ltb (mkdate (digits_value yyyy) (digits_value mm) (digits_value dd)) today = false /\
    (2025 <= digits_value yyyy <= 2050)%Z.
Proof.
  split.
  - intros H. destruct (check_regular date_pattern s) eqn:F;
      [|unfold validate_transfer_date, parse_transfer_date in H; rewrite F in H; discriminate].
    apply date_format_iff in F as (dd & mm & yyyy & -> & Ld & Lm & Ly & Hd & Vd & Vm).
    rewrite validate_transfer_date_parts in H by assumption. cbv zeta in H. simpl in H.
    exists dd, mm, yyyy. repeat split; auto.
    all: destruct (_ && _)%bool eqn:C in H; [|discriminate]; bool_to_prop.
    all: destruct (date_ltb _ today) eqn:Lt in H; [discriminate|].
    all: destruct (_ || _)%bool eqn:Y in H; [discriminate|]; bool_to_prop; unfold valid_date; simpl; auto; lia.
  - intros (dd & mm & yyyy & -> & Ld & Lm & Ly & Hd & (Hm & Hdy) & Lt & Hy).
    simpl in Hm, Hdy. pose proof (days_in_month_le (digits_value yyyy) (digits_value mm)).
    rewrite validate_transfer_date_parts by (assumption || lia). cbv zeta. simpl year; simpl month; simpl day.
    replace (_ && _)%bool with true by (symmetry; repeat (apply andb_true_iff; split); apply Z.leb_le; lia).
    rewrite Lt. replace (_ || _)%bool with false by (symmetry; apply orb_false_iff; split; apply Z.ltb_ge; lia).
    reflexivity.
Qed.

