(* ===== verification/Json.v ===== *)
(** * JSON values as the sources handle them

    The stores are JSON files holding arrays of objects; records are read
    with [json.load], indexed with [t_i["key"]], compared with [==] and
    written with [json.dump].  [str(TransferRequest)] uses [json.dumps] of
    the object's [__dict__].  This file gives the JSON values, the
    subscript [t_i["key"]] with its [KeyError]/[TypeError], Python's [==]
    between a stored value and a [str] or [float] field, and [json.dumps]
    with its default settings ([ensure_ascii], separators [", "] and
    [": "], [NaN] and [Infinity] allowed). *)

From Stdlib Require Import String Ascii List ZArith Lia Bool.
From S2P Require Import Prelude PyStr PyFloat.
Import ListNotations.
Open Scope string_scope.

Inductive json : Type :=
| JNull
| JBool (b : bool)
| JInt (z : Z)
| JFloat (f : pyfloat)
| JStr (s : string)
| JArr (l : list json)
| JObj (kvs : list (string * json)).

(** ** [t_i[key]] *)

(** [json.load] builds the dict pair by pair, so when an object repeats a
    key the last binding is the value. *)
Fixpoint assoc_get (k : string) (kvs : list (string * json)) : option json :=
  match kvs with
  | [] => None
  | (k', v) :: rest =>
      match assoc_get k rest with
      | Some x => Some x
      | None => if String.eqb k k' then Some v else None
      end
  end.

Definition jget (k : string) (v : json) : res json :=
  match v with
  | JObj kvs => match assoc_get k kvs with Some x => Ok x | None => Raise (KeyError k) end
  | _ => Raise TypeError
  end.

(** ** Python [==] with a [str] or [float] operand

    The code compares a stored value with a field of the request, which
    is a [str] or a [float]; [bool] and [int] compare numerically with a
    float, values of different kinds are unequal. *)
Definition py_eq_scalar (stored field : json) : bool :=
  match stored, field with
  | JStr a, JStr b => String.eqb a b
  | JFloat a, JFloat b => pf_eqb a b
  | JInt z, JFloat b | JFloat b, JInt z =>
      match pf_cmp_int b z with Some Eq => true | _ => false end
  | JBool t, JFloat b | JFloat b, JBool t =>
      match pf_cmp_int b (if t then 1 else 0)%Z with Some Eq => true | _ => false end
  | _, _ => false
  end.

(** ** [json.dumps] *)

Definition hex_digit (n : nat) : ascii :=
  if Nat.ltb n 10 then ascii_of_nat (48 + n) else ascii_of_nat (87 + n).

(** [\u00XX] for a Latin-1 character. *)
Definition u_escape (c : ascii) : string :=
  let n := nat_of_ascii c in
  "\u00" ++ String (hex_digit (n / 16)) (String (hex_digit (n mod 16)) EmptyString).

Definition quote : ascii := "034".
Definition backslash : ascii := "092".

(** [py_encode_basestring_ascii]: the characters outside [' '..'~'] and the
    quote and backslash are escaped. *)
Definition escape_char (c : ascii) : string :=
  let n := nat_of_ascii c in
  if Nat.eqb n 34 then String backslash (String quote EmptyString)
  else if Nat.eqb n 92 then String backslash (String backslash EmptyString)
  else if Nat.eqb n 8 then "\b"
  else if Nat.eqb n 12 then "\f"
  else if Nat.eqb n 10 then "\n"
  else if Nat.eqb n 13 then "\r"
  else if Nat.eqb n 9 then "\t"
  else if (Nat.leb 32 n && Nat.leb n 126)%bool then String c EmptyString
  else u_escape c.

Definition dump_string (s : string) : string :=
  String quote (sflat_map escape_char s ++ String quote EmptyString).

(** [float.__repr__] except for the special values. *)
Definition dump_float (f : pyfloat) : string :=
  match f with
  | PNaN => "NaN"
  | PInf false => "Infinity"
  | PInf true => "-Infinity"
  | _ => float_repr f
  end.

Definition dump_int (z : Z) : string :=
  (if Z.ltb z 0 then "-" else "") ++ N_digits (Z.to_N (Z.abs z)).

Fixpoint join (sep : string) (l : list string) : string :=
  match l with
  | [] => EmptyString
  | [x] => x
  | x :: rest => x ++ sep ++ join sep rest
  end.

Fixpoint json_dumps (v : json) : string :=
  match v with
  | JNull => "null"
  | JBool true => "true"
  | JBool false => "false"
  | JInt z => dump_int z
  | JFloat f => dump_float f
  | JStr s => dump_string s
  | JArr l => "[" ++ join ", " (map json_dumps l) ++ "]"
  | JObj kvs =>
      "{" ++ join ", " (map (fun kv => dump_string (fst kv) ++ ": " ++ json_dumps (snd kv)) kvs)
      ++ "}"
  end.

(** ** [json.dumps] output is printable ASCII

    With [ensure_ascii] every character outside [' '..'~'] is escaped, so
    the text [json.dumps] produces is printable ASCII whatever the value;
    [str.encode()] is then the identity on it. *)

Lemma printable_escape_char (c : ascii) : printable (escape_char c) = true.
Proof. destruct c as [[] [] [] [] [] [] [] []]; vm_compute; reflexivity. Qed.

Lemma printable_dump_string (s : string) : printable (dump_string s) = true.
Proof.
  change (printable (String quote EmptyString ++ (sflat_map escape_char s ++ String quote EmptyString)) = true).
  printable_split. apply printable_sflat_map, printable_escape_char.
Qed.

Lemma printable_dump_float (f : pyfloat) : printable (dump_float f) = true.
Proof.
  destruct f as [neg m e|[]|]; try reflexivity. apply printable_float_repr.
Qed.

Lemma printable_dump_int (z : Z) : printable (dump_int z) = true.
Proof. unfold dump_int. printable_split; [destruct (Z.ltb z 0); reflexivity|apply printable_N_digits]. Qed.

Lemma printable_join (sep : string) (l : list string) :
  printable sep = true -> Forall (fun x => printable x = true) l -> printable (join sep l) = true.
Proof.
  intros Hs Hl. induction Hl as [|x l Hx Hl IH]; [reflexivity|].
  destruct l as [|y l]; [exact Hx|].
  change (printable (x ++ sep ++ join sep (y :: l)) = true). now rewrite !printable_app, Hx, Hs, IH.
Qed.

Lemma printable_json_dumps (v : json) : printable (json_dumps v) = true.
Proof.
  revert v. fix IH 1. intros [| [] | z | f | s | l | kvs]; cbn [json_dumps]; try reflexivity.
  - apply printable_dump_int.
  - apply printable_dump_float.
  - apply printable_dump_string.
  - printable_split. apply printable_join; [reflexivity|].
    induction l as [|x l IHl]; constructor; [apply IH|exact IHl].
  - printable_split. apply printable_join; [reflexivity|].
    induction kvs as [|[k x] kvs IHk]; constructor; [|exact IHk].
    cbn [fst snd]. now rewrite !printable_app, printable_dump_string, IH.
Qed.
