(* ===== verification/World.v ===== *)
(** * The world the handlers run in: JSON files and a clock

    Every handler of the sources reads and rewrites whole JSON files and
    reads the UTC clock.  A [world] holds the state of each path and the
    sequence of clock readings; [PyM] is the state-and-exception monad of
    a Python call: it threads the world and stops at the first exception,
    keeping the world as it was when the exception was raised.

    A path is [FMissing] (open for reading raises [FileNotFoundError],
    open for writing creates it), [FNoDir] (its directory is missing: both
    raise [FileNotFoundError]), [FCorrupt] (not JSON: [json.load] raises
    [JSONDecodeError]) or [FJson v].  Writing a value [v] with
    [json.dump] leaves [FJson v]: reading it back gives [v] (the values the
    handlers write are strings, floats and lists and dicts of them, which
    [json] round-trips). *)

From Stdlib Require Import String Ascii List ZArith Lia Bool.
From S2P Require Import Prelude PyStr PyFloat Validators Json.
Import ListNotations.
Open Scope string_scope.

Inductive file_state : Type :=
| FMissing
| FNoDir
| FCorrupt
| FJson (v : json).

(** A reading of [datetime.now(timezone.utc)]: its [timestamp()] and its
    [date()]. *)
Record instant : Type := mkinstant { inst_timestamp : pyfloat; inst_date : date }.

Record world : Type := mkworld {
  files : string -> file_state;
  clock : nat -> instant;
  ticks : nat
}.

(** ** The monad of a Python call *)

Definition PyM (A : Type) : Type := world -> res A * world.

Definition ret {A : Type} (a : A) : PyM A := fun w => (Ok a, w).

Definition bind {A B : Type} (m : PyM A) (k : A -> PyM B) : PyM B :=
  fun w => match m w with
           | (Ok a, w') => k a w'
           | (Raise e, w') => (Raise e, w')
           end.

Definition throw {A : Type} (e : exn) : PyM A := fun w => (Raise e, w).

(** A pure computation that may raise. *)
Definition lift {A : Type} (r : res A) : PyM A := fun w => (r, w).

Declare Scope pym_scope.
Delimit Scope pym_scope with pym.
Notation "x <- c ;; k" := (bind c (fun x => k))
  (at level 61, c at next level, right associativity) : pym_scope.
Notation "c ;;; k" := (bind c (fun _ => k))
  (at level 61, right associativity) : pym_scope.

(** [datetime.now(timezone.utc)] *)
Definition now : PyM instant :=
  fun w => (Ok (clock w (ticks w)), mkworld (files w) (clock w) (S (ticks w))).

Definition set_file (fs : string -> file_state) (path : string) (st : file_state)
  : string -> file_state :=
  fun p => if String.eqb p path then st else fs p.

(** [open(path, "r")] then [json.load]: the three outcomes. *)
Inductive load_result : Type :=
| Loaded (v : json)
| NotFound
| DecodeError.

Definition load_file (path : string) : PyM load_result :=
  fun w => match files w path with
           | FMissing | FNoDir => (Ok NotFound, w)
           | FCorrupt => (Ok DecodeError, w)
           | FJson v => (Ok (Loaded v), w)
           end.

(** [open(path, "w")] then [json.dump(v, file)]. *)
Definition dump_file (path : string) (v : json) : PyM unit :=
  fun w => match files w path with
           | FNoDir => (Raise FileNotFoundError, w)
           | _ => (Ok tt, mkworld (set_file (files w) path (FJson v)) (clock w) (ticks w))
           end.

(** The messages the handlers raise around the store files. *)
Definition decode_error : exn := AccountManagementException "JSON Decode Error - Wrong JSON Format".
Definition wrong_path : exn := AccountManagementException "Wrong file  or file path".

(** A world in which no store file exists yet and every clock reading is
    [today]. *)
Definition fresh_world (today : instant) : world := mkworld (fun _ => FMissing) (fun _ => today) 0.

(** ** Reasoning about effects

    [keeps_files m]: [m] leaves every file as it was.
    [atomic m]: if [m] raises, it leaves every file as it was.
    [preserves I m]: [m] takes a world satisfying [I] to one satisfying
    [I], whatever the outcome. *)

Definition keeps_files {A : Type} (m : PyM A) : Prop :=
  forall w, files (snd (m w)) = files w.

Definition atomic {A : Type} (m : PyM A) : Prop :=
  forall w, match fst (m w) with
            | Raise _ => files (snd (m w)) = files w
            | Ok _ => True
            end.

Definition preserves {A : Type} (I : world -> Prop) (m : PyM A) : Prop :=
  forall w, I w -> I (snd (m w)).

(** ** Lemmas *)

Lemma bind_ok {A B} (m : PyM A) (k : A -> PyM B) (w w' : world) (a : A) :
  m w = (Ok a, w') -> bind m k w = k a w'.
Proof. intros H. unfold bind. now rewrite H. Qed.

Lemma bind_raise {A B} (m : PyM A) (k : A -> PyM B) (w w' : world) (e : exn) :
  m w = (Raise e, w') -> bind m k w = (Raise e, w').
Proof. intros H. unfold bind. now rewrite H. Qed.

Lemma set_file_same (fs : string -> file_state) (p : string) (st : file_state) :
  set_file fs p st p = st.
Proof. unfold set_file. now rewrite String.eqb_refl. Qed.

Lemma set_file_other (fs : string -> file_state) (p q : string) (st : file_state) :
  q <> p -> set_file fs p st q = fs q.
Proof. intros H. unfold set_file. destruct (String.eqb_spec q p); congruence. Qed.

Lemma keeps_files_ret {A} (a : A) : keeps_files (ret a).
Proof. intros w. reflexivity. Qed.

Lemma keeps_files_lift {A} (r : res A) : keeps_files (lift r).
Proof. intros w. reflexivity. Qed.

Lemma keeps_files_throw {A} (e : exn) : keeps_files (@throw A e).
Proof. intros w. reflexivity. Qed.

Lemma keeps_files_now : keeps_files now.
Proof. intros w. reflexivity. Qed.

Lemma keeps_files_load (path : string) : keeps_files (load_file path).
Proof. intros w. unfold load_file. now destruct (files w path). Qed.

Lemma keeps_files_bind {A B} (m : PyM A) (k : A -> PyM B) :
  keeps_files m -> (forall a, keeps_files (k a)) -> keeps_files (bind m k).
Proof.
  intros Hm Hk w. unfold bind. specialize (Hm w).
  destruct (m w) as [[a|e] w'] eqn:E; simpl in *; [rewrite Hk|]; auto.
Qed.

Lemma atomic_of_keeps {A} (m : PyM A) : keeps_files m -> atomic m.
Proof. intros H w. destruct (fst (m w)); auto. Qed.

(** A prefix that keeps the files followed by atomic steps is atomic. *)
Lemma atomic_bind_keeps {A B} (m : PyM A) (k : A -> PyM B) :
  keeps_files m -> (forall a, atomic (k a)) -> atomic (bind m k).
Proof.
  intros Hm Hk w. unfold bind. specialize (Hm w).
  destruct (m w) as [[a|e] w'] eqn:E; simpl in *; auto.
  specialize (Hk a w'). destruct (fst (k a w')); congruence.
Qed.

(** An atomic step followed by steps that keep the files and never raise. *)
Lemma atomic_bind_last {A B} (m : PyM A) (k : A -> PyM B) :
  atomic m -> (forall a w, exists b, k a w = (Ok b, w)) -> atomic (bind m k).
Proof.
  intros Hm Hk w. unfold bind. specialize (Hm w).
  destruct (m w) as [[a|e] w'] eqn:E; simpl in *; auto.
  destruct (Hk a w') as [b ->]. exact I.
Qed.

Lemma preserves_keeps {A} (I : world -> Prop) (m : PyM A) :
  (forall w w', files w = files w' -> I w -> I w') -> keeps_files m -> preserves I m.
Proof. intros HI Hm w Hw. apply (HI w); auto. Qed.

Lemma preserves_bind {A B} (I : world -> Prop) (m : PyM A) (k : A -> PyM B) :
  preserves I m -> (forall a, preserves I (k a)) -> preserves I (bind m k).
Proof.
  intros Hm Hk w Hw. unfold bind. specialize (Hm w Hw).
  destruct (m w) as [[a|e] w'] eqn:E; simpl in *; [apply (Hk a w' Hm) | exact Hm].
Qed.

Create HintDb pyeffect discriminated.
#[export] Hint Resolve keeps_files_ret keeps_files_lift keeps_files_throw keeps_files_now
  keeps_files_load keeps_files_bind : pyeffect.
#[export] Hint Opaque keeps_files : pyeffect.
