(* ===== verification/TransferRequest.v ===== *)
(** * The [TransferRequest] entity and its store

    [transfer_request.py]: the constructor ([__init__], lines 11-37)
    reads the clock for the time stamp, runs the validators in the order
    IBAN of origin, IBAN of destination, concept, type, date, amount, and
    calls [store_transfer_request] (lines 150-169), which loads the store
    file (absent file: empty list; undecodable file: exception), runs
    [is_duplicate_transfer] (lines 173-181) on every stored record, appends
    [to_json()] (lines 187-198) and rewrites the file.  [transfer_code]
    (lines 254-257) is the MD5 digest of [str(self)] (lines 184-185),
    [json.dumps] of the object's [__dict__].

    MD5 is not modelled: the digest is an interface, the class [Digest],
    and every theorem holds for any instance of it. *)

From Stdlib Require Import String Ascii List ZArith Lia Bool Relations.
From S2P Require Import Prelude PyStr PyRegex Iban PyFloat Validators Json World.
Import ListNotations.
Open Scope string_scope.

(** [hashlib.md5(s.encode()).hexdigest()]; [str(self)] is ASCII
    ([json.dumps] escapes every other character), so [encode()] is the
    identity on it. *)
Class Digest : Type := { md5_hexdigest : string -> string }.

(** The attributes of an instance, in the order [__init__] assigns them. *)
Record transfer_request : Type := mkrequest {
  transfer_store_file : string;
  from_iban : string;
  to_iban : string;
  transfer_type : string;
  concept : string;
  transfer_date : string;
  transfer_amount : pyfloat;
  time_stamp : pyfloat
}.

Definition duplicated : exn := AccountManagementException "Duplicated transfer in transfer list".

(** An instance of the interface for concrete runs: the theorems hold for
    every instance, the runs below only need one. *)
Definition identity_digest : Digest := {| md5_hexdigest := fun s => s |}.

(** The clock of the concrete runs below, on 3 March 2025. *)
Definition example_today : instant := mkinstant (PFin false 1741 6) (mkdate 2025 3 3).

Section TransferRequest.
Context {D : Digest}.

(** [self.__dict__], with Python's mangled names of private attributes. *)
Definition request_dict (r : transfer_request) : json :=
  JObj [("_TransferRequest__transfer_store_file", JStr (transfer_store_file r));
        ("_TransferRequest__from_iban", JStr (from_iban r));
        ("_TransferRequest__to_iban", JStr (to_iban r));
        ("_TransferRequest__transfer_type", JStr (transfer_type r));
        ("_TransferRequest__concept", JStr (concept r));
        ("_TransferRequest__transfer_date", JStr (transfer_date r));
        ("_TransferRequest__transfer_amount", JFloat (transfer_amount r));
        ("_TransferRequest__time_stamp", JFloat (time_stamp r))].

(** [__str__] *)
Definition request_str (r : transfer_request) : string :=
  "Transfer:" ++ json_dumps (request_dict r).

(** [transfer_code] *)
Definition transfer_code (r : transfer_request) : string := md5_hexdigest (request_str r).

(** [to_json] *)
Definition to_json (r : transfer_request) : json :=
  JObj [("from_iban", JStr (from_iban r));
        ("to_iban", JStr (to_iban r));
        ("transfer_type", JStr (transfer_type r));
        ("transfer_amount", JFloat (transfer_amount r));
        ("transfer_concept", JStr (concept r));
        ("transfer_date", JStr (transfer_date r));
        ("time_stamp", JFloat (time_stamp r));
        ("transfer_code", JStr (transfer_code r))].

(** The property setters (lines 204-247): each assigns one private
    attribute and nothing else; no validator runs and the store is not
    touched.  The getters (lines 199-252) are the record's projections. *)
Definition set_from_iban (r : transfer_request) (value : string) : transfer_request :=
  {| transfer_store_file := transfer_store_file r; from_iban := value; to_iban := to_iban r;
     transfer_type := transfer_type r; concept := concept r; transfer_date := transfer_date r;
     transfer_amount := transfer_amount r; time_stamp := time_stamp r |}.

Definition set_to_iban (r : transfer_request) (value : string) : transfer_request :=
  {| transfer_store_file := transfer_store_file r; from_iban := from_iban r; to_iban := value;
     transfer_type := transfer_type r; concept := concept r; transfer_date := transfer_date r;
     transfer_amount := transfer_amount r; time_stamp := time_stamp r |}.

Definition set_transfer_type (r : transfer_request) (value : string) : transfer_request :=
  {| transfer_store_file := transfer_store_file r; from_iban := from_iban r; to_iban := to_iban r;
     transfer_type := value; concept := concept r; transfer_date := transfer_date r;
     transfer_amount := transfer_amount r; time_stamp := time_stamp r |}.

Definition set_transfer_amount (r : transfer_request) (value : pyfloat) : transfer_request :=
  {| transfer_store_file := transfer_store_file r; from_iban := from_iban r; to_iban := to_iban r;
     transfer_type := transfer_type r; concept := concept r; transfer_date := transfer_date r;
     transfer_amount := value; time_stamp := time_stamp r |}.

Definition set_transfer_concept (r : transfer_request) (value : string) : transfer_request :=
  {| transfer_store_file := transfer_store_file r; from_iban := from_iban r; to_iban := to_iban r;
     transfer_type := transfer_type r; concept := value; transfer_date := transfer_date r;
     transfer_amount := transfer_amount r; time_stamp := time_stamp r |}.

Definition set_transfer_date (r : transfer_request) (value : string) : transfer_request :=
  {| transfer_store_file := transfer_store_file r; from_iban := from_iban r; to_iban := to_iban r;
     transfer_type := transfer_type r; concept := concept r; transfer_date := value;
     transfer_amount := transfer_amount r; time_stamp := time_stamp r |}.

(** The property getters (lines 199-252): each returns one private
    attribute ([transfer_concept] returns [__concept]). *)
Definition get_from_iban (r : transfer_request) : string := from_iban r.
Definition get_to_iban (r : transfer_request) : string := to_iban r.
Definition get_transfer_type (r : transfer_request) : string := transfer_type r.
Definition get_transfer_amount (r : transfer_request) : pyfloat := transfer_amount r.
Definition get_transfer_concept (r : transfer_request) : string := concept r.
Definition get_transfer_date (r : transfer_request) : string := transfer_date r.
Definition get_time_stamp (r : transfer_request) : pyfloat := time_stamp r.

(** [is_duplicate_transfer(t_i)]: the six comparisons joined by [and],
    evaluated left to right, each subscript evaluated only when the
    previous comparison held. *)
Definition is_duplicate_transfer (r : transfer_request) (t_i : json) : res unit :=
  (v1 <- jget "from_iban" t_i ;;
   if negb (py_eq_scalar v1 (JStr (from_iban r))) then Ok tt else
   v2 <- jget "to_iban" t_i ;;
   if negb (py_eq_scalar v2 (JStr (to_iban r))) then Ok tt else
   v3 <- jget "transfer_date" t_i ;;
   if negb (py_eq_scalar v3 (JStr (transfer_date r))) then Ok tt else
   v4 <- jget "transfer_amount" t_i ;;
   if negb (py_eq_scalar v4 (JFloat (transfer_amount r))) then Ok tt else
   v5 <- jget "transfer_concept" t_i ;;
   if negb (py_eq_scalar v5 (JStr (concept r))) then Ok tt else
   v6 <- jget "transfer_type" t_i ;;
   if negb (py_eq_scalar v6 (JStr (transfer_type r))) then Ok tt else
   Raise duplicated)%py.

(** [for t_i in t_l: self.is_duplicate_transfer(t_i)] *)
Fixpoint check_duplicates (r : transfer_request) (l : list json) : res unit :=
  match l with
  | [] => Ok tt
  | t_i :: rest => (is_duplicate_transfer r t_i ;;; check_duplicates r rest)%py
  end.

(** The [try]/[except FileNotFoundError] around [open(..., "w")]. *)
Definition rewrite_store (path : string) (v : json) : PyM unit :=
  fun w => match dump_file path v w with
           | (Raise FileNotFoundError, w') => (Raise wrong_path, w')
           | out => out
           end.

(** [store_transfer_request].  A top-level value that is not a list
    fails in the loop ([TypeError] when iterating or subscripting) or at
    [append] ([AttributeError] for an empty dict or string). *)
Definition store_transfer_request (r : transfer_request) : PyM unit :=
  (lr <- load_file (transfer_store_file r) ;;
   t_l <- lift (match lr with
                | NotFound => Ok (JArr [])
                | DecodeError => Raise decode_error
                | Loaded v => Ok v
                end) ;;
   match t_l with
   | JArr l =>
       lift (check_duplicates r l) ;;;
       rewrite_store (transfer_store_file r) (JArr (l ++ [to_json r]))
   | JObj [] | JStr EmptyString => throw (AttributeError "append")
   | _ => throw TypeError
   end)%pym.

(** [validate_transfer_date] inside the constructor: the clock is read
    after the format check (line 117). *)
Definition validate_transfer_date_m (s : string) : PyM string :=
  (my_date <- lift (parse_transfer_date s) ;;
   today <- now ;;
   lift (check_transfer_date (inst_date today) my_date) ;;;
   ret s)%pym.

(** [TransferRequest(from_iban, transfer_type, to_iban, transfer_concept,
    transfer_date, transfer_amount, transfer_store_file)] *)
Definition TransferRequest_init (from_iban transfer_type to_iban transfer_concept
                                 transfer_date : string) (transfer_amount : pyfloat)
                                (transfer_store_file : string) : PyM transfer_request :=
  (justnow <- now ;;
   let self := mkrequest transfer_store_file from_iban to_iban transfer_type
                         transfer_concept transfer_date transfer_amount
                         (inst_timestamp justnow) in
   lift (validate_iban from_iban) ;;;
   lift (validate_iban to_iban) ;;;
   lift (validate_concept transfer_concept) ;;;
   lift (validate_transfer_type transfer_type) ;;;
   validate_transfer_date_m transfer_date ;;;
   lift (validate_amount transfer_amount) ;;;
   store_transfer_request self ;;;
   ret self)%pym.

(** ** The store invariant

    [same_fields old new]: the six comparisons of [is_duplicate_transfer]
    hold between a stored request and a new one.  [distinct_store rs]: the
    requests were appended one by one, none of them a duplicate of an
    earlier one.  [store_ok P w]: the file [P] is absent, or holds the
    records of such a list. *)

Definition same_fields (old new : transfer_request) : bool :=
  (String.eqb (from_iban old) (from_iban new) && String.eqb (to_iban old) (to_iban new) &&
   String.eqb (transfer_date old) (transfer_date new) &&
   pf_eqb (transfer_amount old) (transfer_amount new) &&
   String.eqb (concept old) (concept new) && String.eqb (transfer_type old) (transfer_type new))%bool.

Inductive distinct_store : list transfer_request -> Prop :=
| ds_nil : distinct_store []
| ds_snoc rs r : distinct_store rs -> existsb (fun old => same_fields old r) rs = false ->
                 distinct_store (rs ++ [r]).

Definition store_ok (P : string) (w : world) : Prop :=
  files w P = FMissing \/
  exists rs, files w P = FJson (JArr (map to_json rs)) /\ distinct_store rs.

(** One constructor call, with any arguments. *)
Definition request_step (w w' : world) : Prop :=
  exists f t to c d a p, snd (TransferRequest_init f t to c d a p w) = w'.

(** The six fields the duplicate check compares. *)
Definition compared_fields (r : transfer_request) :=
  (from_iban r, to_iban r, transfer_date r, transfer_amount r, concept r, transfer_type r).

(** The type of a stored record: what the validators established when
    it was stored.  Both IBANs pass [validate_iban], the concept, the type
    and the amount their validators, and the date is a calendar date
    [DD/MM/YYYY] of the years 2025 to 2050 (whether it is past depends on
    the day it is read). *)
Definition record_valid (r : transfer_request) : Prop :=
  (exists x, validate_iban (from_iban r) = Ok x) /\ (exists y, validate_iban (to_iban r) = Ok y) /\
  validate_concept (concept r) = Ok tt /\ validate_transfer_type (transfer_type r) = Ok tt /\
  (exists md, parse_transfer_date (transfer_date r) = Ok md /\ (2025 <= year md <= 2050)%Z) /\
  validate_amount (transfer_amount r) = Ok tt.

(** The store [P] is absent or holds the records of valid requests. *)
Definition store_typed (P : string) (w : world) : Prop :=
  files w P = FMissing \/
  exists rs, files w P = FJson (JArr (map to_json rs)) /\ Forall record_valid rs.

(** ** Lemmas *)

Lemma is_duplicate_to_json (r old : transfer_request) :
  is_duplicate_transfer r (to_json old) = if same_fields old r then Raise duplicated else Ok tt.
Proof.
  unfold is_duplicate_transfer, to_json, same_fields. simpl.
  destruct (String.eqb (from_iban old) (from_iban r)), (String.eqb (to_iban old) (to_iban r)),
    (String.eqb (transfer_date old) (transfer_date r)),
    (pf_eqb (transfer_amount old) (transfer_amount r)),
    (String.eqb (concept old) (concept r)), (String.eqb (transfer_type old) (transfer_type r));
    reflexivity.
Qed.

Lemma check_duplicates_map (r : transfer_request) (rs : list transfer_request) :
  check_duplicates r (map to_json rs) =
  if existsb (fun old => same_fields old r) rs then Raise duplicated else Ok tt.
Proof.
  induction rs as [|old rs IH]; simpl; auto.
  rewrite is_duplicate_to_json. destruct (same_fields old r); simpl; auto.
Qed.

Lemma check_duplicates_app (r : transfer_request) (l1 l2 : list json) :
  check_duplicates r (l1 ++ l2) = (check_duplicates r l1 ;;; check_duplicates r l2)%py.
Proof.
  induction l1 as [|t l1 IH]; simpl; auto.
  rewrite IH. destruct (is_duplicate_transfer r t); simpl; auto.
Qed.

(** The scan reads the six fields only, not the time stamp. *)
Lemma check_duplicates_stamp p f to t c d a ts ts' (l : list json) :
  check_duplicates (mkrequest p f to t c d a ts) l = check_duplicates (mkrequest p f to t c d a ts') l.
Proof. induction l as [|x l IH]; simpl; [reflexivity | now rewrite IH]. Qed.

(** The two outcomes of [store_transfer_request]: it raises and leaves the
    world as it was, or the file held a list [l] (an absent file counts as
    the empty list), no element of [l] is a duplicate, and the file now holds
    [l] followed by the request. *)
Lemma store_outcome (r : transfer_request) (w : world) :
  (exists e, store_transfer_request r w = (Raise e, w)) \/
  exists l, ((files w (transfer_store_file r) = FMissing /\ l = []) \/
             files w (transfer_store_file r) = FJson (JArr l)) /\
            check_duplicates r l = Ok tt /\
            store_transfer_request r w =
              (Ok tt, mkworld (set_file (files w) (transfer_store_file r) (FJson (JArr (l ++ [to_json r]))))
                              (clock w) (ticks w)).
Proof.
  unfold store_transfer_request, bind, load_file, lift, throw, rewrite_store, dump_file.
  destruct (files w (transfer_store_file r)) as [| | |v] eqn:F; simpl; try rewrite F.
  - right. exists []. auto.
  - left. eauto.
  - left. eauto.
  - destruct v as [| | | | s | l | kvs];
      try (destruct s); try (destruct kvs); try (left; eexists; reflexivity).
    destruct (check_duplicates r l) as [[]|e] eqn:C; simpl; [rewrite F; right | left]; eauto.
Qed.

Lemma store_atomic (r : transfer_request) : atomic (store_transfer_request r).
Proof.
  intros w. destruct (store_outcome r w) as [[e ->] | (l & _ & _ & ->)]; reflexivity.
Qed.

Lemma store_ok_files (P : string) (w w' : world) :
  files w = files w' -> store_ok P w -> store_ok P w'.
Proof. unfold store_ok. intros <-. auto. Qed.

Lemma store_preserves (P : string) (r : transfer_request) :
  preserves (store_ok P) (store_transfer_request r).
Proof.
  intros w Hw. destruct (store_outcome r w) as [[e ->] | (l & Hl & C & ->)]; [exact Hw|].
  unfold store_ok; simpl. destruct (String.eqb_spec P (transfer_store_file r)) as [HP|Hne]; [subst P|].
  - rewrite set_file_same. right.
    destruct Hw as [HM | (rs & HJ & Hd)].
    + destruct Hl as [[_ ->] | HJ]; [|congruence].
      exists [r]. split; [reflexivity|]. exact (ds_snoc [] r ds_nil eq_refl).
    + destruct Hl as [[HM _] | HJ']; [congruence|].
      rewrite HJ in HJ'. injection HJ' as <-. rewrite check_duplicates_map in C.
      exists (rs ++ [r])%list. rewrite map_app. split; [reflexivity|].
      apply ds_snoc; [exact Hd|]. destruct existsb; [discriminate|reflexivity].
  - rewrite set_file_other by exact Hne. exact Hw.
Qed.

Lemma validate_transfer_date_m_keeps (s : string) : keeps_files (validate_transfer_date_m s).
Proof. unfold validate_transfer_date_m. auto 10 with pyeffect. Qed.

(** The constructor as a function of the world: the pure validations up to
    the date format, the second clock reading, the date and amount checks,
    and the store. *)
Lemma TransferRequest_init_eq f t to c d a p w :
  TransferRequest_init f t to c d a p w =
  let self := mkrequest p f to t c d a (inst_timestamp (clock w (ticks w))) in
  match (validate_iban f ;;; validate_iban to ;;; validate_concept c ;;;
         validate_transfer_type t ;;; parse_transfer_date d)%py with
  | Raise e => (Raise e, mkworld (files w) (clock w) (S (ticks w)))
  | Ok md =>
      let w2 := mkworld (files w) (clock w) (S (S (ticks w))) in
      match (check_transfer_date (inst_date (clock w (S (ticks w)))) md ;;; validate_amount a)%py with
      | Raise e => (Raise e, w2)
      | Ok _ => match store_transfer_request self w2 with
                | (Ok _, w3) => (Ok self, w3)
                | (Raise e, w3) => (Raise e, w3)
                end
      end
  end.
Proof.
  unfold TransferRequest_init, validate_transfer_date_m, bind, lift, now, ret. simpl.
  destruct (validate_iban f); simpl; [|reflexivity].
  destruct (validate_iban to); simpl; [|reflexivity].
  destruct (validate_concept c); simpl; [|reflexivity].
  destruct (validate_transfer_type t); simpl; [|reflexivity].
  destruct (parse_transfer_date d); simpl; [|reflexivity].
  destruct (check_transfer_date _ _); simpl; [|reflexivity].
  destruct (validate_amount a); simpl; [|reflexivity].
  destruct (store_transfer_request _ _) as [[]]; reflexivity.
Qed.

Lemma TransferRequest_init_is_atomic f t to c d a p : atomic (TransferRequest_init f t to c d a p).
Proof.
  unfold TransferRequest_init.
  repeat (apply atomic_bind_keeps; [solve [auto using validate_transfer_date_m_keeps with pyeffect] | intros]).
  apply atomic_bind_last; [apply store_atomic | intros; eexists; reflexivity].
Qed.

Lemma TransferRequest_init_preserves P f t to c d a p :
  preserves (store_ok P) (TransferRequest_init f t to c d a p).
Proof.
  unfold TransferRequest_init.
  repeat (apply preserves_bind; [first [apply store_preserves | apply preserves_keeps;
          [apply store_ok_files | solve [auto using validate_transfer_date_m_keeps with pyeffect]]] | intros]).
  apply preserves_keeps; [apply store_ok_files | auto with pyeffect].
Qed.

Lemma check_transfer_date_later (t1 t2 md : date) (u : unit) :
  check_transfer_date t1 md = Ok u ->
  check_transfer_date t2 md = Ok tt \/ check_transfer_date t2 md = Raise past_date.
Proof.
  unfold check_transfer_date, raise_if.
  destruct (date_ltb md t1), (date_ltb md t2), (_ || _)%bool; simpl; auto; discriminate.
Qed.

Lemma store_duplicate (r : transfer_request) (w : world) (l : list json) (e : exn) :
  files w (transfer_store_file r) = FJson (JArr l) -> check_duplicates r l = Raise e ->
  store_transfer_request r w = (Raise e, w).
Proof.
  intros F C. unfold store_transfer_request, bind, load_file, lift.
  rewrite F. simpl. now rewrite C.
Qed.

Lemma same_fields_stamp p f to t c d a ts ts' :
  same_fields (mkrequest p f to t c d a ts) (mkrequest p f to t c d a ts') = pf_eqb a a.
Proof. unfold same_fields. simpl. rewrite !String.eqb_refl. simpl. now destruct (pf_eqb a a). Qed.

(** What a successful constructor call did: the request holds the
    arguments, the store [p] held a list [l] (or was absent) with no
    duplicate of it, and now holds [l] followed by the request; no other
    file changed. *)
Lemma TransferRequest_init_ok f t to c d a p w r w' :
  TransferRequest_init f t to c d a p w = (Ok r, w') ->
  r = mkrequest p f to t c d a (time_stamp r) /\
  exists l, ((files w p = FMissing /\ l = []) \/ files w p = FJson (JArr l)) /\
            check_duplicates r l = Ok tt /\
            files w' = set_file (files w) p (FJson (JArr (l ++ [to_json r]))).
Proof.
  rewrite TransferRequest_init_eq. cbv zeta.
  destruct (validate_iban f ;;; _)%py as [md|e]; [|discriminate].
  destruct (check_transfer_date _ md ;;; validate_amount a)%py; [|discriminate].
  destruct (store_outcome (mkrequest p f to t c d a (inst_timestamp (clock w (ticks w))))
              (mkworld (files w) (clock w) (S (S (ticks w)))))
    as [[e Hs] | (l & Hl & C & Hs)]; rewrite Hs; [discriminate|].
  intros H. injection H as <- <-. split; [reflexivity|]. exists l. auto.
Qed.

(** A store that is absent or holds a list without a duplicate of [r]
    takes the request. *)
Lemma store_accepts (r : transfer_request) (w : world) (l : list json) :
  (files w (transfer_store_file r) = FMissing /\ l = []) \/
  files w (transfer_store_file r) = FJson (JArr l) ->
  check_duplicates r l = Ok tt ->
  store_transfer_request r w =
    (Ok tt, mkworld (set_file (files w) (transfer_store_file r) (FJson (JArr (l ++ [to_json r]))))
                    (clock w) (ticks w)).
Proof.
  intros Hl C. unfold store_transfer_request, bind, load_file, lift, rewrite_store, dump_file.
  destruct Hl as [[Hf ->] | Hf]; rewrite Hf; cbn; rewrite ?Hf; [reflexivity|]. now rewrite C.
Qed.

(** The date check on a clock reading splits into the parse and the
    comparison. *)
Lemma validate_transfer_date_split (today : date) (d d' : string) :
  validate_transfer_date today d = Ok d' ->
  exists md, parse_transfer_date d = Ok md /\ check_transfer_date today md = Ok tt.
Proof.
  unfold validate_transfer_date. destruct (parse_transfer_date d) as [md|]; [|discriminate].
  cbn [res_bind]. destruct (check_transfer_date today md) as [[]|] eqn:E; [|discriminate]. eauto.
Qed.

Lemma check_transfer_date_year (today md : date) :
  check_transfer_date today md = Ok tt -> (2025 <= year md <= 2050)%Z.
Proof.
  unfold check_transfer_date, raise_if. destruct (date_ltb md today); [discriminate|].
  cbn [res_bind]. destruct (Z.ltb (year md) 2025) eqn:E1, (Z.ltb 2050 (year md)) eqn:E2;
    try discriminate. intros _. apply Z.ltb_ge in E1. apply Z.ltb_ge in E2. lia.
Qed.

(** A request the constructor returns passed every validator. *)
Lemma TransferRequest_init_valid f t to c d a p w r w' :
  TransferRequest_init f t to c d a p w = (Ok r, w') -> record_valid r.
Proof.
  rewrite TransferRequest_init_eq. cbv zeta.
  destruct (validate_iban f) as [x|] eqn:E1; [|discriminate].
  destruct (validate_iban to) as [y|] eqn:E2; [|discriminate].
  destruct (validate_concept c) as [[]|] eqn:E3; [|discriminate].
  destruct (validate_transfer_type t) as [[]|] eqn:E4; [|discriminate].
  destruct (parse_transfer_date d) as [md|] eqn:E5; [|discriminate]. cbn [res_bind].
  destruct (check_transfer_date _ md) as [[]|] eqn:E6; [|discriminate]. cbn [res_bind].
  destruct (validate_amount a) as [[]|] eqn:E7; [|discriminate].
  destruct (store_transfer_request _ _) as [[]]; [|discriminate].
  intros H. injection H as <- _.
  repeat split; eauto using check_transfer_date_year.
Qed.

Lemma store_typed_files (P : string) (w w' : world) :
  files w = files w' -> store_typed P w -> store_typed P w'.
Proof. unfold store_typed. intros <-. auto. Qed.

Lemma TransferRequest_init_typed P f t to c d a p :
  preserves (store_typed P) (TransferRequest_init f t to c d a p).
Proof.
  intros w Hw. pose proof (TransferRequest_init_is_atomic f t to c d a p w) as Hat.
  destruct (TransferRequest_init f t to c d a p w) as [[r|e] w'] eqn:E; cbn [fst snd] in *;
    [|exact (store_typed_files P w w' (eq_sym Hat) Hw)].
  pose proof (TransferRequest_init_valid _ _ _ _ _ _ _ _ _ _ E) as Hv.
  apply TransferRequest_init_ok in E as (_ & l & Hl & _ & Hf).
  unfold store_typed. rewrite Hf. destruct (String.eqb_spec P p) as [->|Hne].
  - rewrite set_file_same. right.
    destruct Hw as [HM | (rs & HJ & Hd)].
    + destruct Hl as [[_ ->] | HJ]; [|congruence]. exists [r]. auto.
    + destruct Hl as [[HM _] | HJ']; [congruence|]. rewrite HJ in HJ'. injection HJ' as <-.
      exists (rs ++ [r])%list. rewrite map_app. split; [reflexivity|].
      apply Forall_app. auto.
  - rewrite set_file_other by exact Hne. exact Hw.
Qed.

(** A property of the world that every constructor call preserves holds
    in every world reached by constructor calls. *)
Lemma request_steps_preserve (I : world -> Prop) (w w' : world) :
  (forall f t to c d a p, preserves I (TransferRequest_init f t to c d a p)) ->
  clos_refl_trans_1n world request_step w w' -> I w -> I w'.
Proof.
  intros HI. induction 1 as [|w1 w2 w3 [f [t [to [c [d [a [p <-]]]]]]] _ IH]; auto.
  intros H. apply IH, HI, H.
Qed.

(** A request every validator accepts, on a store that is absent or a
    list without a duplicate of it, is returned and appended. *)
Lemma TransferRequest_init_runs f t to c d a p w (l : list json) :
  (exists x, validate_iban f = Ok x) -> (exists y, validate_iban to = Ok y) ->
  validate_concept c = Ok tt -> validate_transfer_type t = Ok tt ->
  validate_transfer_date (inst_date (clock w (S (ticks w)))) d = Ok d ->
  validate_amount a = Ok tt ->
  (files w p = FMissing /\ l = []) \/ files w p = FJson (JArr l) ->
  check_duplicates (mkrequest p f to t c d a (inst_timestamp (clock w (ticks w)))) l = Ok tt ->
  TransferRequest_init f t to c d a p w =
    (Ok (mkrequest p f to t c d a (inst_timestamp (clock w (ticks w)))),
     mkworld (set_file (files w) p
                (FJson (JArr (l ++ [to_json (mkrequest p f to t c d a (inst_timestamp (clock w (ticks w))))]))))
             (clock w) (S (S (ticks w)))).
Proof.
  intros [x H1] [y H2] H3 H4 H5 H6 Hs Hd.
  destruct (validate_transfer_date_split _ _ _ H5) as (md & Hp & Hc).
  rewrite TransferRequest_init_eq. cbv zeta. rewrite H1, H2, H3, H4. cbn [res_bind]. rewrite Hp, Hc, H6.
  cbn [res_bind]. rewrite (store_accepts _ _ l); [reflexivity| |exact Hd].
  cbn [transfer_store_file files]. exact Hs.
Qed.

(** ** Properties of the constructor *)

(** C6: a constructor call that raises leaves every store file as it was:
    the validations read no file, and [store_transfer_request] writes only
    after the duplicate scan has passed, and not at all when the path has
    no directory. *)
Theorem TransferRequest_init_atomic f t to c d a p w e :
  fst (TransferRequest_init f t to c d a p w) = Raise e ->
  files (snd (TransferRequest_init f t to c d a p w)) = files w.
Proof.
  intros H. pose proof (TransferRequest_init_is_atomic f t to c d a p w) as A.
  rewrite H in A. exact A.
Qed.

(** C3: the store invariant.  In every world reached from one whose
    store file [P] is absent or holds a list of pairwise distinct requests
    (distinct in the six fields the duplicate check compares, appended one
    by one), by any sequence of constructor calls with any arguments, the
    file is still absent or holds such a list. *)
Theorem store_invariant (P : string) (w w' : world) :
  clos_refl_trans_1n world request_step w w' -> store_ok P w -> store_ok P w'.
Proof. apply request_steps_preserve, TransferRequest_init_preserves. Qed.

(** C9: the type of the stored records: in every world reached by any
    sequence of constructor calls from one whose store is absent or holds
    valid records, every record of the store is the [to_json] of a request
    that passed the validators: valid IBANs, concept, type and amount, a
    calendar date of the years 2025 to 2050. *)
Theorem store_records_valid (P : string) (w w' : world) :
  clos_refl_trans_1n world request_step w w' -> store_typed P w -> store_typed P w'.
Proof. apply request_steps_preserve, TransferRequest_init_typed. Qed.

(** C4: a request accepted once is refused when it is made again: the
    second identical constructor call raises the duplicate exception, or
    the past-date exception if the clock has passed the date, provided the
    amount is not NaN ([pf_eqb a a]). *)
Theorem resubmission_rejected f t to c d a p w r w1 :
  TransferRequest_init f t to c d a p w = (Ok r, w1) -> pf_eqb a a = true ->
  fst (TransferRequest_init f t to c d a p w1) = Raise duplicated \/
  fst (TransferRequest_init f t to c d a p w1) = Raise past_date.
Proof.
  intros H Ha. rewrite TransferRequest_init_eq in H |- *. cbv zeta in *.
  destruct (validate_iban f ;;; _)%py as [md|e] eqn:E1; [|discriminate H].
  destruct (check_transfer_date _ md ;;; validate_amount a)%py as [u|e] eqn:E2; [|discriminate H].
  apply res_bind_eq_ok in E2 as ([] & Ec & Ea).
  destruct (store_outcome (mkrequest p f to t c d a (inst_timestamp (clock w (ticks w))))
              (mkworld (files w) (clock w) (S (S (ticks w)))))
    as [[e Hs] | (l & Hl & C & Hs)]; rewrite Hs in H; [discriminate H|].
  injection H as <- <-. simpl.
  destruct (check_transfer_date_later _ (inst_date (clock w (S (S (S (ticks w)))))) _ _ Ec) as [Ec2|Ec2];
    rewrite Ec2; simpl; [left|right; reflexivity].
  rewrite Ea. simpl. erewrite store_duplicate; [reflexivity | apply set_file_same|].
  rewrite check_duplicates_app, check_duplicates_stamp with (ts' := inst_timestamp (clock w (ticks w))), C.
  simpl. rewrite is_duplicate_to_json, same_fields_stamp, Ha. reflexivity.
Qed.

(** C8: progress of the constructor: a request that every validator
    accepts (the date against the clock reading of line 117) and that
    duplicates no stored request is accepted, whatever the store held
    before (absent, or a list of earlier requests): the call returns the
    request, with the time stamp of its first clock reading, and appends
    it to the store.  The no-duplicate invariant is not kept by refusing
    requests. *)
Theorem TransferRequest_init_accepts f t to c d a p w rs iban1 iban2 :
  validate_iban f = Ok iban1 -> validate_iban to = Ok iban2 -> validate_concept c = Ok tt ->
  validate_transfer_type t = Ok tt ->
  validate_transfer_date (inst_date (clock w (S (ticks w)))) d = Ok d ->
  validate_amount a = Ok tt ->
  (files w p = FMissing /\ rs = []) \/ files w p = FJson (JArr (map to_json rs)) ->
  existsb (fun old => same_fields old (mkrequest p f to t c d a (inst_timestamp (clock w (ticks w))))) rs
    = false ->
  TransferRequest_init f t to c d a p w =
    (Ok (mkrequest p f to t c d a (inst_timestamp (clock w (ticks w)))),
     mkworld (set_file (files w) p
                (FJson (JArr (map to_json rs ++
                              [to_json (mkrequest p f to t c d a (inst_timestamp (clock w (ticks w))))]))))
             (clock w) (S (S (ticks w)))).
Proof.
  intros H1 H2 H3 H4 H5 H6 Hs Hd.
  apply TransferRequest_init_runs; eauto.
  - destruct Hs as [[-> ->] | ->]; auto.
  - now rewrite check_duplicates_map, Hd.
Qed.

(** C21: the duplicate check compares amounts with [==], under which NaN
    differs from itself.  After a constructor call with a NaN amount has
    succeeded, the same call made again (with its date still not past at
    the clock reading of line 117) succeeds too and appends a second
    record: the store then ends with two records equal in the six compared
    fields, against the no-duplicate rule of the spec. *)
Theorem nan_request_stored_twice f t to c d p w r w1 :
  TransferRequest_init f t to c d PNaN p w = (Ok r, w1) ->
  validate_transfer_date (inst_date (clock w1 (S (ticks w1)))) d = Ok d ->
  exists l, files w1 p = FJson (JArr (l ++ [to_json r])) /\
    TransferRequest_init f t to c d PNaN p w1 =
      (Ok (mkrequest p f to t c d PNaN (inst_timestamp (clock w1 (ticks w1)))),
       mkworld (set_file (files w1) p
                  (FJson (JArr (l ++ [to_json r;
                                      to_json (mkrequest p f to t c d PNaN
                                                 (inst_timestamp (clock w1 (ticks w1))))]))))
               (clock w1) (S (S (ticks w1)))).
Proof.
  intros H Hd. pose proof (TransferRequest_init_valid _ _ _ _ _ _ _ _ _ _ H) as Hv.
  apply TransferRequest_init_ok in H as (Er & l & _ & C & Hf).
  assert (Hs : files w1 p = FJson (JArr (l ++ [to_json r]))) by (rewrite Hf; apply set_file_same).
  rewrite Er in Hv, C. destruct Hv as (Hi1 & Hi2 & Hc & Ht & _ & Ha).
  exists l. split; [exact Hs|]. rewrite (TransferRequest_init_runs _ _ _ _ _ _ _ _ (l ++ [to_json r])); auto.
  - now rewrite <- app_assoc.
  - rewrite check_duplicates_app, check_duplicates_stamp with (ts' := time_stamp r), C. cbn [check_duplicates].
    rewrite Er, is_duplicate_to_json, same_fields_stamp. reflexivity.
Qed.

End TransferRequest.

(** ** Concrete runs *)

(** C25: [__str__] (line 184) dumps the whole [__dict__], the time stamp
    included, and [transfer_code] hashes that text: two requests that agree
    in every other attribute (in particular in the six fields the duplicate
    check compares) have the same [str(self)] exactly when their time stamps
    print the same, so requests made at two clock readings get different
    digest inputs. *)
Theorem request_str_time_stamp p f to t c d a ts1 ts2 :
  request_str (mkrequest p f to t c d a ts1) = request_str (mkrequest p f to t c d a ts2) <->
  dump_float ts1 = dump_float ts2.
Proof.
  unfold request_str, request_dict.
  cbn [json_dumps map fst snd join transfer_store_file from_iban to_iban transfer_type concept
       transfer_date transfer_amount time_stamp].
  split; [|intros ->; reflexivity].
  intros H. rewrite <- !string_app_assoc in H.
  repeat apply string_app_inj_l in H.
  exact (string_app_inj_r _ _ _ H).
Qed.

Lemma TransferRequest_init_atomic_witness :
  fst (TransferRequest_init (D := identity_digest) "ES9121000418450200051333" "ORDINARY"
         "ES7921000813610123456789" "Payment for services" "15/06/2025" (PFin false 1005 (-1))
         "transfers.json" (fresh_world example_today)) = Raise invalid_control /\
  files (snd (TransferRequest_init (D := identity_digest) "ES9121000418450200051333" "ORDINARY"
         "ES7921000813610123456789" "Payment for services" "15/06/2025" (PFin false 1005 (-1))
         "transfers.json" (fresh_world example_today))) = files (fresh_world example_today).
Proof.
  split; [vm_compute; reflexivity|].
  apply (TransferRequest_init_atomic (D := identity_digest) _ _ _ _ _ _ _ _ invalid_control).
  vm_compute. reflexivity.
Defined.

Lemma store_invariant_witness :
  store_ok (D := identity_digest) "transfers.json"
    (snd (TransferRequest_init (D := identity_digest) "ES9121000418450200051332" "ORDINARY"
            "ES7921000813610123456789" "Payment for services" "15/06/2025" (PFin false 1005 (-1))
            "transfers.json" (fresh_world example_today))).
Proof.
  apply (store_invariant (D := identity_digest) "transfers.json" (fresh_world example_today)).
  - econstructor 2; [|constructor 1].
    do 7 eexists. reflexivity.
  - left. reflexivity.
Defined.

Lemma resubmission_rejected_witness :
  fst (TransferRequest_init (D := identity_digest) "ES9121000418450200051332" "ORDINARY"
         "ES7921000813610123456789" "Payment for services" "15/06/2025" (PFin false 1005 (-1))
         "transfers.json"
         (snd (TransferRequest_init (D := identity_digest) "ES9121000418450200051332" "ORDINARY"
                 "ES7921000813610123456789" "Payment for services" "15/06/2025" (PFin false 1005 (-1))
                 "transfers.json" (fresh_world example_today)))) = Raise duplicated \/
  fst (TransferRequest_init (D := identity_digest) "ES9121000418450200051332" "ORDINARY"
         "ES7921000813610123456789" "Payment for services" "15/06/2025" (PFin false 1005 (-1))
         "transfers.json"
         (snd (TransferRequest_init (D := identity_digest) "ES9121000418450200051332" "ORDINARY"
                 "ES7921000813610123456789" "Payment for services" "15/06/2025" (PFin false 1005 (-1))
                 "transfers.json" (fresh_world example_today)))) = Raise past_date.
Proof.
  apply (resubmission_rejected (D := identity_digest) _ _ _ _ _ _ _ (fresh_world example_today)
           (mkrequest "transfers.json" "ES9121000418450200051332" "ES7921000813610123456789" "ORDINARY"
              "Payment for services" "15/06/2025" (PFin false 1005 (-1)) (PFin false 1741 6)));
    vm_compute; reflexivity.
Defined.

Lemma TransferRequest_init_accepts_witness :
  let w := fresh_world example_today in
  let r := mkrequest "transfers.json" "ES9121000418450200051332" "ES7921000813610123456789" "ORDINARY"
             "Payment for services" "15/06/2025" (PFin false 1005 (-1)) (inst_timestamp (clock w (ticks w))) in
  TransferRequest_init (D := identity_digest) "ES9121000418450200051332" "ORDINARY"
    "ES7921000813610123456789" "Payment for services" "15/06/2025" (PFin false 1005 (-1))
    "transfers.json" w =
  (Ok r, mkworld (set_file (files w) "transfers.json" (FJson (JArr (map (to_json (D := identity_digest)) [] ++ [to_json (D := identity_digest) r]))))
                 (clock w) (S (S (ticks w)))).
Proof.
  cbv zeta.
  apply (TransferRequest_init_accepts (D := identity_digest) _ _ _ _ _ _ _ _ []
           "21000418450200051332142800" "21000813610123456789142800");
    try (vm_compute; reflexivity).
  left. split; reflexivity.
Defined.

Lemma store_records_valid_witness :
  store_typed (D := identity_digest) "transfers.json"
    (snd (TransferRequest_init (D := identity_digest) "ES9121000418450200051332" "ORDINARY"
            "ES7921000813610123456789" "Payment for services" "15/06/2025" (PFin false 1005 (-1))
            "transfers.json" (fresh_world example_today))).
Proof.
  apply (store_records_valid (D := identity_digest) "transfers.json" (fresh_world example_today)).
  - econstructor 2; [|constructor 1].
    do 7 eexists. reflexivity.
  - left. reflexivity.
Defined.


Lemma nan_request_stored_twice_witness :
  let w1 := snd (TransferRequest_init (D := identity_digest) "ES9121000418450200051332" "ORDINARY"
                   "ES7921000813610123456789" "Payment for services" "15/06/2025" PNaN "transfers.json"
                   (fresh_world example_today)) in
  exists l, files w1 "transfers.json" =
      FJson (JArr (l ++ [to_json (D := identity_digest)
                           (mkrequest "transfers.json" "ES9121000418450200051332" "ES7921000813610123456789"
                              "ORDINARY" "Payment for services" "15/06/2025" PNaN (PFin false 1741 6))])) /\
    TransferRequest_init (D := identity_digest) "ES9121000418450200051332" "ORDINARY"
      "ES7921000813610123456789" "Payment for services" "15/06/2025" PNaN "transfers.json" w1 =
      (Ok (mkrequest "transfers.json" "ES9121000418450200051332" "ES7921000813610123456789" "ORDINARY"
             "Payment for services" "15/06/2025" PNaN (inst_timestamp (clock w1 (ticks w1)))),
       mkworld (set_file (files w1) "transfers.json"
                  (FJson (JArr (l ++ [to_json (D := identity_digest)
                                        (mkrequest "transfers.json" "ES9121000418450200051332"
                                           "ES7921000813610123456789" "ORDINARY" "Payment for services"
                                           "15/06/2025" PNaN (PFin false 1741 6));
                                      to_json (D := identity_digest)
                                        (mkrequest "transfers.json" "ES9121000418450200051332"
                                           "ES7921000813610123456789" "ORDINARY" "Payment for services"
                                           "15/06/2025" PNaN (inst_timestamp (clock w1 (ticks w1))))]))))
               (clock w1) (S (S (ticks w1)))).
Proof.
  cbv zeta.
  apply (nan_request_stored_twice (D := identity_digest) _ _ _ _ _ _ (fresh_world example_today));
    vm_compute; reflexivity.
Defined.
