(* ===== verification/AccountManager.v ===== *)
(** * [AccountManager]: what the two versions share

    The interfaces of the modules the manager imports that are not in the
    repository ([Config] for [account_management_config.py],
    [AccountDepositApi] for [AccountDeposit], [G8XRequestApi] for the
    earlier [TransferRequest]) and [FloatOps] for [float()] of a string and
    float addition, whose law fixes [float()] on short decimal literals;
    the manager's exceptions; the helpers both versions' handlers use
    ([load_store], [save_store], [py_append], [py_iter], [catch_key],
    [py_float_call], [deposit_amount_float], the balance loop
    [sum_matching]); the instances and worlds of the concrete runs; and
    the lemmas on the common steps, among them [balance_tail_ok], the part
    of both [calculate_balance]s after the IBAN check.  The current class
    is in [SrcManager], the earlier one in [G8XManager]. *)

From Stdlib Require Import String Ascii List ZArith Lia Bool.
From S2P Require Import Prelude PyStr PyRegex Iban PyFloat Validators Json World TransferRequest.
Import ListNotations.
Open Scope string_scope.

(** ** Interfaces *)

(** [account_management_config.py]: the four store paths. *)
Class Config : Type := {
  TRANSFERS_STORE_FILE : string;
  DEPOSITS_STORE_FILE : string;
  TRANSACTIONS_STORE_FILE : string;
  BALANCES_STORE_FILE : string
}.

(** [float(s)] (with its [ValueError]), [float(k)] of an [int], and [+]
    on floats.  The law: on a decimal literal of at most fifteen digits,
    [float()] gives the literal's value ([decimal_literal]). *)
Class FloatOps : Type := {
  py_float_of_str : string -> res pyfloat;
  py_float_of_int : Z -> pyfloat;
  py_fadd : pyfloat -> pyfloat -> pyfloat;
  py_float_of_str_decimal : forall s f, decimal_literal s = Some f -> py_float_of_str s = Ok f
}.

(** [AccountDeposit(to_iban=..., deposit_amount=...)]: the two fields the
    caller passes, the record's [to_json()] and its [deposit_signature]. *)
Record account_deposit : Type := mkdeposit {
  deposit_to_iban : string;
  deposit_amount : pyfloat
}.

Class AccountDepositApi : Type := {
  deposit_to_json : account_deposit -> json;
  deposit_signature : account_deposit -> string
}.

(** The [TransferRequest] of the earlier version, called with keyword
    arguments and no store path: its fields, the time stamp of its
    construction, its [to_json()] and its [transfer_code]. *)
Record g8x_request : Type := mkg8x {
  g_from_iban : string;
  g_to_iban : string;
  g_transfer_concept : string;
  g_transfer_type : string;
  g_transfer_date : string;
  g_transfer_amount : pyfloat;
  g_time_stamp : pyfloat
}.

Class G8XRequestApi : Type := {
  g8x_to_json : g8x_request -> json;
  g8x_transfer_code : g8x_request -> string
}.

(** ** Exceptions raised by the manager *)

Definition input_not_found : exn := AccountManagementException "Error: file input not found".
Definition invalid_key : exn := AccountManagementException "Error - Invalid Key in JSON".
Definition invalid_deposit_amount : exn := AccountManagementException "Error - Invalid deposit amount".
Definition zero_deposit : exn := AccountManagementException "Error - Deposit must be greater than 0".
Definition iban_not_found : exn := AccountManagementException "IBAN not found".

(** ** Helpers shared by the handlers *)

Section Helpers.
Context {F : FloatOps}.

(** [open(path, "r")] and [json.load] with the two [except] clauses of a
    store that may be absent: an absent file is the empty list. *)
Definition load_store (path : string) : PyM json :=
  (lr <- load_file path ;;
   lift (match lr with
         | NotFound => Ok (JArr [])
         | DecodeError => Raise decode_error
         | Loaded v => Ok v
         end))%pym.

(** [open(path, "w")] and [json.dump], [FileNotFoundError] turned into the
    manager's message. *)
Definition save_store (path : string) (v : json) : PyM unit := rewrite_store path v.

(** [lst.append(x)] on a value read by [json.load]: only a list has
    [append]. *)
Definition py_append (lst x : json) : res json :=
  match lst with
  | JArr l => Ok (JArr (l ++ [x]))
  | _ => Raise (AttributeError "append")
  end.

(** [for x in v]: a list gives its elements, a dict its keys, a string
    its characters; other values are not iterable. *)
Definition py_iter (v : json) : res (list json) :=
  match v with
  | JArr l => Ok l
  | JObj kvs => Ok (map (fun kv => JStr (fst kv)) kvs)
  | JStr s => Ok (map (fun c => JStr (String c EmptyString)) (list_ascii_of_string s))
  | _ => Raise TypeError
  end.

(** [except KeyError: raise AccountManagementException(...)]. *)
Definition catch_key {A : Type} (r : res A) : res A :=
  match r with
  | Raise (KeyError _) => Raise invalid_key
  | _ => r
  end.

(** [float(v)] of a value read from JSON. *)
Definition py_float_call (v : json) : res pyfloat :=
  match v with
  | JStr s => py_float_of_str s
  | JFloat f => Ok f
  | JInt z => Ok (py_float_of_int z)
  | JBool b => Ok (py_float_of_int (if b then 1 else 0)%Z)
  | _ => Raise TypeError
  end.

(** [float(deposit_amount[4:])] (current line 55, earlier line 197): slicing anything but a string
    either fails or gives a value [float()] rejects, with [TypeError]
    (a dict is sliced with [TypeError] before Python 3.12, which made
    slices hashable and raises [KeyError] there). *)
Definition deposit_amount_float (v : json) : res pyfloat :=
  match v with
  | JStr s => py_float_of_str (py_drop 4 s)
  | _ => Raise TypeError
  end.

(** The loop of [calculate_balance] (current lines 101-105, earlier lines
    244-248), with its state ([iban_found] and the running balance);
    [0 + x] of the [int] 0 and a float is [0.0 + x]. *)
Fixpoint sum_matching (iban : string) (l : list json) (found : bool) (bal : pyfloat)
    : res (bool * pyfloat) :=
  match l with
  | [] => Ok (found, bal)
  | t :: rest =>
      (v <- jget "IBAN" t ;;
       if py_eq_scalar v (JStr iban) then
         a <- jget "amount" t ;;
         x <- py_float_call a ;;
         sum_matching iban rest true (py_fadd bal x)
       else sum_matching iban rest found bal)%py
  end.

(** [x == 0] for a float. *)
Definition py_is_zero (f : pyfloat) : bool := py_eq_scalar (JFloat f) (JInt 0).

End Helpers.

(** ** Instances for concrete runs

    The theorems hold for every instance of the interfaces; the runs below
    use these.  [decimal_float_ops] gives [float()] on the decimal
    literals of [decimal_literal] only and adds exactly; it is enough for
    runs on short amounts. *)

Definition example_config : Config :=
  {| TRANSFERS_STORE_FILE := "transfers.json"; DEPOSITS_STORE_FILE := "deposits.json";
     TRANSACTIONS_STORE_FILE := "transactions.json"; BALANCES_STORE_FILE := "balances.json" |}.

Definition dec_normalize (neg : bool) (v : Z) (e : Z) : pyfloat :=
  let (m, e') := strip_zeros (S (N.to_nat (N.size (Z.to_N (Z.abs v))))) (Z.to_N (Z.abs v)) e in
  PFin (if Z.eqb v 0 then neg else Z.ltb v 0) m e'.

Definition dec_add (x y : pyfloat) : pyfloat :=
  match x, y with
  | PFin n1 m1 e1, PFin n2 m2 e2 =>
      let e := Z.min e1 e2 in
      let v1 := ((if n1 then -1 else 1) * Z.of_N m1 * 10 ^ (e1 - e))%Z in
      let v2 := ((if n2 then -1 else 1) * Z.of_N m2 * 10 ^ (e2 - e))%Z in
      dec_normalize (n1 && n2) (v1 + v2) e
  | _, _ => PNaN
  end.

Definition decimal_float_ops : FloatOps :=
  {| py_float_of_str := fun s => match decimal_literal s with Some f => Ok f | None => Raise ValueError end;
     py_float_of_int := fun z => dec_normalize false z 0;
     py_fadd := dec_add;
     py_float_of_str_decimal := ltac:(intros s f H; simpl; rewrite H; reflexivity) |}.

Definition example_deposit_api : AccountDepositApi :=
  {| deposit_to_json := fun d => JObj [("to_iban", JStr (deposit_to_iban d));
                                       ("deposit_amount", JFloat (deposit_amount d))];
     deposit_signature := fun d => deposit_to_iban d |}.

Definition example_g8x_api : G8XRequestApi :=
  {| g8x_to_json := fun r => JObj [("from_iban", JStr (g_from_iban r)); ("to_iban", JStr (g_to_iban r));
                                   ("transfer_type", JStr (g_transfer_type r));
                                   ("transfer_amount", JFloat (g_transfer_amount r));
                                   ("transfer_concept", JStr (g_transfer_concept r));
                                   ("transfer_date", JStr (g_transfer_date r))];
     g8x_transfer_code := g_from_iban |}.

(** A world on 3 March 2025 with the given files. *)
Definition example_world (fs : list (string * file_state)) : world :=
  mkworld (fun p => match find (fun kv => String.eqb (fst kv) p) fs with
                    | Some (_, st) => st
                    | None => FMissing
                    end)
          (fun _ => example_today) 0.

(** The deposit of the specification's example, with the amount
    [EUR -100.00]: accepted. *)
Definition negative_deposit_world : world :=
  example_world [("deposit.json", FJson (JObj [("IBAN", JStr "ES9121000418450200051332");
                                               ("AMOUNT", JStr "EUR -100.00")]))].

(** A deposit of [EUR 0100.00] to the IBAN of the specification. *)
Definition valid_deposit_world : world :=
  example_world [("deposit.json", FJson (JObj [("IBAN", JStr "ES9121000418450200051332");
                                               ("AMOUNT", JStr "EUR 0100.00")]))].

(** The balance example of the specification: the log holds 100.0 and
    -30.0 for the IBAN. *)
Definition spec_log_world : world :=
  example_world [("transactions.json",
    FJson (JArr [JObj [("IBAN", JStr "ES9121000418450200051332"); ("amount", JStr "100.0")];
                 JObj [("IBAN", JStr "ES9121000418450200051332"); ("amount", JStr "-30.0")]]))].

(** The balance example of the specification, with the log holding the
    digit string [validate_iban] returns instead of the IBAN: the balance
    70.0 is appended. *)
Definition transformed_log_world : world :=
  example_world [("transactions.json",
    FJson (JArr [JObj [("IBAN", JStr "21000418450200051332142800"); ("amount", JStr "100.0")];
                 JObj [("IBAN", JStr "21000418450200051332142800"); ("amount", JStr "-30.0")]]))].

(** The balance the loop computes, on records given as (IBAN, amount):
    whether one matches, and the sum in order of the matching amounts,
    starting from [0.0]. *)
Definition balance_spec {F : FloatOps} (iban : string) (recs : list (string * pyfloat)) : bool * pyfloat :=
  (existsb (fun r => String.eqb (fst r) iban) recs,
   fold_left (fun acc r => if String.eqb (fst r) iban then py_fadd acc (snd r) else acc)
             recs (PFin false 0 0)).

(** A JSON record read as (IBAN, amount): the ["IBAN"] key holds the
    string, and when it is the one looked for, the ["amount"] key holds a
    value [float()] turns into the amount. *)
Definition record_reads {F : FloatOps} (iban : string) (t : json) (r : string * pyfloat) : Prop :=
  jget "IBAN" t = Ok (JStr (fst r)) /\
  (fst r = iban -> exists a, jget "amount" t = Ok a /\ py_float_call a = Ok (snd r)).

(** Two outcomes agree: both return, or both raise the same exception. *)
Definition same_outcome {X Y : Type} (x : res X) (y : res Y) : Prop :=
  match x, y with
  | Ok _, Ok _ => True
  | Raise e1, Raise e2 => e1 = e2
  | _, _ => False
  end.

(** ** Lemmas *)

(** The loop of [calculate_balance] over records none of which matches. *)
Lemma sum_matching_none {F : FloatOps} (iban : string) (l : list json) (found : bool) (bal : pyfloat) :
  Forall (fun t => exists s, jget "IBAN" t = Ok (JStr s) /\ s <> iban) l ->
  sum_matching iban l found bal = Ok (found, bal).
Proof.
  induction 1 as [|t l (s & Hs & Hne) _ IH]; simpl; auto.
  rewrite Hs. simpl. destruct (String.eqb_spec s iban); [contradiction|exact IH].
Qed.

(** A digit string matches no record whose IBAN holds a non-digit. *)
Lemma sum_matching_digits {F : FloatOps} (iban : string) (l : list json) (found : bool) (bal : pyfloat) :
  all_digits iban = true ->
  Forall (fun t => exists s, jget "IBAN" t = Ok (JStr s) /\ all_digits s = false) l ->
  sum_matching iban l found bal = Ok (found, bal).
Proof.
  intros Hd Hl. apply sum_matching_none.
  eapply Forall_impl; [|exact Hl]. intros t (s & Hs & Hn). exists s. split; [exact Hs|congruence].
Qed.

Lemma sum_matching_spec {F : FloatOps} (iban : string) (l : list json) (recs : list (string * pyfloat))
    (found : bool) (bal : pyfloat) :
  Forall2 (record_reads iban) l recs ->
  sum_matching iban l found bal =
  Ok ((found || existsb (fun r => String.eqb (fst r) iban) recs)%bool,
      fold_left (fun acc r => if String.eqb (fst r) iban then py_fadd acc (snd r) else acc) recs bal).
Proof.
  intros H. revert found bal.
  induction H as [|t r l recs [Hi Ha] _ IH]; intros found bal; simpl; [now rewrite orb_false_r|].
  rewrite Hi. simpl. destruct (String.eqb_spec (fst r) iban) as [E|E].
  - destruct (Ha E) as (a & Ha' & Hx). rewrite Ha'. simpl. rewrite Hx. simpl.
    rewrite IH. now rewrite orb_true_r.
  - apply IH.
Qed.

(** A store read by [load_store]: absent, or holding a list. *)
Lemma load_store_list {F : FloatOps} (path : string) (l : list json) (w : world) :
  (files w path = FMissing /\ l = []) \/ files w path = FJson (JArr l) ->
  load_store path w = (Ok (JArr l), w).
Proof.
  unfold load_store, bind, load_file, lift. intros [[-> ->] | ->]; reflexivity.
Qed.

(** Writing a store that is not in a missing directory. *)
Lemma save_store_ok {F : FloatOps} (path : string) (v : json) (w : world) :
  files w path <> FNoDir ->
  save_store path v w = (Ok tt, mkworld (set_file (files w) path (FJson v)) (clock w) (ticks w)).
Proof.
  unfold save_store, rewrite_store, dump_file. intros H. destruct (files w path); congruence.
Qed.

(** The common part of both [calculate_balance]s once the IBAN is known
    (current lines 98-128, earlier lines 241-271): on a log that reads as
    [recs] with a match, the balance record is appended. *)
Lemma balance_tail_ok {C : Config} {F : FloatOps} (read : PyM json) iban3 l recs bl w :
  read w = (Ok (JArr l), w) ->
  Forall2 (record_reads iban3) l recs ->
  fst (balance_spec iban3 recs) = true ->
  (files w BALANCES_STORE_FILE = FMissing /\ bl = []) \/ files w BALANCES_STORE_FILE = FJson (JArr bl) ->
  (t_l <- read ;;
   items <- lift (py_iter t_l) ;;
   st <- lift (sum_matching iban3 items false (PFin false 0 0)) ;;
   if negb (fst st) then throw iban_not_found else
   justnow <- now ;;
   let last_balance := JObj [("IBAN", JStr iban3); ("time", JFloat (inst_timestamp justnow));
                             ("BALANCE", JFloat (snd st))] in
   balance_list <- load_store BALANCES_STORE_FILE ;;
   new_list <- lift (py_append balance_list last_balance) ;;
   save_store BALANCES_STORE_FILE new_list ;;;
   ret true)%pym w =
    (Ok true,
     mkworld (set_file (files w) BALANCES_STORE_FILE
                (FJson (JArr (bl ++ [JObj [("IBAN", JStr iban3);
                                           ("time", JFloat (inst_timestamp (clock w (ticks w))));
                                           ("BALANCE", JFloat (snd (balance_spec iban3 recs)))]]))))
             (clock w) (S (ticks w))).
Proof.
  intros Hr Hl Hfound Hb. unfold balance_spec in *. simpl in Hfound.
  unfold bind at 1. rewrite Hr. unfold bind at 1 2, lift. simpl.
  rewrite (sum_matching_spec _ _ _ _ _ Hl), Hfound. simpl.
  unfold bind at 1, now. simpl.
  unfold bind at 1. rewrite (load_store_list _ bl) by exact Hb. simpl.
  unfold bind. rewrite save_store_ok by (simpl; destruct Hb as [[-> _] | ->]; discriminate).
  reflexivity.
Qed.

Lemma load_store_keeps {F : FloatOps} (path : string) : keeps_files (load_store path).
Proof. unfold load_store. auto with pyeffect. Qed.

Lemma save_store_atomic {F : FloatOps} (path : string) (v : json) : atomic (save_store path v).
Proof.
  intros w. unfold save_store, rewrite_store, dump_file. now destruct (files w path).
Qed.

#[export] Hint Resolve load_store_keeps : pyeffect.

(** A handler made of steps that keep the files, then [save_store], then
    [ret]: the tactic proves it atomic. *)
Ltac atomic_handler :=
  repeat first
    [ apply atomic_bind_keeps; [solve [auto with pyeffect] | intros]
    | match goal with |- atomic (if ?b then _ else _) => destruct b end
    | apply atomic_of_keeps; solve [auto with pyeffect] ];
  try (apply atomic_bind_last; [apply save_store_atomic | intros; eexists; reflexivity]).

