(* ===== verification/SrcManager.v ===== *)
(** * The current [AccountManager] ([src/src/main/python/uc3m_money/account_manager.py])

    Module [Src]: [transfer_request] builds a [TransferRequest] on the
    transfer store; [deposit_into_account] and [calculate_balance] call
    [self.validate_iban], which the class no longer defines.  Both are
    written for any outcome of that lookup ([deposit_into_account_with],
    [calculate_balance_with]) so that the lines after it are modelled too,
    and the class's handlers are them applied to the lookup's
    [AttributeError].  The properties: the deposit never returns as the
    class is; past the lookup the amount format and the zero check hold
    and the deposit is appended; the handlers are atomic; the balance
    appends the sum for any method, but never finds an ["ES..."] IBAN with
    [TransferRequest.validate_iban] restored. *)

From Stdlib Require Import String Ascii List ZArith Lia Bool.
From S2P Require Import Prelude PyStr PyRegex Iban PyFloat Validators Json World TransferRequest AccountManager.
Import ListNotations.
Open Scope string_scope.

(** ** The current [AccountManager] *)

Module Src.
Section Src.
Context {C : Config} {D : Digest}.

(** Lines 20-30: the request is built on the configured transfer store
    (positional arguments in the constructor's order) and its code
    returned. *)
Definition transfer_request (from_iban to_iban concept transfer_type date : string)
    (amount : pyfloat) : PyM string :=
  (r <- TransferRequest_init from_iban transfer_type to_iban concept date amount TRANSFERS_STORE_FILE ;;
   ret (transfer_code r))%pym.

(** [self.validate_iban]: the attribute lookup on an instance.  The class
    defines no [validate_iban] (the method moved to [TransferRequest]), so
    the lookup raises [AttributeError].  The two handlers that call it are
    written below for any outcome of the lookup, a method (a function of
    the argument) or an exception, and the class's handlers are them
    applied to this lookup. *)
Definition validate_iban_attr : res (json -> res string) :=
  Raise (AttributeError "validate_iban").

(** [self.validate_iban(x)] for an outcome of the lookup. *)
Definition call_validate_iban (lookup : res (json -> res string)) (x : json) : res string :=
  (m <- lookup ;; m x)%py.

(** [TransferRequest.validate_iban] ([transfer_request.py], lines 39-88)
    called as a method of the manager, the method the class had before it
    moved: the outcome of the lookup had the class kept it. *)
Definition moved_validate_iban (v : json) : res string :=
  match v with
  | JStr s => validate_iban s
  | _ => Raise TypeError
  end.

(** Line 50: [r"^EUR [0-9]{4}\.[0-9]{2}"]. *)
Definition deposit_amount_pattern : regex :=
  rseq [RBol; RChar "E"; RChar "U"; RChar "R"; RChar " ";
        RRepeat 4 (Some 4) (RClass [CRange "0" "9"]); RChar ".";
        RRepeat 2 (Some 2) (RClass [CRange "0" "9"])].

(** Line 51: [myregex.fullmatch(deposit_amount)], with [TypeError] on a
    value that is not a string. *)
Definition fullmatch_json (r : regex) (v : json) : res bool :=
  match v with
  | JStr s => Ok (py_fullmatch r s)
  | _ => Raise TypeError
  end.

Section WithFloat.
Context {F : FloatOps} {A : AccountDepositApi}.

(** Lines 32-80, for an outcome [lookup] of [self.validate_iban]: the
    input file and its two keys (lines 34-47), the IBAN (line 49), the
    amount's format (lines 50-53), its value and the zero check (lines
    55-57), and the append to the deposit store (lines 59-80). *)
Definition deposit_into_account_with (lookup : res (json -> res string)) (input_file : string)
    : PyM string :=
  (lr <- load_file input_file ;;
   i_d <- lift (match lr with
                | NotFound => Raise input_not_found
                | DecodeError => Raise decode_error
                | Loaded v => Ok v
                end) ;;
   deposit_iban <- lift (catch_key (jget "IBAN" i_d)) ;;
   deposit_amount <- lift (catch_key (jget "AMOUNT" i_d)) ;;
   deposit_iban' <- lift (call_validate_iban lookup deposit_iban) ;;
   res <- lift (fullmatch_json deposit_amount_pattern deposit_amount) ;;
   lift (raise_if (negb res) invalid_deposit_amount) ;;;
   d_a_f <- lift (deposit_amount_float deposit_amount) ;;
   lift (raise_if (py_is_zero d_a_f) zero_deposit) ;;;
   let deposit_obj := mkdeposit deposit_iban' d_a_f in
   d_l <- load_store DEPOSITS_STORE_FILE ;;
   new_list <- lift (py_append d_l (deposit_to_json deposit_obj)) ;;
   save_store DEPOSITS_STORE_FILE new_list ;;;
   ret (deposit_signature deposit_obj))%pym.

(** Lines 32-80 as the class has them: line 49 raises, lines 50-80 are
    not reached. *)
Definition deposit_into_account (input_file : string) : PyM string :=
  deposit_into_account_with validate_iban_attr input_file.

(** Lines 82-92: the transaction log must exist. *)
Definition read_transactions_file : PyM json :=
  (lr <- load_file TRANSACTIONS_STORE_FILE ;;
   lift (match lr with
         | NotFound => Raise wrong_path
         | DecodeError => Raise decode_error
         | Loaded v => Ok v
         end))%pym.

(** Lines 95-128, for an outcome [lookup] of [self.validate_iban]: the
    IBAN (line 97), the log (line 98), the loop (lines 99-105), the
    not-found check (lines 106-107), the balance record with a clock
    reading (lines 109-111) and its append to the balance store (lines
    113-128). *)
Definition calculate_balance_with (lookup : res (json -> res string)) (iban : string) : PyM bool :=
  (iban' <- lift (call_validate_iban lookup (JStr iban)) ;;
   t_l <- read_transactions_file ;;
   items <- lift (py_iter t_l) ;;
   st <- lift (sum_matching iban' items false (PFin false 0 0)) ;;
   if negb (fst st) then throw iban_not_found else
   justnow <- now ;;
   let last_balance := JObj [("IBAN", JStr iban'); ("time", JFloat (inst_timestamp justnow));
                             ("BALANCE", JFloat (snd st))] in
   balance_list <- load_store BALANCES_STORE_FILE ;;
   new_list <- lift (py_append balance_list last_balance) ;;
   save_store BALANCES_STORE_FILE new_list ;;;
   ret true)%pym.

(** Lines 95-128 as the class has them: line 97 raises. *)
Definition calculate_balance (iban : string) : PyM bool :=
  calculate_balance_with validate_iban_attr iban.

End WithFloat.
End Src.
End Src.

(** ** Lemmas *)

(** The format check of the current [deposit_into_account] (lines 50-51):
    ["EUR "], four digits, a point, two digits, and nothing else. *)
Lemma deposit_amount_format_iff (s : string) :
  py_fullmatch Src.deposit_amount_pattern s = true <->
  exists ip fp, s = "EUR " ++ ip ++ "." ++ fp /\ String.length ip = 4 /\ String.length fp = 2 /\
    all_digits ip = true /\ all_digits fp = true.
Proof.
  rewrite py_fullmatch_iff by reflexivity.
  unfold Src.deposit_amount_pattern; simpl rseq. regex_simpl.
  setoid_rewrite repeats_char_iff; try reflexivity.
  setoid_rewrite digit_class_test. split.
  - intros (j & [_ ->] & j0 & [-> H0] & j1 & [-> H1] & j2 & [-> H2] & j3 & [-> H3] &
            j4 & (n & [-> D1] & Hn1 & Hn2) & j5 & [-> H5] & n' & [Hlen D2] & Hn3 & Hn4).
    cbn [below] in Hn2, Hn4. assert (n = 4) as -> by lia. assert (n' = 2) as -> by lia.
    destruct s as [|e [|u [|r [|sp [|c4 [|c5 [|c6 [|c7 [|pt [|c9 [|c10 [|]]]]]]]]]]]];
      try discriminate Hlen.
    destruct (D1 4) as (x4 & E4 & T4); [lia|]. destruct (D1 5) as (x5 & E5 & T5); [lia|].
    destruct (D1 6) as (x6 & E6 & T6); [lia|]. destruct (D1 7) as (x7 & E7 & T7); [lia|].
    destruct (D2 9) as (x9 & E9 & T9); [lia|]. destruct (D2 10) as (x10 & E10 & T10); [lia|].
    cbn in H0, H1, H2, H3, H5, E4, E5, E6, E7, E9, E10.
    repeat match goal with H : Some _ = Some _ |- _ => injection H as H end. subst.
    eexists (String _ (String _ (String _ (String _ EmptyString)))), (String _ (String _ EmptyString)).
    split; [reflexivity|]. repeat split; cbn [all_digits]; now rewrite ?T4, ?T5, ?T6, ?T7, ?T9, ?T10.
  - intros (ip & fp & -> & Li & Lf & Di & Df).
    destruct ip as [|c4 [|c5 [|c6 [|c7 [|]]]]]; try discriminate Li.
    destruct fp as [|c9 [|c10 [|]]]; try discriminate Lf.
    cbn [all_digits] in Di, Df. bool_to_prop.
    exists 0. split; [auto|]. exists 1. split; [auto|]. exists 2. split; [auto|].
    exists 3. split; [auto|]. exists 4. split; [auto|]. exists 8. split.
    + exists 4. split; [split; [reflexivity|]|cbn; lia].
      intros k Hk. destruct k as [|[|[|[|[|[|[|[|k]]]]]]]]; try lia; cbn; eauto.
    + exists 9. split; [auto|]. exists 2. split; [split; [reflexivity|]|cbn; lia].
      intros k Hk. destruct k as [|[|[|[|[|[|[|[|[|[|[|k]]]]]]]]]]]; try lia; cbn; eauto.
Qed.


(** ** Properties of the current manager *)

Section SrcProps.
Context {C : Config} {D : Digest} {F : FloatOps} {A : AccountDepositApi}.

(** C18: [deposit_into_account] of the current class never returns: it
    raises on every input and leaves the world as it was, and on an input
    file holding both keys the exception is the [AttributeError] of the
    missing [validate_iban]. *)
Theorem src_deposit_always_raises (input_file : string) (w : world) :
  exists e, Src.deposit_into_account input_file w = (Raise e, w) /\
    (forall kvs i a, files w input_file = FJson (JObj kvs) ->
       assoc_get "IBAN" kvs = Some i -> assoc_get "AMOUNT" kvs = Some a ->
       e = AttributeError "validate_iban").
Proof.
  unfold Src.deposit_into_account, Src.deposit_into_account_with, bind, load_file, lift, throw.
  destruct (files w input_file) as [| | |v] eqn:Hf; simpl;
    try (eexists; split; [reflexivity | intros; discriminate]).
  destruct (catch_key (jget "IBAN" v)) as [i|e] eqn:Ei; simpl;
    [destruct (catch_key (jget "AMOUNT" v)) as [a|e] eqn:Ea; simpl|];
    (eexists; split; [reflexivity|]); intros kvs i' a' Hv Hi Ha; auto;
    injection Hv as ->; simpl in *; [rewrite Ha in Ea | rewrite Hi in Ei]; discriminate.
Qed.

(** C12: round trip of the transfer store.  When [transfer_request]
    returns a code, the transfer store ends with a record whose six fields,
    read back by key, are the arguments of the call, and whose
    [transfer_code] is the code returned. *)
Theorem src_transfer_request_roundtrip from to c t d a w code w' :
  Src.transfer_request from to c t d a w = (Ok code, w') ->
  exists l v, files w' TRANSFERS_STORE_FILE = FJson (JArr (l ++ [v])) /\
    map (fun k => jget k v) ["from_iban"; "to_iban"; "transfer_date"; "transfer_amount";
                             "transfer_concept"; "transfer_type"; "transfer_code"] =
    [Ok (JStr from); Ok (JStr to); Ok (JStr d); Ok (JFloat a); Ok (JStr c); Ok (JStr t);
     Ok (JStr code)].
Proof.
  unfold Src.transfer_request, bind, ret.
  destruct (TransferRequest_init from t to c d a TRANSFERS_STORE_FILE w) as [[r|e] w1] eqn:E;
    [|discriminate].
  intros H. injection H as <- <-.
  apply TransferRequest_init_ok in E as (Er & l & _ & _ & Hf).
  exists l, (to_json r). rewrite Hf, set_file_same. split; [reflexivity|].
  destruct r; simpl in Er. injection Er as -> -> -> -> -> -> ->. reflexivity.
Qed.

(** C26: the amount check of the current [deposit_into_account] (lines
    50-53), for any method the [self.validate_iban] lookup could find:
    once the input's IBAN is accepted, an amount that is not ["EUR "],
    four digits, a point and two digits (a negative amount, a missing
    digit, anything after the cents) raises "Error - Invalid deposit
    amount" and changes nothing. *)
Theorem src_deposit_amount_checked (m : json -> res string) input_file v iban iban' amount w :
  files w input_file = FJson v -> jget "IBAN" v = Ok iban -> jget "AMOUNT" v = Ok (JStr amount) ->
  m iban = Ok iban' ->
  ~ (exists ip fp, amount = "EUR " ++ ip ++ "." ++ fp /\ String.length ip = 4 /\
       String.length fp = 2 /\ all_digits ip = true /\ all_digits fp = true) ->
  Src.deposit_into_account_with (Ok m) input_file w = (Raise invalid_deposit_amount, w).
Proof.
  intros Hf Hi Ha Hm Hn.
  assert (E : py_fullmatch Src.deposit_amount_pattern amount = false).
  { apply not_true_iff_false. now rewrite deposit_amount_format_iff. }
  unfold Src.deposit_into_account_with, bind, load_file, lift. rewrite Hf. cbn [res_bind catch_key].
  rewrite Hi, Ha. cbn [res_bind catch_key Src.call_validate_iban Src.fullmatch_json]. rewrite Hm, E.
  reflexivity.
Qed.

(** C27: the current [deposit_into_account] past its IBAN line, for any
    method the lookup could find: an amount ["EUR dddd.dd"] is read as the
    float of ["dddd.dd"]; zero raises "Error - Deposit must be greater
    than 0" and changes nothing, any other value is appended, with the
    IBAN the method returns, to the deposit store, and the deposit's
    signature returned. *)
Theorem src_deposit_appends (m : json -> res string) input_file v iban iban' ip fp x l w :
  files w input_file = FJson v -> jget "IBAN" v = Ok iban ->
  jget "AMOUNT" v = Ok (JStr ("EUR " ++ ip ++ "." ++ fp)) -> m iban = Ok iban' ->
  String.length ip = 4 -> String.length fp = 2 -> all_digits ip = true -> all_digits fp = true ->
  decimal_literal (ip ++ "." ++ fp) = Some x ->
  (files w DEPOSITS_STORE_FILE = FMissing /\ l = []) \/ files w DEPOSITS_STORE_FILE = FJson (JArr l) ->
  Src.deposit_into_account_with (Ok m) input_file w =
    if py_is_zero x then (Raise zero_deposit, w)
    else (Ok (deposit_signature (mkdeposit iban' x)),
          mkworld (set_file (files w) DEPOSITS_STORE_FILE
                     (FJson (JArr (l ++ [deposit_to_json (mkdeposit iban' x)])))) (clock w) (ticks w)).
Proof.
  intros Hf Hi Ha Hm Li Lf Di Df Hx Hs.
  assert (E : py_fullmatch Src.deposit_amount_pattern ("EUR " ++ ip ++ "." ++ fp) = true).
  { apply deposit_amount_format_iff. exists ip, fp. auto. }
  unfold Src.deposit_into_account_with, bind at 1. unfold load_file at 1. rewrite Hf.
  unfold bind, lift. cbn [res_bind catch_key]. rewrite Hi, Ha.
  cbn [res_bind catch_key Src.call_validate_iban Src.fullmatch_json]. rewrite Hm, E.
  cbn [res_bind negb raise_if deposit_amount_float].
  change (py_drop 4 ("EUR " ++ ip ++ "." ++ fp)) with (py_drop (String.length "EUR ") ("EUR " ++ (ip ++ "." ++ fp))).
  rewrite py_drop_app, (py_float_of_str_decimal _ _ Hx).
  destruct (py_is_zero x); [reflexivity|]. cbn [res_bind].
  rewrite (load_store_list _ _ _ Hs). cbn [res_bind py_append].
  rewrite save_store_ok by (destruct Hs as [[-> _] | ->]; discriminate). reflexivity.
Qed.

(** C28: the handlers of the current class are atomic whatever the
    [self.validate_iban] lookup gives (the exception of the class as it
    is, or any method): a call that raises leaves every file as it was. *)
Theorem src_handlers_atomic (lookup : res (json -> res string))
    (from to c ty d iban input_file : string) (a : pyfloat) :
  atomic (Src.transfer_request from to c ty d a) /\
  atomic (Src.deposit_into_account_with lookup input_file) /\
  atomic (Src.calculate_balance_with lookup iban).
Proof.
  unfold Src.transfer_request, Src.deposit_into_account_with, Src.calculate_balance_with,
    Src.read_transactions_file.
  split; [|split; atomic_handler].
  apply atomic_bind_last; [apply TransferRequest_init_is_atomic | intros; eexists; reflexivity].
Qed.

(** C30: restoring the method does not repair [calculate_balance]: with
    [TransferRequest.validate_iban] as [self.validate_iban], line 103
    compares each record's ["IBAN"] with the digit string the method
    returns, so on a log whose IBANs all hold a non-digit (every ["ES..."]
    IBAN) the call raises "IBAN not found" and changes nothing. *)
Theorem src_balance_moved_method_never_finds iban iban3 l w :
  validate_iban iban = Ok iban3 ->
  files w TRANSACTIONS_STORE_FILE = FJson (JArr l) ->
  Forall (fun t => exists s, jget "IBAN" t = Ok (JStr s) /\ all_digits s = false) l ->
  Src.calculate_balance_with (Ok Src.moved_validate_iban) iban w = (Raise iban_not_found, w).
Proof.
  intros Hv Hf Hl. pose proof (validate_iban_ok_digits _ _ Hv) as Hd.
  unfold Src.calculate_balance_with, Src.read_transactions_file, bind, lift, load_file, throw.
  cbn [Src.call_validate_iban res_bind Src.moved_validate_iban]. rewrite Hv, Hf. simpl.
  now rewrite sum_matching_digits.
Qed.

(** C29: the current [calculate_balance] past its IBAN line, for any method
    the lookup could find: when records of the log match the IBAN the
    method returns, it returns [True] and appends to the balance store the
    record of that IBAN, the first clock reading of the call and the sum
    in order of the matching amounts. *)
Theorem src_balance_appends (m : json -> res string) iban iban3 l recs bl w :
  m (JStr iban) = Ok iban3 ->
  files w TRANSACTIONS_STORE_FILE = FJson (JArr l) ->
  Forall2 (record_reads iban3) l recs ->
  fst (balance_spec iban3 recs) = true ->
  (files w BALANCES_STORE_FILE = FMissing /\ bl = []) \/ files w BALANCES_STORE_FILE = FJson (JArr bl) ->
  Src.calculate_balance_with (Ok m) iban w =
    (Ok true,
     mkworld (set_file (files w) BALANCES_STORE_FILE
                (FJson (JArr (bl ++ [JObj [("IBAN", JStr iban3);
                                           ("time", JFloat (inst_timestamp (clock w (ticks w))));
                                           ("BALANCE", JFloat (snd (balance_spec iban3 recs)))]]))))
             (clock w) (S (ticks w))).
Proof.
  intros Hm Hf Hl Hfound Hb. unfold Src.calculate_balance_with, bind at 1, lift at 1.
  cbn [Src.call_validate_iban res_bind]. rewrite Hm.
  apply (balance_tail_ok _ _ l); auto.
  unfold Src.read_transactions_file, bind, load_file, lift. now rewrite Hf.
Qed.

End SrcProps.

(** ** Concrete runs *)

#[local] Existing Instances example_config decimal_float_ops example_deposit_api example_g8x_api.

Lemma src_transfer_request_roundtrip_witness :
  exists l v,
    files (snd (Src.transfer_request (C := example_config) (D := identity_digest) "ES9121000418450200051332"
                  "ES7921000813610123456789" "Payment for services" "ORDINARY" "15/06/2025"
                  (PFin false 1005 (-1)) (fresh_world example_today))) "transfers.json"
      = FJson (JArr (l ++ [v])) /\
    map (fun k => jget k v) ["from_iban"; "to_iban"; "transfer_date"; "transfer_amount";
                             "transfer_concept"; "transfer_type"; "transfer_code"] =
    [Ok (JStr "ES9121000418450200051332"); Ok (JStr "ES7921000813610123456789");
     Ok (JStr "15/06/2025"); Ok (JFloat (PFin false 1005 (-1))); Ok (JStr "Payment for services");
     Ok (JStr "ORDINARY");
     Ok (JStr (transfer_code (D := identity_digest) (mkrequest "transfers.json" "ES9121000418450200051332"
                   "ES7921000813610123456789" "ORDINARY" "Payment for services" "15/06/2025"
                   (PFin false 1005 (-1)) (PFin false 1741 6))))].
Proof.
  apply (src_transfer_request_roundtrip (C := example_config) (D := identity_digest)
           _ _ _ _ _ _ (fresh_world example_today)).
  vm_compute. reflexivity.
Defined.

Lemma src_deposit_amount_checked_witness :
  Src.deposit_into_account_with (Ok Src.moved_validate_iban) "deposit.json" negative_deposit_world =
    (Raise invalid_deposit_amount, negative_deposit_world).
Proof.
  apply (src_deposit_amount_checked (C := example_config) (F := decimal_float_ops)
           (A := example_deposit_api) Src.moved_validate_iban "deposit.json"
           (JObj [("IBAN", JStr "ES9121000418450200051332"); ("AMOUNT", JStr "EUR -100.00")])
           (JStr "ES9121000418450200051332") "21000418450200051332142800" "EUR -100.00");
    try (vm_compute; reflexivity).
  intros H. apply deposit_amount_format_iff in H. vm_compute in H. discriminate H.
Defined.

Lemma src_deposit_appends_witness :
  Src.deposit_into_account_with (Ok Src.moved_validate_iban) "deposit.json" valid_deposit_world =
    (Ok (deposit_signature (mkdeposit "21000418450200051332142800" (PFin false 1 2))),
     mkworld (set_file (files valid_deposit_world) "deposits.json"
                (FJson (JArr ([] ++ [deposit_to_json (mkdeposit "21000418450200051332142800" (PFin false 1 2))]))))
             (clock valid_deposit_world) (ticks valid_deposit_world)).
Proof.
  rewrite (src_deposit_appends (C := example_config) (F := decimal_float_ops)
           (A := example_deposit_api) Src.moved_validate_iban "deposit.json"
           (JObj [("IBAN", JStr "ES9121000418450200051332"); ("AMOUNT", JStr "EUR 0100.00")])
           (JStr "ES9121000418450200051332") "21000418450200051332142800" "0100" "00"
           (PFin false 1 2) [] valid_deposit_world);
    try (vm_compute; reflexivity).
  left. split; reflexivity.
Defined.

Lemma src_balance_moved_method_never_finds_witness :
  Src.calculate_balance_with (Ok Src.moved_validate_iban) "ES9121000418450200051332" spec_log_world
  = (Raise iban_not_found, spec_log_world).
Proof.
  eapply (src_balance_moved_method_never_finds (C := example_config) (F := decimal_float_ops)
           _ "21000418450200051332142800"); [vm_compute; reflexivity | reflexivity|].
  repeat constructor; eexists; split; reflexivity.
Defined.

Lemma src_balance_appends_witness :
  Src.calculate_balance_with (Ok Src.moved_validate_iban) "ES9121000418450200051332" transformed_log_world =
    (Ok true,
     mkworld (set_file (files transformed_log_world) "balances.json"
                (FJson (JArr ([] ++ [JObj [("IBAN", JStr "21000418450200051332142800");
                                           ("time", JFloat (inst_timestamp (clock transformed_log_world
                                                                             (ticks transformed_log_world))));
                                           ("BALANCE", JFloat (snd (balance_spec "21000418450200051332142800"
         [("21000418450200051332142800", PFin false 1 2); ("21000418450200051332142800", PFin true 3 1)])))]]))))
             (clock transformed_log_world) (S (ticks transformed_log_world))).
Proof.
  apply (src_balance_appends (C := example_config) (F := decimal_float_ops) Src.moved_validate_iban
           _ "21000418450200051332142800"
           [JObj [("IBAN", JStr "21000418450200051332142800"); ("amount", JStr "100.0")];
            JObj [("IBAN", JStr "21000418450200051332142800"); ("amount", JStr "-30.0")]]).
  - vm_compute. reflexivity.
  - reflexivity.
  - repeat constructor; intros _; eexists; split; reflexivity.
  - reflexivity.
  - left. split; reflexivity.
Defined.
