(* ===== verification/G8XManager.v ===== *)
(** * The earlier [AccountManager] ([src/G8X.2025.T00.GE4-main/.../account_manager.py])

    Module [G8X]: its own [validate_iban] (proved equal to the current
    one), [check_regex], [validate_concept], [validate_transfer_date], the
    transfer checks, the duplicate scan and the store update written
    inline in [transfer_request], the deposit and the balance.  The
    properties: the deposit does not check the amount's format; the
    balance never finds an ["ES..."] IBAN and otherwise appends the sum;
    the three handlers are atomic; the type spellings differ from the
    current version's. *)

From Stdlib Require Import String Ascii List ZArith Lia Bool.
From S2P Require Import Prelude PyStr PyRegex Iban PyFloat Validators Json World TransferRequest AccountManager.
Import ListNotations.
Open Scope string_scope.

(** ** The earlier [AccountManager] ([G8X.2025.T00.GE4-main]) *)

Module G8X.
Section G8X.
Context {C : Config} {F : FloatOps} {A : AccountDepositApi} {R : G8XRequestApi}.

(** Lines 71-76. *)
Definition check_regex (pattern : regex) (s : string) : bool := py_fullmatch pattern s.

(** Lines 21-69: the same statements as [TransferRequest.validate_iban],
    grouped the same way; the transformed digit string is returned. *)
Definition validate_iban (iban : string) : res string :=
  (raise_if (negb (check_regex iban_pattern iban)) invalid_format ;;;
   let original_code := py_slice 2 4 iban in
   let iban1 := py_take 2 iban ++ "00" ++ py_drop 4 iban in
   let iban2 := py_drop 4 iban1 ++ py_take 4 iban1 in
   let iban3 := iban_letters_to_digits iban2 in
   int_i <- py_int_call iban3 ;;
   let md := (int_i mod 97)%Z in
   let control_digit := (98 - md)%Z in
   oc <- py_int_call original_code ;;
   if negb (Z.eqb oc control_digit) then Raise invalid_control else Ok iban3)%py.

(** [self.validate_iban(v)] on a value read from JSON: [re] raises
    [TypeError] on anything but a string. *)
Definition validate_iban_json (v : json) : res string :=
  match v with
  | JStr s => validate_iban s
  | _ => Raise TypeError
  end.

(** Lines 78-84. *)
Definition validate_concept (concept : string) : res unit :=
  raise_if (negb (check_regex concept_pattern concept)) invalid_concept.

(** Lines 86-103: format, [strptime], then the clock. *)
Definition validate_transfer_date (transfer_date : string) : PyM string :=
  (my_date <- lift (parse_transfer_date transfer_date) ;;
   today <- now ;;
   lift (check_transfer_date (inst_date today) my_date) ;;;
   ret transfer_date)%pym.

(** The constructor of the earlier [TransferRequest]: it reads the clock. *)
Definition TransferRequest_init (from_iban to_iban transfer_concept transfer_type
    transfer_date : string) (transfer_amount : pyfloat) : PyM g8x_request :=
  (justnow <- now ;;
   ret (mkg8x from_iban to_iban transfer_concept transfer_type transfer_date transfer_amount
              (inst_timestamp justnow)))%pym.

(** Lines 154-159: the six comparisons joined by [and]. *)
Definition same_transfer (t : json) (my_request : g8x_request) : res bool :=
  (v1 <- jget "from_iban" t ;;
   if negb (py_eq_scalar v1 (JStr (g_from_iban my_request))) then Ok false else
   v2 <- jget "to_iban" t ;;
   if negb (py_eq_scalar v2 (JStr (g_to_iban my_request))) then Ok false else
   v3 <- jget "transfer_date" t ;;
   if negb (py_eq_scalar v3 (JStr (g_transfer_date my_request))) then Ok false else
   v4 <- jget "transfer_amount" t ;;
   if negb (py_eq_scalar v4 (JFloat (g_transfer_amount my_request))) then Ok false else
   v5 <- jget "transfer_concept" t ;;
   if negb (py_eq_scalar v5 (JStr (g_transfer_concept my_request))) then Ok false else
   v6 <- jget "transfer_type" t ;;
   Ok (py_eq_scalar v6 (JStr (g_transfer_type my_request))))%py.

(** Lines 153-160: the scan of the stored list. *)
Fixpoint scan_duplicates (my_request : g8x_request) (l : list json) : res unit :=
  match l with
  | [] => Ok tt
  | t :: rest =>
      (b <- same_transfer t my_request ;;
       if b then Raise duplicated else scan_duplicates my_request rest)%py
  end.

(** Lines 105-172. *)
Definition transfer_request (from_iban to_iban concept transfer_type date : string)
    (amount : pyfloat) : PyM string :=
  (lift (validate_iban from_iban) ;;;
   lift (validate_iban to_iban) ;;;
   lift (validate_concept concept) ;;;
   lift (raise_if (negb (check_regex type_pattern_v0 transfer_type)) invalid_type) ;;;
   validate_transfer_date date ;;;
   lift (validate_amount amount) ;;;
   my_request <- TransferRequest_init from_iban to_iban concept transfer_type date amount ;;
   transfer_list <- load_store TRANSFERS_STORE_FILE ;;
   items <- lift (py_iter transfer_list) ;;
   lift (scan_duplicates my_request items) ;;;
   new_list <- lift (py_append transfer_list (g8x_to_json my_request)) ;;
   save_store TRANSFERS_STORE_FILE new_list ;;;
   ret (g8x_transfer_code my_request))%pym.

(** Lines 174-222.  Line 193 builds a tuple (the pattern and the amount)
    instead of matching: a non-empty tuple is true, so the amount check of
    lines 194-195 never raises. *)
Definition deposit_into_account (input_file : string) : PyM string :=
  (lr <- load_file input_file ;;
   i_d <- lift (match lr with
                | NotFound => Raise input_not_found
                | DecodeError => Raise decode_error
                | Loaded v => Ok v
                end) ;;
   deposit_iban <- lift (catch_key (jget "IBAN" i_d)) ;;
   deposit_amount <- lift (catch_key (jget "AMOUNT" i_d)) ;;
   deposit_iban' <- lift (validate_iban_json deposit_iban) ;;
   deposit_amount_f <- lift (deposit_amount_float deposit_amount) ;;
   lift (raise_if (py_is_zero deposit_amount_f) zero_deposit) ;;;
   let deposit_obj := mkdeposit deposit_iban' deposit_amount_f in
   deposit_list <- load_store DEPOSITS_STORE_FILE ;;
   new_list <- lift (py_append deposit_list (deposit_to_json deposit_obj)) ;;
   save_store DEPOSITS_STORE_FILE new_list ;;;
   ret (deposit_signature deposit_obj))%pym.

(** Lines 225-235. *)
Definition read_transactions_file : PyM json :=
  (lr <- load_file TRANSACTIONS_STORE_FILE ;;
   lift (match lr with
         | NotFound => Raise wrong_path
         | DecodeError => Raise decode_error
         | Loaded v => Ok v
         end))%pym.

(** Lines 238-271. *)
Definition calculate_balance (iban : string) : PyM bool :=
  (iban' <- lift (validate_iban iban) ;;
   t_l <- read_transactions_file ;;
   items <- lift (py_iter t_l) ;;
   st <- lift (sum_matching iban' items false (PFin false 0 0)) ;;
   if negb (fst st) then throw iban_not_found else
   justnow <- now ;;
   let last_balance := JObj [("IBAN", JStr iban'); ("time", JFloat (inst_timestamp justnow));
                             ("BALANCE", JFloat (snd st))] in
   balance_list <- load_store BALANCES_STORE_FILE ;;
   new_list <- lift (py_append balance_list last_balance) ;;
   save_store BALANCES_STORE_FILE new_list ;;;
   ret true)%pym.

End G8X.
End G8X.

(** ** Lemmas *)

Lemma G8X_validate_iban_eq (s : string) : G8X.validate_iban s = validate_iban s.
Proof.
  unfold G8X.validate_iban, validate_iban, G8X.check_regex, check_regular.
  destruct (raise_if _ _); cbn [res_bind]; [|reflexivity].
  destruct (py_int_call _); cbn [res_bind]; [|reflexivity].
  destruct (py_int_call (py_slice 2 4 s)); cbn [res_bind]; [|reflexivity].
  now destruct (Z.eqb _ _).
Qed.

Lemma G8X_validate_iban_ok_digits (s r : string) :
  G8X.validate_iban s = Ok r -> all_digits r = true.
Proof. rewrite G8X_validate_iban_eq. apply validate_iban_ok_digits. Qed.

Lemma g8x_validate_transfer_date_keeps {C : Config} {F : FloatOps} {A : AccountDepositApi}
    {R : G8XRequestApi} (s : string) : keeps_files (G8X.validate_transfer_date s).
Proof. unfold G8X.validate_transfer_date. auto 10 with pyeffect. Qed.

Lemma g8x_request_init_keeps {C : Config} {F : FloatOps} {A : AccountDepositApi}
    {R : G8XRequestApi} f t c ty d a : keeps_files (G8X.TransferRequest_init f t c ty d a).
Proof. unfold G8X.TransferRequest_init. auto with pyeffect. Qed.

#[export] Hint Resolve g8x_validate_transfer_date_keeps g8x_request_init_keeps : pyeffect.

(** ** Properties of the earlier manager *)

Section G8XProps.
Context {C : Config} {F : FloatOps} {A : AccountDepositApi} {R : G8XRequestApi}.

(** C19: the earlier [deposit_into_account] does not check the amount's
    format (line 193 builds a tuple instead of calling the regex): any
    four characters followed by a non-zero decimal literal are accepted,
    a negative amount included, and the deposit is appended to the
    deposit store with the value of the literal and the transformed IBAN
    that [validate_iban] returns. *)
Theorem g8x_deposit_unchecked_amount input_file iban iban3 pre lit x l w :
  files w input_file = FJson (JObj [("IBAN", JStr iban); ("AMOUNT", JStr (pre ++ lit))]) ->
  String.length pre = 4 ->
  G8X.validate_iban iban = Ok iban3 ->
  decimal_literal lit = Some x -> py_is_zero x = false ->
  (files w DEPOSITS_STORE_FILE = FMissing /\ l = []) \/ files w DEPOSITS_STORE_FILE = FJson (JArr l) ->
  G8X.deposit_into_account input_file w =
    (Ok (deposit_signature (mkdeposit iban3 x)),
     mkworld (set_file (files w) DEPOSITS_STORE_FILE
                (FJson (JArr (l ++ [deposit_to_json (mkdeposit iban3 x)])))) (clock w) (ticks w)).
Proof.
  intros Hf Hp Hv Hx Hz Hs.
  unfold G8X.deposit_into_account, bind at 1. unfold load_file at 1. rewrite Hf.
  unfold bind, lift. simpl. rewrite Hv. simpl.
  rewrite <- Hp, py_drop_app, (py_float_of_str_decimal _ _ Hx), Hz. simpl.
  rewrite (load_store_list _ _ _ Hs). simpl.
  rewrite save_store_ok by (destruct Hs as [[-> _] | ->]; discriminate). reflexivity.
Qed.

(** C20: the earlier [calculate_balance] compares each record's ["IBAN"]
    with the digit string [validate_iban] returns, not with the IBAN: on a
    transaction log whose IBANs are strings with a non-digit (every
    ["ES..."] IBAN), it raises "IBAN not found" and changes nothing. *)
Theorem g8x_balance_never_finds_iban iban iban3 l w :
  G8X.validate_iban iban = Ok iban3 ->
  files w TRANSACTIONS_STORE_FILE = FJson (JArr l) ->
  Forall (fun t => exists s, jget "IBAN" t = Ok (JStr s) /\ all_digits s = false) l ->
  G8X.calculate_balance iban w = (Raise iban_not_found, w).
Proof.
  intros Hv Hf Hl. pose proof (G8X_validate_iban_ok_digits _ _ Hv) as Hd.
  unfold G8X.calculate_balance, G8X.read_transactions_file, bind, lift, load_file, throw.
  rewrite Hv, Hf. simpl. now rewrite sum_matching_digits.
Qed.

(** C23: the three handlers of the earlier manager are atomic: a call
    that raises leaves every file as it was (they write once, at the end,
    and a write that fails writes nothing). *)
Theorem g8x_handlers_atomic (from to c ty d iban input_file : string) (a : pyfloat) :
  atomic (G8X.transfer_request from to c ty d a) /\
  atomic (G8X.deposit_into_account input_file) /\
  atomic (G8X.calculate_balance iban).
Proof.
  unfold G8X.transfer_request, G8X.deposit_into_account, G8X.calculate_balance, G8X.read_transactions_file.
  repeat split; atomic_handler.
Qed.

(** C24: The balance handler, when the log's records match: the balance record
    of the transformed IBAN, the first clock reading of the call and the
    sum of the matching amounts is appended to the balance store. *)
Theorem g8x_balance_appends iban iban3 l recs bl w :
  G8X.validate_iban iban = Ok iban3 ->
  files w TRANSACTIONS_STORE_FILE = FJson (JArr l) ->
  Forall2 (record_reads iban3) l recs ->
  fst (balance_spec iban3 recs) = true ->
  (files w BALANCES_STORE_FILE = FMissing /\ bl = []) \/ files w BALANCES_STORE_FILE = FJson (JArr bl) ->
  G8X.calculate_balance iban w =
    (Ok true,
     mkworld (set_file (files w) BALANCES_STORE_FILE
                (FJson (JArr (bl ++ [JObj [("IBAN", JStr iban3);
                                           ("time", JFloat (inst_timestamp (clock w (ticks w))));
                                           ("BALANCE", JFloat (snd (balance_spec iban3 recs)))]]))))
             (clock w) (S (ticks w))).
Proof.
  intros Hv Hf Hl Hfound Hb. unfold G8X.calculate_balance, bind at 1, lift at 1. rewrite Hv.
  apply (balance_tail_ok _ _ l); auto.
  unfold G8X.read_transactions_file, bind, load_file, lift. now rewrite Hf.
Qed.

(** C22: the earlier manager's inline type check (line 117) accepts exactly
    the three words ORDINARY, IMMEDIATE and URGENT, and nothing with a
    prefix or a suffix ([fullmatch] anchors the alternation): the
    immediate type is spelled IMMEDIATE here and INMEDIATE in
    [transfer_request.py], so each version refuses the other's spelling. *)
Theorem g8x_transfer_type_iff (t : string) :
  G8X.check_regex type_pattern_v0 t = true <-> t = "ORDINARY" \/ t = "IMMEDIATE" \/ t = "URGENT".
Proof. apply check_three_words; discriminate. Qed.

End G8XProps.

(** ** Concrete runs *)

#[local] Existing Instances example_config decimal_float_ops example_deposit_api example_g8x_api.

Lemma g8x_deposit_unchecked_amount_witness :
  G8X.deposit_into_account "deposit.json" negative_deposit_world =
    (Ok (deposit_signature (mkdeposit "21000418450200051332142800" (PFin true 1 2))),
     mkworld (set_file (files negative_deposit_world) "deposits.json"
                (FJson (JArr ([] ++ [deposit_to_json (mkdeposit "21000418450200051332142800" (PFin true 1 2))]))))
             (clock negative_deposit_world) (ticks negative_deposit_world)).
Proof.
  apply (g8x_deposit_unchecked_amount (C := example_config) (F := decimal_float_ops)
           (A := example_deposit_api) "deposit.json" "ES9121000418450200051332"
           "21000418450200051332142800" "EUR " "-100.00");
    try (vm_compute; reflexivity).
  left. split; reflexivity.
Defined.

(** The balance example of the specification: the log holds 100.0 and
    -30.0 for the IBAN, and the earlier manager finds nothing. *)
Lemma g8x_balance_never_finds_iban_witness :
  G8X.calculate_balance "ES9121000418450200051332"
    (example_world [("transactions.json",
       FJson (JArr [JObj [("IBAN", JStr "ES9121000418450200051332"); ("amount", JStr "100.0")];
                    JObj [("IBAN", JStr "ES9121000418450200051332"); ("amount", JStr "-30.0")]]))])
  = (Raise iban_not_found,
     example_world [("transactions.json",
       FJson (JArr [JObj [("IBAN", JStr "ES9121000418450200051332"); ("amount", JStr "100.0")];
                    JObj [("IBAN", JStr "ES9121000418450200051332"); ("amount", JStr "-30.0")]]))]).
Proof.
  eapply (g8x_balance_never_finds_iban (C := example_config) (F := decimal_float_ops)
           _ "21000418450200051332142800"); [vm_compute; reflexivity | reflexivity|].
  repeat constructor; eexists; split; reflexivity.
Defined.

Lemma g8x_balance_appends_witness :
  snd (balance_spec "21000418450200051332142800"
         [("21000418450200051332142800", PFin false 1 2); ("21000418450200051332142800", PFin true 3 1)])
    = PFin false 7 1 /\
  G8X.calculate_balance "ES9121000418450200051332" transformed_log_world =
    (Ok true,
     mkworld (set_file (files transformed_log_world) "balances.json"
                (FJson (JArr ([] ++ [JObj [("IBAN", JStr "21000418450200051332142800");
                                           ("time", JFloat (inst_timestamp (clock transformed_log_world
                                                                             (ticks transformed_log_world))));
                                           ("BALANCE", JFloat (snd (balance_spec "21000418450200051332142800"
         [("21000418450200051332142800", PFin false 1 2); ("21000418450200051332142800", PFin true 3 1)])))]]))))
             (clock transformed_log_world) (S (ticks transformed_log_world))).
Proof.
  split; [vm_compute; reflexivity|].
  apply (g8x_balance_appends (C := example_config) (F := decimal_float_ops)
           _ "21000418450200051332142800"
           [JObj [("IBAN", JStr "21000418450200051332142800"); ("amount", JStr "100.0")];
            JObj [("IBAN", JStr "21000418450200051332142800"); ("amount", JStr "-30.0")]]).
  - vm_compute. reflexivity.
  - reflexivity.
  - repeat constructor; intros _; eexists; split; reflexivity.
  - reflexivity.
  - left. split; reflexivity.
Defined.
