(* ===== verification/Versions.v ===== *)
(** * The two versions of [AccountManager.transfer_request] compared

    On a fresh store, a transfer type both patterns judge alike and a
    clock whose date does not change between the first two readings, the
    current version (through the [TransferRequest] constructor) and the
    earlier one (with its checks inline) return or raise alike. *)

From Stdlib Require Import String Ascii List ZArith Lia Bool.
From S2P Require Import Prelude PyStr PyRegex Iban PyFloat Validators Json World TransferRequest AccountManager SrcManager G8XManager.
Import ListNotations.
Open Scope string_scope.

(** ** The two versions of [transfer_request] *)

Section Versions.
Context {C : Config} {D : Digest} {F : FloatOps} {A : AccountDepositApi} {R : G8XRequestApi}.

(** C13: composition of the validators, across the two versions.  On a
    transfer type both versions' patterns judge alike, a clock whose date
    does not change between the first two readings, and an absent
    transfer store, the current [transfer_request] (through the
    [TransferRequest] constructor) and the earlier one (with its checks
    inline) either both return a code or both raise the same exception:
    the same checks run in the same order with the same messages. *)
Theorem versions_agree_on_fresh_store f to c t d a w :
  check_regular type_pattern t = G8X.check_regex type_pattern_v0 t ->
  inst_date (clock w (S (ticks w))) = inst_date (clock w (ticks w)) ->
  files w TRANSFERS_STORE_FILE = FMissing ->
  same_outcome (fst (Src.transfer_request f to c t d a w)) (fst (G8X.transfer_request f to c t d a w)).
Proof.
  intros Ht Hc Hs.
  unfold Src.transfer_request, bind at 1. rewrite TransferRequest_init_eq. cbv zeta.
  unfold G8X.transfer_request, G8X.validate_transfer_date, G8X.validate_concept, G8X.TransferRequest_init.
  rewrite !G8X_validate_iban_eq. unfold validate_transfer_type. rewrite Ht.
  unfold bind at 1 2 3 4 5 6 7 8 9 10, lift, now, ret.
  destruct (validate_iban f) as [x|e]; cbn [res_bind]; [|reflexivity].
  destruct (validate_iban to) as [y|e]; cbn [res_bind]; [|reflexivity].
  unfold validate_concept, G8X.check_regex, check_regular in *.
  destruct (raise_if (negb (py_fullmatch concept_pattern c)) invalid_concept) as [[]|e];
    cbn [res_bind]; [|reflexivity].
  destruct (raise_if (negb (py_fullmatch type_pattern_v0 t)) invalid_type) as [[]|e];
    cbn [res_bind]; [|reflexivity].
  destruct (parse_transfer_date d) as [md|e]; cbn [res_bind]; [|reflexivity].
  rewrite Hc. destruct (check_transfer_date _ md) as [[]|e]; cbn [res_bind]; [|reflexivity].
  destruct (validate_amount a) as [[]|e]; cbn [res_bind]; [|reflexivity].
  rewrite (store_accepts _ _ []) by (cbn; auto). cbn [fst].
  unfold load_store, load_file, bind, lift. cbn - [g8x_to_json g8x_transfer_code]. rewrite Hs.
  cbn - [g8x_to_json g8x_transfer_code].
  unfold save_store, rewrite_store, dump_file. cbn [files]. rewrite Hs. exact I.
Qed.

End Versions.

(** ** Concrete runs *)

#[local] Existing Instances example_config decimal_float_ops example_deposit_api example_g8x_api.

Lemma versions_agree_on_fresh_store_witness :
  same_outcome
    (fst (Src.transfer_request (D := identity_digest) "ES9121000418450200051332" "ES7921000813610123456789"
            "Payment for services" "ORDINARY" "15/06/2025" (PFin false 1005 (-1)) (example_world [])))
    (fst (G8X.transfer_request "ES9121000418450200051332" "ES7921000813610123456789"
            "Payment for services" "ORDINARY" "15/06/2025" (PFin false 1005 (-1)) (example_world []))).
Proof.
  apply (versions_agree_on_fresh_store (C := example_config) (D := identity_digest)
           (R := example_g8x_api));
    vm_compute; reflexivity.
Defined.
